(** * dbkb: retrieval, routing, merging and the correction loop

    A shallow embedding of the core of the Database Knowledge Base service:

    - [src/src/advanced_retrieval/retrieval_techniques.py] (class
      [AdvancedRetrieval]: cache keys, the four cached retrieval methods,
      the relationship executor, deduplication and ranking),
    - [src/app.py] ([classify_query_and_get_targets], the merge step of
      [multi_kb_query]),
    - [src/src/training/feedback_processor.py] ([FeedbackProcessor]).

    Conventions of the embedding.

    - A Python [str] is a Rocq [string], one [ascii] per character; the
      embedding is faithful on ASCII text (case mapping, whitespace and the
      UTF-8 encoding of a character coincide with Python's there).
    - A Python [int] is a [Z]; floor division [//] is [Z.div].
    - A Python [float] (scores, [time.time()]) is a rational [Q]; only
      comparisons and one subtraction are performed on them.
    - [hashlib.md5] is implemented bit for bit (RFC 1321) over 32-bit words
      held in [Z].
    - The two providers (the knowledge-base retriever and the text
      generator) and the clock are oracles indexed by the number of calls
      made so far; every call is recorded in the world state. *)

From Stdlib Require Import ZArith QArith Lia Lqa List String Ascii.
From Stdlib Require Import Permutation Sorted DecimalString.
From stdpp Require Import gmap strings list.

Local Open Scope string_scope.
Local Open Scope Z_scope.

(* ===================================================================== *)
(** * Python string primitives                                            *)
(* ===================================================================== *)

Module Py.

Definition is_upper (c : ascii) : bool :=
  let n := nat_of_ascii c in (65 <=? n)%nat && (n <=? 90)%nat.

Definition is_lower (c : ascii) : bool :=
  let n := nat_of_ascii c in (97 <=? n)%nat && (n <=? 122)%nat.

Definition is_alpha (c : ascii) : bool := is_upper c || is_lower c.

Definition lower_char (c : ascii) : ascii :=
  if is_upper c then ascii_of_nat (nat_of_ascii c + 32) else c.

Definition upper_char (c : ascii) : ascii :=
  if is_lower c then ascii_of_nat (nat_of_ascii c - 32) else c.

(** [s.lower()] *)
Fixpoint lower (s : string) : string :=
  match s with
  | EmptyString => EmptyString
  | String c s' => String (lower_char c) (lower s')
  end.

(** [s.title()]: a letter that follows a letter is lowered, any other
    letter is raised. *)
Fixpoint title_go (prev_cased : bool) (s : string) : string :=
  match s with
  | EmptyString => EmptyString
  | String c s' =>
      if is_alpha c
      then String (if prev_cased then lower_char c else upper_char c)
                  (title_go true s')
      else String c (title_go false s')
  end.

Definition title (s : string) : string := title_go false s.

(** [needle in hay] *)
Fixpoint contains (needle hay : string) : bool :=
  match hay with
  | EmptyString => String.prefix needle EmptyString
  | String _ hay' => String.prefix needle hay || contains needle hay'
  end.

(** [s[:n]] for [0 <= n] *)
Fixpoint take (n : nat) (s : string) : string :=
  match n, s with
  | S n', String c s' => String c (take n' s')
  | _, _ => EmptyString
  end.

(** [bool(s)] *)
Definition truthy (s : string) : bool :=
  match s with EmptyString => false | _ => true end.

(** [str.isspace] on one character *)
Definition is_space (c : ascii) : bool :=
  let n := nat_of_ascii c in
  ((9 <=? n)%nat && (n <=? 13)%nat) || ((28 <=? n)%nat && (n <=? 32)%nat).

Fixpoint lstrip (s : string) : string :=
  match s with
  | EmptyString => EmptyString
  | String c s' => if is_space c then lstrip s' else s
  end.

Fixpoint rstrip (s : string) : string :=
  match s with
  | EmptyString => EmptyString
  | String c s' =>
      match rstrip s' with
      | EmptyString => if is_space c then EmptyString else String c EmptyString
      | r => String c r
      end
  end.

(** [s.strip()] *)
Definition strip (s : string) : string := rstrip (lstrip s).

(** [s.split(sep)] for a one-character separator *)
Fixpoint split (sep : ascii) (s : string) : list string :=
  match s with
  | EmptyString => [EmptyString]
  | String c s' =>
      if Ascii.eqb c sep then EmptyString :: split sep s'
      else match split sep s' with
           | h :: t => String c h :: t
           | [] => [String c EmptyString]
           end
  end.

(** [s.replace(old, new)] for a non-empty [old]: occurrences are replaced
    from the left and do not overlap; [skip] counts the characters of an
    occurrence still to be dropped. *)
Fixpoint replace_go (old new : string) (skip : nat) (s : string) : string :=
  match s with
  | EmptyString => EmptyString
  | String c s' =>
      match skip with
      | S k => replace_go old new k s'
      | O =>
          if String.prefix old s
          then new +:+ replace_go old new (String.length old - 1) s'
          else String c (replace_go old new 0 s')
      end
  end.

(** with an empty [old] Python inserts [new] around every character *)
Fixpoint intersperse (new s : string) : string :=
  match s with
  | EmptyString => new
  | String c s' => new +:+ String c (intersperse new s')
  end.

Definition replace (old new s : string) : string :=
  match old with
  | EmptyString => intersperse new s
  | _ => replace_go old new 0 s
  end.

(** [str(n)] for an [int] *)
Definition str_of_Z (n : Z) : string := NilZero.string_of_int (Z.to_int n).

Definition str_of_nat (n : nat) : string := str_of_Z (Z.of_nat n).

(** [sep.join(parts)] *)
Definition join (sep : string) (parts : list string) : string :=
  String.concat sep parts.

(** [s.encode()]: UTF-8, one byte per ASCII character *)
Definition encode (s : string) : list Z :=
  List.map (fun c => Z.of_nat (nat_of_ascii c)) (list_ascii_of_string s).

(** [l[:n]] for a list and any [int] [n]: a negative bound counts from
    the end. *)
Definition slice_to {A} (n : Z) (l : list A) : list A :=
  if 0 <=? n then firstn (Z.to_nat n) l
  else firstn (length l - Z.to_nat (- n)) l.

End Py.

(* ===================================================================== *)
(** * MD5 (RFC 1321), as computed by [hashlib.md5(...).hexdigest()]        *)
(* ===================================================================== *)

Module MD5.

Definition mask32 : Z := 0xFFFFFFFF.

Definition add32 (a b : Z) : Z := Z.land (a + b) mask32.

Definition not32 (a : Z) : Z := Z.lxor a mask32.

Definition rotl32 (x : Z) (c : Z) : Z :=
  Z.lor (Z.land (Z.shiftl x c) mask32) (Z.shiftr x (32 - c)).

Definition S_table : list Z :=
  [7; 12; 17; 22; 7; 12; 17; 22; 7; 12; 17; 22; 7; 12; 17; 22;
   5; 9; 14; 20; 5; 9; 14; 20; 5; 9; 14; 20; 5; 9; 14; 20;
   4; 11; 16; 23; 4; 11; 16; 23; 4; 11; 16; 23; 4; 11; 16; 23;
   6; 10; 15; 21; 6; 10; 15; 21; 6; 10; 15; 21; 6; 10; 15; 21].

Definition K_table : list Z :=
  [0xd76aa478; 0xe8c7b756; 0x242070db; 0xc1bdceee;
   0xf57c0faf; 0x4787c62a; 0xa8304613; 0xfd469501;
   0x698098d8; 0x8b44f7af; 0xffff5bb1; 0x895cd7be;
   0x6b901122; 0xfd987193; 0xa679438e; 0x49b40821;
   0xf61e2562; 0xc040b340; 0x265e5a51; 0xe9b6c7aa;
   0xd62f105d; 0x02441453; 0xd8a1e681; 0xe7d3fbc8;
   0x21e1cde6; 0xc33707d6; 0xf4d50d87; 0x455a14ed;
   0xa9e3e905; 0xfcefa3f8; 0x676f02d9; 0x8d2a4c8a;
   0xfffa3942; 0x8771f681; 0x6d9d6122; 0xfde5380c;
   0xa4beea44; 0x4bdecfa9; 0xf6bb4b60; 0xbebfbc70;
   0x289b7ec6; 0xeaa127fa; 0xd4ef3085; 0x04881d05;
   0xd9d4d039; 0xe6db99e5; 0x1fa27cf8; 0xc4ac5665;
   0xf4292244; 0x432aff97; 0xab9423a7; 0xfc93a039;
   0x655b59c3; 0x8f0ccc92; 0xffeff47d; 0x85845dd1;
   0x6fa87e4f; 0xfe2ce6e0; 0xa3014314; 0x4e0811a1;
   0xf7537e82; 0xbd3af235; 0x2ad7d2bb; 0xeb86d391].

(** little-endian bytes of a word *)
Fixpoint le_bytes (n : nat) (x : Z) : list Z :=
  match n with
  | O => []
  | S n' => Z.land x 0xFF :: le_bytes n' (Z.shiftr x 8)
  end.

Fixpoint le_word (bs : list Z) : Z :=
  match bs with
  | [] => 0
  | b :: bs' => Z.lor b (Z.shiftl (le_word bs') 8)
  end.

(** the message, one [0x80] byte, zeros up to 56 modulo 64, and the bit
    length on eight bytes *)
Definition pad (msg : list Z) : list Z :=
  let len := Z.of_nat (length msg) in
  let zeros := Z.to_nat ((55 - len) mod 64) in
  (msg ++ [0x80] ++ repeat 0 zeros
   ++ le_bytes 8 (Z.land (8 * len) 0xFFFFFFFFFFFFFFFF))%list.

Fixpoint chunks (fuel : nat) (n : nat) (l : list Z) : list (list Z) :=
  match fuel, l with
  | _, [] => []
  | O, _ => []
  | S fuel', _ => firstn n l :: chunks fuel' n (skipn n l)
  end.

Definition words_of_block (block : list Z) : list Z :=
  List.map le_word (chunks 16 4 block).

Record regs := Regs { rA : Z; rB : Z; rC : Z; rD : Z }.

Definition step (M : list Z) (r : regs) (i : nat) : regs :=
  let '(Regs a b c d) := r in
  let zi := Z.of_nat i in
  let '(f, g) :=
    if (i <? 16)%nat then
      (Z.lor (Z.land b c) (Z.land (not32 b) d), zi)
    else if (i <? 32)%nat then
      (Z.lor (Z.land d b) (Z.land (not32 d) c), (5 * zi + 1) mod 16)
    else if (i <? 48)%nat then
      (Z.lxor (Z.lxor b c) d, (3 * zi + 5) mod 16)
    else
      (Z.lxor c (Z.lor b (not32 d)), (7 * zi) mod 16) in
  let f' := add32 (add32 (add32 f a) (nth i K_table 0)) (nth (Z.to_nat g) M 0) in
  Regs d (add32 b (rotl32 f' (nth i S_table 0))) b c.

Definition process_block (h : regs) (block : list Z) : regs :=
  let M := words_of_block block in
  let r := fold_left (step M) (seq 0 64) h in
  Regs (add32 (rA h) (rA r)) (add32 (rB h) (rB r))
       (add32 (rC h) (rC r)) (add32 (rD h) (rD r)).

Definition init : regs := Regs 0x67452301 0xefcdab89 0x98badcfe 0x10325476.

Definition digest (msg : list Z) : list Z :=
  let p := pad msg in
  let h := fold_left process_block (chunks (length p) 64 p) init in
  (le_bytes 4 (rA h) ++ le_bytes 4 (rB h)
   ++ le_bytes 4 (rC h) ++ le_bytes 4 (rD h))%list.

Definition hex_digit (n : Z) : ascii :=
  if n <? 10 then ascii_of_nat (Z.to_nat (48 + n))
  else ascii_of_nat (Z.to_nat (87 + n)).

Fixpoint hex_of_bytes (bs : list Z) : string :=
  match bs with
  | [] => EmptyString
  | b :: bs' =>
      String (hex_digit (Z.shiftr b 4))
             (String (hex_digit (Z.land b 0xF)) (hex_of_bytes bs'))
  end.

(** [hashlib.md5(s.encode()).hexdigest()] *)
Definition hexdigest (s : string) : string :=
  hex_of_bytes (digest (Py.encode s)).

End MD5.

Arguments MD5.hexdigest : simpl never.

(* ===================================================================== *)
(** * AdvancedRetrieval ([retrieval_techniques.py])                       *)
(* ===================================================================== *)

Module Retrieval.

(** [a < b] on floats *)
Definition Qltb (a b : Q) : bool :=
  match (a ?= b)%Q with Lt => true | _ => false end.

(** ** Data *)

(** One element of [response['retrievalResults']]; a field is [None]
    when the provider left the key out. *)
Record Item := mkItem {
  item_text : option string;
  item_uri : option string;
  item_score : option Q
}.

Record Context := mkContext {
  content : string;
  source : string;
  content_sample : string;
  score : Q;
  from_query : option string
}.

(** The dictionary every method returns; a key that a method does not
    set is [None]. [query_text] also stands for the [table_name] key of
    the relationship executor. *)
Record Result := mkResult {
  query_text : string;
  retrieval_method : string;
  contexts : list Context;
  thinking_process : option string;
  hypothetical_document : option string;
  relationship_analysis : option string;
  error : option string
}.

Record CacheEntry := mkEntry {
  entry_result : Result;
  entry_timestamp : Q
}.

(** ** The world: the instance's cache and the trace of external calls *)

Record World := mkWorld {
  cache : gmap string CacheEntry;
  kb_log : list (string * Z);
  gen_log : list string;
  clock_reads : nat
}.

(** The collaborators. [inl e] is a raised exception whose [str(e)] is
    [e]. The first argument is the number of earlier calls. *)
Record Env := mkEnv {
  kb_retrieve : nat -> string -> Z -> string + list Item;
  invoke_model : nat -> string -> string + string;
  time_time : nat -> Q
}.

Definition empty_world : World := mkWorld ∅ [] [] 0.

(** [self.cache_ttl = 3600] *)
Definition cache_ttl : Q := 3600%Q.

(** ** A state monad over the world *)

Definition M (A : Type) : Type := World -> A * World.

Definition ret {A} (a : A) : M A := fun w => (a, w).

Definition bind {A B} (m : M A) (k : A -> M B) : M B :=
  fun w => let (a, w') := m w in k a w'.

Notation "'let*' x <~ m 'in' k" := (bind m (fun x => k))
  (at level 10, x name, m at level 100, k at level 200).

Section WithEnv.

Variable env : Env.

(** [time.time()] *)
Definition now : M Q := fun w =>
  (time_time env (clock_reads w),
   mkWorld (cache w) (kb_log w) (gen_log w) (S (clock_reads w))).

(** [self.kb_client.retrieve(...)] with the query text and
    [numberOfResults] *)
Definition retrieve (text : string) (number_of_results : Z)
  : M (string + list Item) := fun w =>
  (kb_retrieve env (length (kb_log w)) text number_of_results,
   mkWorld (cache w) (kb_log w ++ [(text, number_of_results)])%list
           (gen_log w) (clock_reads w)).

(** [self.bedrock_client.invoke_model(...)] followed by the extraction
    of the answer text; any exception on the way is [inl]. *)
Definition invoke (prompt : string) : M (string + string) := fun w =>
  (invoke_model env (length (gen_log w)) prompt,
   mkWorld (cache w) (kb_log w) (gen_log w ++ [prompt])%list (clock_reads w)).

(** ** [generate_cache_key] *)

(** [sorted(kwargs.items())] on string keys *)
Fixpoint insert_kw (kv : string * string) (l : list (string * string))
  : list (string * string) :=
  match l with
  | [] => [kv]
  | kv' :: l' =>
      if String.leb (fst kv) (fst kv') then kv :: l
      else kv' :: insert_kw kv l'
  end.

Definition sorted_kwargs (kwargs : list (string * string))
  : list (string * string) :=
  fold_right insert_kw [] kwargs.

Definition generate_cache_key (query_text : string) (num_results : Z)
    (kwargs : list (string * string)) : string :=
  let key_parts :=
    ([query_text; Py.str_of_Z num_results]
     ++ List.map (fun kv => fst kv +:+ ":" +:+ snd kv) (sorted_kwargs kwargs))%list in
  let key_string := Py.join "::" key_parts in
  MD5.hexdigest key_string.

(** ** The cache protocol shared by all methods *)

(** [if cache_key in self.cache and
       time.time() - self.cache[cache_key]['timestamp'] < self.cache_ttl:
       return self.cache[cache_key]['result']]
    The clock is read only when the key is present. *)
Definition cache_lookup (cache_key : string) : M (option Result) := fun w =>
  match cache w !! cache_key with
  | None => (None, w)
  | Some e =>
      let (t, w') := now w in
      if Qltb (t - entry_timestamp e) cache_ttl
      then (Some (entry_result e), w')
      else (None, w')
  end.

(** [self.cache[cache_key] = {'result': result, 'timestamp': time.time()}] *)
Definition cache_store (cache_key : string) (result : Result) : M unit :=
  let* t <~ now in
  fun w => (tt, mkWorld (<[cache_key := mkEntry result t]> (cache w))
                        (kb_log w) (gen_log w) (clock_reads w)).

(** ** Turning provider items into contexts *)

Definition item_content (item : Item) : string :=
  default "" (item_text item).

Definition context_of_item (from : option string) (item : Item) : Context :=
  let text := item_content item in
  mkContext text
            (default "" (item_uri item))
            (if Py.truthy text then Py.take 500 text +:+ "..." else "")
            (default 0%Q (item_score item))
            from.

(** ** Deduplication and ranking (the block repeated in
    [query_expansion], [multi_strategy_retrieval] and
    [relationship_retrieval]) *)

(** [unique_contexts]: a [dict], which keeps its keys in the order of
    their first insertion. *)
Fixpoint dict_get {V} (k : string) (d : list (string * V)) : option V :=
  match d with
  | [] => None
  | (k', v) :: d' => if String.eqb k k' then Some v else dict_get k d'
  end.

Fixpoint dict_set {V} (k : string) (v : V) (d : list (string * V))
  : list (string * V) :=
  match d with
  | [] => [(k, v)]
  | (k', v') :: d' =>
      if String.eqb k k' then (k, v) :: d' else (k', v') :: dict_set k v d'
  end.

Definition dict_values {V} (d : list (string * V)) : list V :=
  List.map snd d.

(** [hashlib.md5(context['content'].encode()).hexdigest()] *)
Definition content_hash (context : Context) : string :=
  MD5.hexdigest (content context).

Definition dedup_step (unique_contexts : list (string * Context))
    (context : Context) : list (string * Context) :=
  match dict_get (content_hash context) unique_contexts with
  | None => dict_set (content_hash context) context unique_contexts
  | Some kept =>
      if Qltb (score kept) (score context)
      then dict_set (content_hash context) context unique_contexts
      else unique_contexts
  end.

Definition deduplicate (all_contexts : list Context)
  : list (string * Context) :=
  fold_left dedup_step all_contexts [].

(** [sorted(..., key=lambda x: x['score'], reverse=True)]: the sort is
    stable, so contexts of equal score keep their relative order. *)
Fixpoint insert_desc (c : Context) (l : list Context) : list Context :=
  match l with
  | [] => [c]
  | d :: l' =>
      if Qltb (score c) (score d) then d :: insert_desc c l' else c :: l
  end.

Definition sorted_desc (l : list Context) : list Context :=
  fold_right insert_desc [] l.

Definition top_contexts (num_results : Z)
    (unique_contexts : list (string * Context)) : list Context :=
  Py.slice_to num_results (sorted_desc (dict_values unique_contexts)).

(** the whole aggregation step *)
Definition aggregate (num_results : Z) (all_contexts : list Context)
  : list Context :=
  top_contexts num_results (deduplicate all_contexts).

(** ** [standard_query] *)

Definition nl : string := String "010"%char EmptyString.

Definition standard_query (query_text : string) (num_results : Z)
  : M Result :=
  let cache_key :=
    generate_cache_key query_text num_results [("method", "standard")] in
  let* hit <~ cache_lookup cache_key in
  match hit with
  | Some cached => ret cached
  | None =>
      let* response <~ retrieve query_text num_results in
      match response with
      | inr items =>
          let result :=
            mkResult query_text "standard"
                     (List.map (context_of_item None) items)
                     None None None None in
          let* _ <~ cache_store cache_key result in
          ret result
      | inl e =>
          let mock_result :=
            mkResult query_text "standard (mock fallback)"
              [mkContext
                 ("This is a mock response. The query was: " +:+ query_text
                  +:+ ". There was an error connecting to the knowledge base: "
                  +:+ e)
                 "mock-source"
                 ("This is a mock response. The query was: " +:+ query_text
                  +:+ "...")
                 1.0%Q
                 None]
              None None None (Some e) in
          ret mock_result
      end
  end.

(** ** [query_expansion] *)

Definition expansion_prompt (query_text : string) : string :=
  "Please generate 3-5 semantically diverse variations of this database query to improve retrieval.
The variations should capture different ways of expressing the same information need, using different terms,
structures, or perspectives. Focus on database terminology, SQL constructs, and schema concepts.

QUERY: " +:+ query_text +:+ "

Provide ONLY the query variations as plain text, one per line. No explanations or additional text.".

Definition generate_expanded_queries (query_text : string)
  : M (list string) :=
  let* response <~ invoke (expansion_prompt query_text) in
  match response with
  | inr result =>
      let queries :=
        List.map Py.strip
          (List.filter (fun q => Py.truthy (Py.strip q))
                       (Py.split "010"%char result)) in
      if existsb (String.eqb query_text) queries
      then ret queries
      else ret (queries ++ [query_text])%list
  | inl _ => ret [query_text]
  end.

(** The loop [for i, query in enumerate(queries)] of [query_expansion]
    and of [relationship_retrieval]: one [retrieve] per query; the
    first exception leaves the loop (and the [try] block). *)
Fixpoint retrieve_each (number_of_results : Z) (i : nat)
    (queries : list string) (all_contexts : list Context)
    (thinking_process : string)
  : M (string + (list Context * string)) :=
  match queries with
  | [] => ret (inr (all_contexts, thinking_process))
  | query :: rest =>
      let thinking_process :=
        thinking_process +:+ Py.str_of_nat (i + 1) +:+ ". " +:+ query +:+ nl in
      let* response <~ retrieve query number_of_results in
      match response with
      | inl e => ret (inl e)
      | inr items =>
          let contexts := List.map (context_of_item (Some query)) items in
          retrieve_each number_of_results (S i) rest
                        (all_contexts ++ contexts)%list thinking_process
      end
  end.

Definition selection_note (all_contexts : list Context)
    (unique_contexts : list (string * Context))
    (sorted_contexts : list Context) : string :=
  nl +:+ "Retrieved " +:+ Py.str_of_nat (length all_contexts)
  +:+ " total contexts, deduplicated to "
  +:+ Py.str_of_nat (length unique_contexts) +:+ " unique contexts."
  +:+ nl +:+ "Selected top " +:+ Py.str_of_nat (length sorted_contexts)
  +:+ " contexts based on relevance score.".

Definition query_expansion (query_text : string) (num_results : Z)
  : M Result :=
  let cache_key :=
    generate_cache_key query_text num_results [("method", "expansion")] in
  let* hit <~ cache_lookup cache_key in
  match hit with
  | Some cached => ret cached
  | None =>
      let* expanded_queries <~ generate_expanded_queries query_text in
      let thinking_process :=
        "Original query: " +:+ query_text +:+ nl +:+ nl
        +:+ "Expanded queries:" +:+ nl in
      let* outcome <~
        retrieve_each num_results 0 expanded_queries [] thinking_process in
      match outcome with
      | inr (all_contexts, thinking_process) =>
          let unique_contexts := deduplicate all_contexts in
          let sorted_contexts := top_contexts num_results unique_contexts in
          let thinking_process :=
            thinking_process
            +:+ selection_note all_contexts unique_contexts sorted_contexts in
          let result :=
            mkResult query_text "query_expansion" sorted_contexts
                     (Some thinking_process) None None None in
          let* _ <~ cache_store cache_key result in
          ret result
      | inl e =>
          ret (mkResult query_text "query_expansion" []
                        None None None (Some e))
      end
  end.

(** ** [hyde_retrieval] *)

Definition hyde_prompt (query_text : string) : string :=
  "Create a hypothetical, ideal document that would perfectly answer this database-related query:

QUERY: " +:+ query_text +:+ "

Create a technical document that contains information that would be the perfect match for this query.
Include specific database concepts, table names, column names, relationships, and technical details that would be
relevant. Write as if this were an excerpt from an actual database documentation or SQL guide.

Respond with the hypothetical document only. Do not include any introductions or explanations.".

Definition generate_hypothetical_document (query_text : string)
  : M string :=
  let* response <~ invoke (hyde_prompt query_text) in
  match response with
  | inr result => ret (Py.strip result)
  | inl _ => ret query_text
  end.

Definition hyde_retrieval (query_text : string) (num_results : Z)
  : M Result :=
  let cache_key :=
    generate_cache_key query_text num_results [("method", "hyde")] in
  let* hit <~ cache_lookup cache_key in
  match hit with
  | Some cached => ret cached
  | None =>
      let* hypothetical_doc <~ generate_hypothetical_document query_text in
      let thinking_process :=
        "Original query: " +:+ query_text +:+ nl +:+ nl
        +:+ "Generated hypothetical document to use for retrieval:" +:+ nl
        +:+ hypothetical_doc +:+ nl in
      let* response <~ retrieve hypothetical_doc num_results in
      match response with
      | inr items =>
          let contexts := List.map (context_of_item None) items in
          let thinking_process :=
            thinking_process +:+ nl +:+ "Retrieved "
            +:+ Py.str_of_nat (length contexts)
            +:+ " contexts using the hypothetical document." in
          let result :=
            mkResult query_text "hyde" contexts (Some thinking_process)
                     (Some hypothetical_doc) None None in
          let* _ <~ cache_store cache_key result in
          ret result
      | inl e =>
          ret (mkResult query_text "hyde" [] None None None (Some e))
      end
  end.

(** ** [multi_strategy_retrieval] *)

Definition method_trace (r : Result) : string :=
  match thinking_process r with
  | Some t => t +:+ nl +:+ nl
  | None =>
      "Retrieved " +:+ Py.str_of_nat (length (contexts r)) +:+ " results"
      +:+ nl +:+ nl
  end.

(** The three sub-calls absorb their own failures and the rest of the
    [try] block is total on the data of this model, so the handler of
    [multi_strategy_retrieval] has nothing to catch here. *)
Definition multi_strategy_retrieval (query_text : string) (num_results : Z)
  : M Result :=
  let cache_key :=
    generate_cache_key query_text num_results [("method", "multi")] in
  let* hit <~ cache_lookup cache_key in
  match hit with
  | Some cached => ret cached
  | None =>
      let results_per_method := Z.max 2 (num_results / 3) in
      let* standard_results <~ standard_query query_text results_per_method in
      let* expansion_results <~ query_expansion query_text results_per_method in
      let* hyde_results <~ hyde_retrieval query_text results_per_method in
      let all_contexts :=
        (contexts standard_results ++ contexts expansion_results
         ++ contexts hyde_results)%list in
      let unique_contexts := deduplicate all_contexts in
      let sorted_contexts := top_contexts num_results unique_contexts in
      let thinking_process :=
        "# Multi-Strategy Retrieval Process" +:+ nl +:+ nl
        +:+ "Query: " +:+ query_text +:+ nl +:+ nl
        +:+ "## Standard Retrieval" +:+ nl
        +:+ "Retrieved "
        +:+ Py.str_of_nat (length (contexts standard_results))
        +:+ " results" +:+ nl +:+ nl
        +:+ "## Query Expansion" +:+ nl
        +:+ method_trace expansion_results
        +:+ "## Hypothetical Document Embedding (HyDE)" +:+ nl
        +:+ method_trace hyde_results
        +:+ "## Aggregation Results" +:+ nl
        +:+ "Combined " +:+ Py.str_of_nat (length all_contexts)
        +:+ " total contexts from all methods" +:+ nl
        +:+ "After deduplication: "
        +:+ Py.str_of_nat (length unique_contexts)
        +:+ " unique contexts" +:+ nl
        +:+ "Final selection: " +:+ Py.str_of_nat (length sorted_contexts)
        +:+ " top contexts by relevance score" +:+ nl in
      let result :=
        mkResult query_text "multi_strategy" sorted_contexts
                 (Some thinking_process) None None None in
      let* _ <~ cache_store cache_key result in
      ret result
  end.

(** ** [relationship_retrieval] *)

Definition relationship_queries (table_name : string) : list string :=
  [ "relationships of " +:+ table_name +:+ " table";
    table_name +:+ " foreign keys";
    "tables that reference " +:+ table_name;
    table_name +:+ " primary key";
    table_name +:+ " table schema relationships" ].

Definition relationship_prompt (table_name context_combined : string)
  : string :=
  "Based on the following database documentation excerpts, provide a comprehensive analysis of all relationships for the '" +:+ table_name +:+ "' table.

DOCUMENTATION EXCERPTS:
" +:+ context_combined +:+ "

Please provide a detailed explanation of:
1. Primary key(s) of the '" +:+ table_name +:+ "' table
2. Foreign keys in '" +:+ table_name +:+ "' that reference other tables
3. Tables that have foreign keys referencing '" +:+ table_name +:+ "'
4. The complete relationship graph of '" +:+ table_name +:+ "'
5. Important notes about these relationships (e.g., cascade delete rules, indexing considerations)

Format your response as a technical but readable analysis with markdown formatting. Use bullet points and tables where appropriate.
If the information is not available in the provided documentation, clearly indicate what's missing.".

Definition generate_relationship_analysis (table_name : string)
    (contexts : list Context) : M string :=
  let context_texts :=
    List.filter Py.truthy (List.map content contexts) in
  let context_combined :=
    Py.join (nl +:+ nl +:+ "---" +:+ nl +:+ nl) context_texts in
  let* response <~ invoke (relationship_prompt table_name context_combined) in
  match response with
  | inr result => ret (Py.strip result)
  | inl e => ret ("Error generating relationship analysis: " +:+ e)
  end.

(** [num_results // len(queries) + 1] *)
Definition per_template (num_results : Z) (queries : list string) : Z :=
  num_results / Z.of_nat (length queries) + 1.

Definition relationship_retrieval (table_name : string) (num_results : Z)
  : M Result :=
  let cache_key :=
    generate_cache_key table_name num_results [("method", "relationship")] in
  let* hit <~ cache_lookup cache_key in
  match hit with
  | Some cached => ret cached
  | None =>
      let queries := relationship_queries table_name in
      let thinking_process :=
        "Retrieving relationship information for table: " +:+ table_name
        +:+ nl +:+ nl +:+ "Generated specialized queries:" +:+ nl in
      let* outcome <~
        retrieve_each (per_template num_results queries) 0 queries []
                      thinking_process in
      match outcome with
      | inr (all_contexts, thinking_process) =>
          let unique_contexts := deduplicate all_contexts in
          let sorted_contexts := top_contexts num_results unique_contexts in
          let thinking_process :=
            thinking_process
            +:+ selection_note all_contexts unique_contexts sorted_contexts in
          let* relationship_analysis <~
            generate_relationship_analysis table_name sorted_contexts in
          let result :=
            mkResult table_name "relationship" sorted_contexts
                     (Some thinking_process) None
                     (Some relationship_analysis) None in
          let* _ <~ cache_store cache_key result in
          ret result
      | inl e =>
          ret (mkResult table_name "relationship" [] None None None (Some e))
      end
  end.

End WithEnv.

End Retrieval.

(* ===================================================================== *)
(** * Routing and merging ([app.py])                                      *)
(* ===================================================================== *)

Module App.

Record ApplicationKBs := mkKBs {
  databaseKnowledgeBaseId : string;
  supportKnowledgeBaseId : option string;
  documentationKnowledgeBaseId : option string
}.

Record QueryTarget := mkTarget {
  type : string;
  kbId : string;
  secondary : option bool
}.

(** [QueryTarget(type=..., kbId=...)]: [secondary] takes its default. *)
Definition target (ty kb : string) : QueryTarget := mkTarget ty kb (Some false).

(** the truth value of an [Optional[str]] *)
Definition configured (kb : option string) : bool :=
  match kb with
  | Some id => Py.truthy id
  | None => false
  end.

Definition db_keywords : list string :=
  ["table"; "column"; "database"; "sql"; "query"; "schema"; "index";
   "foreign key"; "primary key"; "relationship"; "join"].

Definition support_keywords : list string :=
  ["error"; "issue"; "problem"; "troubleshoot"; "fix"; "bug"; "help";
   "support"; "ticket"; "resolve"].

Definition doc_keywords : list string :=
  ["how to"; "guide"; "tutorial"; "documentation"; "manual"; "instruction";
   "feature"; "functionality"].

(** [sum(1 for keyword in keywords if keyword in query_lower)] *)
Definition keyword_score (keywords : list string) (query_lower : string) : Z :=
  Z.of_nat (length (List.filter (fun keyword => Py.contains keyword query_lower)
                                keywords)).

Definition classify_query_and_get_targets (query_text : string)
    (app_kbs : ApplicationKBs) (query_mode : string) : list QueryTarget :=
  if String.eqb query_mode "database" then
    [target "database" (databaseKnowledgeBaseId app_kbs)]
  else if String.eqb query_mode "support" then
    if configured (supportKnowledgeBaseId app_kbs)
    then [target "support" (default "" (supportKnowledgeBaseId app_kbs))]
    else []
  else if String.eqb query_mode "documentation" then
    if configured (documentationKnowledgeBaseId app_kbs)
    then [target "documentation"
                 (default "" (documentationKnowledgeBaseId app_kbs))]
    else []
  else
    let query_lower := Py.lower query_text in
    let db_score := keyword_score db_keywords query_lower in
    let support_score := keyword_score support_keywords query_lower in
    let doc_score := keyword_score doc_keywords query_lower in
    if (db_score >=? support_score) && (db_score >=? doc_score) then
      [target "database" (databaseKnowledgeBaseId app_kbs)]
    else if (support_score >? doc_score)
            && configured (supportKnowledgeBaseId app_kbs) then
      [target "support" (default "" (supportKnowledgeBaseId app_kbs))]
    else if configured (documentationKnowledgeBaseId app_kbs) then
      [target "documentation"
              (default "" (documentationKnowledgeBaseId app_kbs))]
    else
      [target "database" (databaseKnowledgeBaseId app_kbs)].

(** ** The merge step of [multi_kb_query] *)

(** What [advanced_rag_query] returns, with the three keys that
    [multi_kb_query] adds. *)
Record KbResult := mkKbResult {
  answer : string;
  thinking : string;
  retrieved_contexts : list string;
  source_type : string;
  kb_id : string;
  is_secondary : bool
}.

Record HTTPException := mkHTTP { status_code : Z; detail : string }.

Record APIResponse := mkAPI {
  api_answer : string;
  api_thinking : option string;
  api_contexts : option (list string)
}.

Definition nl : string := String "010"%char EmptyString.

(** The loop over the targets. [query_kb] stands for the creation of a
    client and its [advanced_rag_query]; [None] when no client could be
    made or the call raised, in which case the target is skipped. *)
Fixpoint collect_results
    (query_kb : QueryTarget -> option (string * string * list string))
    (targets : list QueryTarget) : list KbResult :=
  match targets with
  | [] => []
  | t :: rest =>
      match query_kb t with
      | Some (a, th, ctxs) =>
          mkKbResult a th ctxs (type t) (kbId t) (default false (secondary t))
          :: collect_results query_kb rest
      | None => collect_results query_kb rest
      end
  end.

(** one line of [secondary_info] *)
Definition excerpt (secondary : KbResult) : string :=
  nl +:+ "*From " +:+ Py.title (source_type secondary) +:+ ":* "
  +:+ Py.take 200 (answer secondary) +:+ "...".

Definition secondary_info (secondary_results : list KbResult) : string :=
  fold_left (fun info secondary => info +:+ excerpt secondary)
            secondary_results
            (nl +:+ nl +:+ "**Related Information:**" +:+ nl).

Definition with_answer (r : KbResult) (a : string) : KbResult :=
  mkKbResult a (thinking r) (retrieved_contexts r) (source_type r)
             (kb_id r) (is_secondary r).

Definition merge_results (results : list KbResult)
  : HTTPException + KbResult :=
  match results with
  | [] => inl (mkHTTP 500 "No knowledge bases could be queried")
  | [only] => inr only
  | first :: _ =>
      let primary_results :=
        List.filter (fun r => negb (is_secondary r)) results in
      let secondary_results := List.filter is_secondary results in
      match primary_results with
      | primary_result :: _ =>
          match secondary_results with
          | [] => inr primary_result
          | _ =>
              inr (with_answer primary_result
                     (answer primary_result
                      +:+ secondary_info secondary_results))
          end
      | [] => inr first
      end
  end.

Definition format_response (include_thinking include_contexts : bool)
    (primary_result : KbResult) : APIResponse :=
  mkAPI (answer primary_result)
        (if include_thinking && Py.truthy (thinking primary_result)
         then Some (thinking primary_result) else None)
        (if include_contexts
            && match retrieved_contexts primary_result with
               | [] => false | _ => true end
         then Some (retrieved_contexts primary_result) else None).

(** [multi_kb_query] from the point where [targets] is known; the
    enclosing handler turns every exception [e] into a status 500 whose
    detail is [str(e)], here [exc_text e]. *)
Definition query_targets
    (exc_text : HTTPException -> string)
    (query_kb : QueryTarget -> option (string * string * list string))
    (include_thinking include_contexts : bool)
    (targets : list QueryTarget) : HTTPException + APIResponse :=
  let rethrow (e : HTTPException) : HTTPException :=
    mkHTTP 500 (exc_text e) in
  match targets with
  | [] =>
      inl (rethrow
             (mkHTTP 400 "No knowledge base targets available for this query"))
  | _ =>
      match merge_results (collect_results query_kb targets) with
      | inl e => inl (rethrow e)
      | inr primary_result =>
          inr (format_response include_thinking include_contexts
                               primary_result)
      end
  end.

End App.

(* ===================================================================== *)
(** * The correction loop ([feedback_processor.py])                       *)
(* ===================================================================== *)

Module Feedback.

(** ** The three tables, with the columns the processor reads or writes *)

Record FeedbackRow := mkFeedback {
  Id : Z;
  KnowledgeBaseId : string;
  CompanyId : Z;
  ProcessingStatus : string;
  FeedbackType : string;
  OriginalQuery : string;
  OriginalResponse : string;
  CorrectedResponse : string;
  FeedbackNotes : string;
  CreatedAt : Z;
  ProcessedAt : option Z;
  ProcessedBy : option string
}.

Record TrainingRow := mkTraining {
  td_Id : Z;
  td_FeedbackId : Z;
  td_CompanyId : Z;
  td_KnowledgeBaseId : string;
  QueryPattern : string;
  CorrectResponse : string;
  IncorrectResponse : string;
  ImprovementNotes : string
}.

Record LogRow := mkLog {
  log_Id : Z;
  log_KnowledgeBaseId : string;
  log_CompanyId : Z;
  ImprovementType : string;
  Description : string;
  TrainingDataIds : string;
  ImplementationMethod : string;
  Status : string;
  IngestionJobId : option string
}.

(** The database behind [connection]. The two counters are the
    AUTO_INCREMENT values of the tables that receive rows. *)
Record DB := mkDB {
  query_feedback : list FeedbackRow;
  training_data : list TrainingRow;
  kb_improvement_log : list LogRow;
  next_training_id : Z;
  next_log_id : Z
}.

(** The environment of one run: the database clock [NOW()], the
    process clock [datetime.now().timestamp()], and the inserts into
    [training_data] that the database refuses (by feedback id). *)
Record Env := mkEnv {
  db_now : Z;
  py_now : Z;
  insert_raises : Z -> bool
}.

Record Outcome := mkOutcome {
  status : string;
  processed : Z;
  training_data_ids : option (list Z)
}.

(** ** [generalize_query_pattern] *)

Definition common_replacements : list (string * string) :=
  [("sales orders", "[SALES_ENTITY]");
   ("customers", "[CUSTOMER_ENTITY]");
   ("products", "[PRODUCT_ENTITY]");
   ("orders", "[ORDER_ENTITY]");
   ("payments", "[PAYMENT_ENTITY]")].

Definition generalize_query_pattern (original_query : string) : string :=
  fold_left (fun pattern tp => Py.replace (fst tp) (snd tp) pattern)
            common_replacements
            (Py.lower original_query).

(** ** [create_training_data] *)

(** [inl tt] when the INSERT raises, otherwise [cursor.lastrowid]. *)
Definition create_training_data (env : Env) (feedback : FeedbackRow)
    (db : DB) : (unit + Z) * DB :=
  let query_pattern := generalize_query_pattern (OriginalQuery feedback) in
  if insert_raises env (Id feedback) then (inl tt, db)
  else
    let training_data_id := next_training_id db in
    (inr training_data_id,
     mkDB (query_feedback db)
          (training_data db
           ++ [mkTraining training_data_id (Id feedback) (CompanyId feedback)
                          (KnowledgeBaseId feedback) query_pattern
                          (CorrectedResponse feedback)
                          (OriginalResponse feedback)
                          (FeedbackNotes feedback)])%list
          (kb_improvement_log db)
          (training_data_id + 1)
          (next_log_id db)).

(** ** [process_pending_feedback] *)

(** the rows the SELECT matches *)
Definition is_pending (kb_id : string) (company_id : Z) (f : FeedbackRow)
  : bool :=
  String.eqb (KnowledgeBaseId f) kb_id
  && (CompanyId f =? company_id)
  && String.eqb (ProcessingStatus f) "pending"
  && String.eqb (FeedbackType f) "correction".

(** [ORDER BY CreatedAt ASC]; rows created at the same time stay in
    table order. *)
Fixpoint insert_by_created (f : FeedbackRow) (l : list FeedbackRow)
  : list FeedbackRow :=
  match l with
  | [] => [f]
  | g :: l' =>
      if CreatedAt g <=? CreatedAt f then g :: insert_by_created f l'
      else f :: l
  end.

Definition select_pending (kb_id : string) (company_id : Z) (db : DB)
  : list FeedbackRow :=
  fold_left (fun acc f => insert_by_created f acc)
            (List.filter (is_pending kb_id company_id) (query_feedback db))
            [].

(** [UPDATE query_feedback SET ProcessingStatus = 'reviewed', ...
     WHERE Id = %s] *)
Definition mark_reviewed (env : Env) (id : Z) (db : DB) : DB :=
  mkDB (List.map (fun f =>
                    if Id f =? id
                    then mkFeedback (Id f) (KnowledgeBaseId f) (CompanyId f)
                                    "reviewed" (FeedbackType f)
                                    (OriginalQuery f) (OriginalResponse f)
                                    (CorrectedResponse f) (FeedbackNotes f)
                                    (CreatedAt f) (Some (db_now env))
                                    (Some "system")
                    else f)
                 (query_feedback db))
       (training_data db) (kb_improvement_log db)
       (next_training_id db) (next_log_id db).

(** the body of [for feedback in pending_feedback] *)
Definition process_one (env : Env) (acc : list Z * DB)
    (feedback : FeedbackRow) : list Z * DB :=
  let '(training_data_ids, db) := acc in
  match create_training_data env feedback db with
  | (inr training_data_id, db') =>
      if training_data_id =? 0 then (training_data_ids, db')
      else ((training_data_ids ++ [training_data_id])%list,
            mark_reviewed env (Id feedback) db')
  | (inl _, db') => (training_data_ids, db')
  end.

(** [json.dumps(training_data_ids)] *)
Definition json_of_ids (ids : list Z) : string :=
  "[" +:+ Py.join ", " (List.map Py.str_of_Z ids) +:+ "]".

(** [generate_corrected_documentation]: the number of documents built
    from [SELECT * FROM training_data WHERE Id IN (...)] *)
Definition corrected_docs (training_data_ids : list Z) (db : DB)
  : list TrainingRow :=
  List.filter (fun t => existsb (Z.eqb (td_Id t)) training_data_ids)
              (training_data db).

(** [update_knowledge_base_with_corrections] *)
Definition ingestion_job_id (env : Env) (improvement_log_id : Z) : string :=
  "job-" +:+ Py.str_of_Z improvement_log_id +:+ "-" +:+ Py.str_of_Z (py_now env).

Definition set_in_progress (job : string) (id : Z) (db : DB) : DB :=
  mkDB (query_feedback db) (training_data db)
       (List.map (fun l =>
                    if log_Id l =? id
                    then mkLog (log_Id l) (log_KnowledgeBaseId l)
                               (log_CompanyId l) (ImprovementType l)
                               (Description l) (TrainingDataIds l)
                               (ImplementationMethod l) "in_progress"
                               (Some job)
                    else l)
                 (kb_improvement_log db))
       (next_training_id db) (next_log_id db).

Definition process_pending_feedback (env : Env) (kb_id : string)
    (company_id : Z) (db : DB) : Outcome * DB :=
  let pending_feedback := select_pending kb_id company_id db in
  match pending_feedback with
  | [] => (mkOutcome "no_pending_feedback" 0 None, db)
  | _ =>
      let '(training_data_ids, db1) :=
        fold_left (process_one env) pending_feedback ([], db) in
      let processed_count := Z.of_nat (length training_data_ids) in
      let db3 :=
        match training_data_ids with
        | [] => db1
        | _ =>
            let improvement_log_id := next_log_id db1 in
            let db2 :=
              mkDB (query_feedback db1) (training_data db1)
                   (kb_improvement_log db1
                    ++ [mkLog improvement_log_id kb_id company_id
                              "content_update"
                              ("Processed " +:+ Py.str_of_Z processed_count
                               +:+ " user corrections")
                              (json_of_ids training_data_ids)
                              "ingestion_job" "planned" None])%list
                   (next_training_id db1) (improvement_log_id + 1) in
            match corrected_docs training_data_ids db2 with
            | [] => db2
            | _ =>
                let job := ingestion_job_id env improvement_log_id in
                if Py.truthy job
                then set_in_progress job improvement_log_id db2
                else db2
            end
        end in
      (mkOutcome "success" processed_count (Some training_data_ids), db3)
  end.

End Feedback.

(* ===================================================================== *)
(** * Answer synthesis ([advanced_rag_query])                             *)
(* ===================================================================== *)

Module Answering.

Import Retrieval.

(** what [advanced_rag_query] returns *)
Record RagAnswer := mkRag {
  answer : string;
  thinking : string;
  retrieved_contexts : list string
}.

(** the double-quote character *)
Definition dq : string := String (ascii_of_nat 34) EmptyString.

(** [get_relevant_corrections]: the body is [return ""] *)
Definition get_relevant_corrections (query_text : string) : string :=
  EmptyString.

Definition not_found_message (query_text : string) : string :=
  "I couldn't find relevant information in the database knowledge base for your query: '"
  +:+ query_text
  +:+ "'. Please try rephrasing your question or check if the topic is covered in the documentation.".

Definition answer_prompt (query_text combined_contexts : string) : string :=
  "You are a SQL query assistant. Based on the retrieved database documentation below, provide ONLY SQL statements that answer the user's query.

USER QUERY: " +:+ query_text +:+ "

RETRIEVED DOCUMENTATION:
" +:+ combined_contexts +:+ "

IMPORTANT INSTRUCTIONS:
1. Respond ONLY with SQL statements - no explanatory text
2. Use proper SQL syntax for the database system
3. Include table aliases for readability
4. Add appropriate WHERE clauses for filtering
5. Use meaningful column names in SELECT statements
6. If multiple queries are needed, separate them with semicolons
7. If user corrections are provided above, prioritize those over general documentation
8. If the query cannot be answered with available schema information, respond with: "
  +:+ dq +:+ "-- Insufficient schema information to generate SQL" +:+ dq +:+ "

SQL Response:".

(** [combined_contexts]: the first ten texts, and the corrections when
    there are any *)
Definition combine_contexts (query_text : string) (context_texts : list string)
  : string :=
  let corrections_context := get_relevant_corrections query_text in
  let combined_contexts :=
    Py.join (nl +:+ nl +:+ "---" +:+ nl +:+ nl) (firstn 10 context_texts) in
  if Py.truthy corrections_context
  then combined_contexts +:+ nl +:+ nl +:+ "--- USER CORRECTIONS ---"
       +:+ nl +:+ nl +:+ corrections_context
  else combined_contexts.

Definition generate_answer_from_contexts (env : Env) (query_text : string)
    (context_texts : list string) : M string :=
  match context_texts with
  | [] => ret (not_found_message query_text)
  | _ =>
      let combined_contexts := combine_contexts query_text context_texts in
      let* response <~ invoke env (answer_prompt query_text combined_contexts) in
      match response with
      | inr result =>
          if Py.truthy (Py.strip result) then ret (Py.strip result)
          else ret ("I found relevant documentation but couldn't generate a proper response. The retrieved information contains: "
                    +:+ Py.take 1000 combined_contexts +:+ "...")
      | inl _ =>
          match context_texts with
          | first :: _ =>
              ret ("Based on the database documentation, here's what I found for your query '"
                   +:+ query_text +:+ "':" +:+ nl +:+ nl
                   +:+ Py.take 2000 first +:+ "...")
          | [] =>
              ret ("I encountered an error while processing your query '"
                   +:+ query_text
                   +:+ "'. Please try again or rephrase your question.")
          end
      end
  end.

(** [advanced_rag_query]: [multi_strategy_retrieval] with its default of
    8 results, then the answer. *)
Definition advanced_rag_query (env : Env) (query_text : string)
    (use_extended_thinking : bool) : M RagAnswer :=
  let* result <~ multi_strategy_retrieval env query_text 8 in
  let contexts := contexts result in
  let context_texts :=
    List.map (fun ctx => Py.strip (content ctx))
             (List.filter (fun ctx => Py.truthy (content ctx)) contexts) in
  let thinking := default "" (thinking_process result) in
  let* answer <~ generate_answer_from_contexts env query_text context_texts in
  ret (mkRag answer
             (if use_extended_thinking then thinking else "")
             context_texts).

(** [query_database_relationships]: [relationship_retrieval] with its
    default of 10 results *)
Definition query_database_relationships (env : Env) (table_name : string)
  : M Result :=
  relationship_retrieval env table_name 10.

End Answering.

(* ===================================================================== *)
(** * SQL optimization: [optimize_sql_query]                              *)
(* ===================================================================== *)

Module Optimize.

Import Retrieval.

(** ** The table pattern, [(?:FROM|JOIN)\s+(\w+)] under [re.IGNORECASE] *)

Definition is_digit (c : ascii) : bool :=
  let n := nat_of_ascii c in (48 <=? n)%nat && (n <=? 57)%nat.

(** the class [\w] *)
Definition is_word (c : ascii) : bool :=
  Py.is_alpha c || is_digit c || Ascii.eqb c "_".

(** the longest prefix of [s] whose characters satisfy [p], and what
    follows it: a greedy [+] or [*] over one character class *)
Fixpoint span (p : ascii -> bool) (s : string) : string * string :=
  match s with
  | EmptyString => (EmptyString, EmptyString)
  | String c s' =>
      if p c then let (a, b) := span p s' in (String c a, b)
      else (EmptyString, s)
  end.

(** [s[n:]] for [0 <= n] *)
Fixpoint drop (n : nat) (s : string) : string :=
  match n, s with
  | S n', String _ s' => drop n' s'
  | _, _ => s
  end.

(** A match of the pattern at the start of [s]: the text of the group
    and the length of the whole match. The two character classes are
    disjoint, so giving back white space never helps the match. *)
Definition match_table (s : string) : option (string * nat) :=
  let keyword := Py.lower (Py.take 4 s) in
  if String.eqb keyword "from" || String.eqb keyword "join" then
    let (spaces, rest) := span Py.is_space (drop 4 s) in
    let (name, _) := span is_word rest in
    if Py.truthy spaces && Py.truthy name
    then Some (name, (4 + String.length spaces + String.length name)%nat)
    else None
  else None.

(** [re.findall]: the matches are searched from the left and do not
    overlap; [skip] counts the characters of a match still to be
    passed. *)
Fixpoint findall_go (skip : nat) (s : string) : list string :=
  match s with
  | EmptyString => []
  | String _ s' =>
      match skip with
      | S k => findall_go k s'
      | O =>
          match match_table s with
          | Some (name, len) => name :: findall_go (len - 1) s'
          | None => findall_go 0 s'
          end
      end
  end.

Definition find_tables (sql_query : string) : list string :=
  findall_go 0 sql_query.

(** ** The requests *)

Definition table_queries (table : string) : list string :=
  [ table +:+ " schema columns indexes";
    table +:+ " table structure";
    table +:+ " primary key and indexes" ].

Definition optimization_query (sql_query : string) : string :=
  "SQL query optimization for: " +:+ Py.take 100 sql_query +:+ "...".

Definition optimization_prompt (sql_query context_combined : string)
  : string :=
  "Analyze and optimize this SQL query. Respond with ONLY the optimized SQL and brief performance comments.

ORIGINAL SQL:
```sql
" +:+ sql_query +:+ "
```

SCHEMA INFORMATION:
" +:+ context_combined +:+ "

Provide:
1. Optimized SQL query with performance improvements
2. Brief comments (-- format) explaining key optimizations
3. Index recommendations as SQL comments

OPTIMIZED SQL:".

Section WithEnv.

Variable env : Env.

(** [for query in table_queries]: one [retrieve] of 3 results per
    query; the first exception leaves the loops (and the [try] block). *)
Fixpoint retrieve_queries (queries : list string)
    (all_contexts : list Context) : M (string + list Context) :=
  match queries with
  | [] => ret (inr all_contexts)
  | query :: rest =>
      let* response <~ retrieve env query 3 in
      match response with
      | inl e => ret (inl e)
      | inr items =>
          let contexts := List.map (context_of_item None) items in
          retrieve_queries rest (all_contexts ++ contexts)%list
      end
  end.

(** [for table in tables] *)
Fixpoint retrieve_tables (tables : list string)
    (all_contexts : list Context) (thinking_process : string)
  : M (string + (list Context * string)) :=
  match tables with
  | [] => ret (inr (all_contexts, thinking_process))
  | table :: rest =>
      let thinking_process :=
        thinking_process +:+ "Retrieving schema information for table: "
        +:+ table +:+ nl in
      let* outcome <~ retrieve_queries (table_queries table) all_contexts in
      match outcome with
      | inl e => ret (inl e)
      | inr all_contexts => retrieve_tables rest all_contexts thinking_process
      end
  end.

(** [generate_sql_optimization] *)
Definition generate_sql_optimization (sql_query : string)
    (contexts : list Context) : M string :=
  let context_texts :=
    List.filter Py.truthy (List.map content contexts) in
  let context_combined :=
    Py.join (nl +:+ nl +:+ "---" +:+ nl +:+ nl) context_texts in
  let* response <~ invoke env (optimization_prompt sql_query context_combined) in
  match response with
  | inr result => ret (Py.strip result)
  | inl e =>
      ret ("Error generating SQL optimization recommendations: " +:+ e)
  end.

(** [optimize_sql_query]. Its dictionary goes into the cache that the
    other methods use; as a [Result], the field [query_text] holds its
    [sql_query] key and the field [relationship_analysis] holds its
    [optimization_analysis] key. The cache key is made with the default
    [num_results] of [generate_cache_key], 5. *)
Definition optimize_sql_query (sql_query : string) : M Result :=
  let cache_key := generate_cache_key sql_query 5 [("method", "optimize")] in
  let* hit <~ cache_lookup env cache_key in
  match hit with
  | Some cached => ret cached
  | None =>
      let tables := find_tables sql_query in
      let thinking_process :=
        "Extracting tables from SQL query:" +:+ nl +:+ sql_query +:+ nl +:+ nl
        +:+ "Identified tables: " +:+ Py.join ", " tables +:+ nl +:+ nl in
      let* outcome <~ retrieve_tables tables [] thinking_process in
      match outcome with
      | inl e =>
          ret (mkResult sql_query "sql_optimization" []
                        None None None (Some e))
      | inr (all_contexts, thinking_process) =>
          let thinking_process :=
            thinking_process
            +:+ "Retrieving relevant query patterns and optimization information"
            +:+ nl in
          let* response <~ retrieve env (optimization_query sql_query) 5 in
          match response with
          | inl e =>
              ret (mkResult sql_query "sql_optimization" []
                            None None None (Some e))
          | inr items =>
              let optimization_contexts :=
                List.map (context_of_item None) items in
              let all_contexts :=
                (all_contexts ++ optimization_contexts)%list in
              let unique_contexts := deduplicate all_contexts in
              let sorted_contexts := top_contexts 10 unique_contexts in
              let thinking_process :=
                thinking_process +:+ "Retrieved "
                +:+ Py.str_of_nat (length all_contexts)
                +:+ " total contexts, deduplicated to "
                +:+ Py.str_of_nat (length sorted_contexts)
                +:+ " contexts for analysis." +:+ nl in
              let* optimization_analysis <~
                generate_sql_optimization sql_query sorted_contexts in
              let result :=
                mkResult sql_query "sql_optimization" sorted_contexts
                         (Some thinking_process) None
                         (Some optimization_analysis) None in
              let* _ <~ cache_store env cache_key result in
              ret result
          end
      end
  end.

End WithEnv.

End Optimize.

(* ===================================================================== *)
(** * The command line tool: [train_from_feedback.main]                   *)
(* ===================================================================== *)

Module Train.

Import Feedback.

(** the query of the dry run: the number of rows that
    [process_pending_feedback] would select *)
Definition count_pending (kb_id : string) (company_id : Z) (db : DB) : Z :=
  Z.of_nat (length (List.filter (is_pending kb_id company_id)
                                (query_feedback db))).

(** [main]: the exit code, the lines printed and the database as it is
    left. [connection] is what [get_chat_db_connection] returns, and
    [processor_ok] tells whether [FeedbackProcessor()] could be made;
    any exception ends the run with exit code 1. *)
Definition main (env : Env) (connection : option DB) (processor_ok : bool)
    (kb_id : string) (company_id : Z) (dry_run : bool)
  : Z * list string * option DB :=
  match connection with
  | None => (1, [], None)
  | Some db =>
      if negb processor_ok then (1, [], Some db)
      else if dry_run then
        (0,
         ["Would process " +:+ Py.str_of_Z (count_pending kb_id company_id db)
          +:+ " pending feedback items for KB " +:+ kb_id],
         Some db)
      else
        let (result, db') :=
          process_pending_feedback env kb_id company_id db in
        (0,
         ["Processed " +:+ Py.str_of_Z (processed result)
          +:+ " feedback items";
          "Status: " +:+ status result],
         Some db')
  end.

End Train.

(* ===================================================================== *)
(** * The endpoints of [app.py]                                           *)
(* ===================================================================== *)

Module Endpoints.

(** [UserContext]: the field the endpoints read *)
Record UserContext := mkUser { application : string }.

Record QueryRequest := mkQuery {
  query_text : string;
  extended_thinking : bool;
  include_contexts : bool;
  include_thinking : bool;
  userContext : option UserContext;
  queryTargets : option (list App.QueryTarget);
  queryMode : option string
}.

(** ** The clients of [utils/retrieval.py] *)

(** A client is an [AdvancedRetrieval], with its cache and the trace of
    its external calls, or a [MockRetrievalClient] with its [kb_id]. *)
Inductive Client :=
| Real (w : Retrieval.World)
| Mock (kb_id : string).

(** [get_retrieval_client()]: whatever goes wrong while the
    [AdvancedRetrieval] is made, a [MockRetrievalClient(None)] is
    returned, whose [kb_id] is [mock-kb-id]. *)
Definition get_retrieval_client (bedrock_available : bool) : Client :=
  if bedrock_available then Real Retrieval.empty_world
  else Mock "mock-kb-id".

(** [client.advanced_rag_query(query_text, use_extended_thinking)] *)
Definition advanced_rag_query (env : Retrieval.Env) (client : Client)
    (query_text : string) (use_extended_thinking : bool)
  : Answering.RagAnswer * Client :=
  match client with
  | Real w =>
      let (result, w') :=
        Answering.advanced_rag_query env query_text use_extended_thinking w in
      (result, Real w')
  | Mock kb_id =>
      (Answering.mkRag
         ("Mock response from KB " +:+ kb_id +:+ " for query: '" +:+ query_text
          +:+ "'. This is a test response because the Knowledge Base connection is not available. Please check your AWS credentials and Knowledge Base configuration.")
         ("This is a mock thinking process for KB " +:+ kb_id
          +:+ " because the real Bedrock Knowledge Base is not accessible.")
         ["Mock context 1 from KB " +:+ kb_id
          +:+ ": Database schema information would appear here";
          "Mock context 2 from KB " +:+ kb_id
          +:+ ": Query examples would appear here";
          "Mock context 3 from KB " +:+ kb_id
          +:+ ": Relationship information would appear here"],
       Mock kb_id)
  end.

(** The keys of the dictionary of [query_database_relationships] that
    the endpoint reads; [None] when the dictionary has no such key. An
    [AdvancedRetrieval] names its contexts [contexts], so its dictionary
    never has [retrieved_contexts]. *)
Record RelationshipView := mkView {
  relationship_analysis : option string;
  thinking_process : option string;
  retrieved_contexts : option (list string)
}.

(** [client.query_database_relationships(table_name)] *)
Definition query_database_relationships (env : Retrieval.Env)
    (client : Client) (table_name : string) : RelationshipView * Client :=
  match client with
  | Real w =>
      let (result, w') :=
        Answering.query_database_relationships env table_name w in
      (mkView (Retrieval.relationship_analysis result)
              (Retrieval.thinking_process result)
              None,
       Real w')
  | Mock kb_id =>
      (mkView
         (Some ("Mock relationship analysis for table '" +:+ table_name
                +:+ "'. This table would have foreign key relationships, indexes, and constraints that would be described here if the Knowledge Base was connected."))
         (Some "Mock thinking process for relationship analysis.")
         (Some ["Mock context about " +:+ table_name +:+ " relationships";
                "Mock context about " +:+ table_name +:+ " constraints"]),
       Mock kb_id)
  end.

(** ** The handlers *)

(** The global [retrieval_client]; [None] until the first request that
    needs it. *)
Definition Server : Type := option Client.

(** [if not retrieval_client: retrieval_client = get_retrieval_client()].
    [get_retrieval_client] does not raise, so the handler that answers
    "Service initialization failed" has nothing to catch. *)
Definition ensure_client (bedrock_available : bool) (server : Server)
  : Client :=
  match server with
  | Some client => client
  | None => get_retrieval_client bedrock_available
  end.

(** the response made from [answer], [thinking] and
    [retrieved_contexts] *)
Definition rag_response (include_thinking include_contexts : bool)
    (result : Answering.RagAnswer) : App.APIResponse :=
  App.mkAPI (Answering.answer result)
            (if include_thinking && Py.truthy (Answering.thinking result)
             then Some (Answering.thinking result) else None)
            (if include_contexts
                && match Answering.retrieved_contexts result with
                   | [] => false | _ => true end
             then Some (Answering.retrieved_contexts result) else None).

Section WithEnv.

(** The collaborators of the handlers: the text of an exception, the
    [application] table, the clients made for single targets, the
    environment of the global client and whether that client can be an
    [AdvancedRetrieval]. *)
Variable exc_text : App.HTTPException -> string.
Variable get_application_kbs : string -> option App.ApplicationKBs.
Variable query_kb : App.QueryTarget -> option (string * string * list string).
Variable env : Retrieval.Env.
Variable bedrock_available : bool.

(** [query_knowledge_base] when the request brings no [queryTargets]:
    the single knowledge base. Nothing in it raises. *)
Definition single_kb_query (request : QueryRequest) (server : Server)
  : (App.HTTPException + App.APIResponse) * Server :=
  let client := ensure_client bedrock_available server in
  let (result, client') :=
    advanced_rag_query env client (query_text request)
                       (extended_thinking request) in
  (inr (rag_response (include_thinking request) (include_contexts request)
                     result),
   Some client').

(** the truth value of [request.queryTargets and
    len(request.queryTargets) > 0] *)
Definition explicit_targets (request : QueryRequest)
  : option (list App.QueryTarget) :=
  match queryTargets request with
  | Some (t :: ts) => Some (t :: ts)
  | _ => None
  end.

(** [multi_kb_query]. Its last branch calls [query_knowledge_base] with
    a request that has no targets, which is [single_kb_query]. *)
Definition multi_kb_query (request : QueryRequest) (server : Server)
  : (App.HTTPException + App.APIResponse) * Server :=
  match explicit_targets request with
  | Some targets =>
      (App.query_targets exc_text query_kb (include_thinking request)
                         (include_contexts request) targets,
       server)
  | None =>
      match userContext request with
      | Some user =>
          if Py.truthy (application user) then
            match get_application_kbs (application user) with
            | None =>
                (inl (App.mkHTTP 500
                        (exc_text
                           (App.mkHTTP 400
                              ("Application '" +:+ application user
                               +:+ "' not found or has no knowledge bases configured")))),
                 server)
            | Some app_kbs =>
                let mode :=
                  match queryMode request with
                  | Some m => if Py.truthy m then m else "smart"
                  | None => "smart"
                  end in
                (App.query_targets exc_text query_kb
                   (include_thinking request) (include_contexts request)
                   (App.classify_query_and_get_targets (query_text request)
                                                       app_kbs mode),
                 server)
            end
          else single_kb_query request server
      | None => single_kb_query request server
      end
  end.

(** [query_knowledge_base]: an exception of [multi_kb_query] passes
    through the handler of this endpoint as well. *)
Definition query_knowledge_base (request : QueryRequest) (server : Server)
  : (App.HTTPException + App.APIResponse) * Server :=
  match explicit_targets request with
  | Some _ =>
      match multi_kb_query request server with
      | (inl e, server') => (inl (App.mkHTTP 500 (exc_text e)), server')
      | (inr response, server') => (inr response, server')
      end
  | None => single_kb_query request server
  end.

(** [analyze_table_relationships]; nothing in it raises. *)
Definition analyze_table_relationships (table_name : string)
    (include_contexts include_thinking : bool) (server : Server)
  : App.APIResponse * Server :=
  let client := ensure_client bedrock_available server in
  let (result, client') :=
    query_database_relationships env client table_name in
  (App.mkAPI (default "" (relationship_analysis result))
             (match thinking_process result with
              | Some t =>
                  if include_thinking && Py.truthy t then Some t else None
              | None => None
              end)
             (if include_contexts
              then Some (default [] (retrieved_contexts result))
              else None),
   Some client').

(** the endpoint [optimize_sql_query] of [app.py]; nothing in it
    raises. *)
Definition optimize_sql_query (sql_query : string)
    (include_contexts include_thinking : bool) (server : Server)
  : App.APIResponse * Server :=
  let client := ensure_client bedrock_available server in
  let optimization_query :=
    "How can I optimize this SQL query? " +:+ sql_query in
  let (result, client') :=
    advanced_rag_query env client optimization_query true in
  (rag_response include_thinking include_contexts result, Some client').

End WithEnv.

End Endpoints.

(* ===================================================================== *)
(** * Vocabulary of the statements                                        *)
(* ===================================================================== *)

Import Retrieval.
Import App.

(** What the dictionary holds once the contexts [seen] went through the
    loop. *)
Record dedup_inv (seen : list Context) (d : list (string * Context)) : Prop :=
  mkDedupInv {
    inv_nodup : List.NoDup (List.map fst d);
    inv_sound : forall k v,
      dict_get k d = Some v -> k = content_hash v /\ In v seen;
    inv_best : forall c,
      In c seen ->
      exists v, dict_get (content_hash c) d = Some v /\ (score c <= score v)%Q
  }.

(** [a] may stand before [b] in a list sorted by score, best first. *)
Definition score_ge (a b : Context) : Prop := (score b <= score a)%Q.

Definition sample_context (text : string) (s : Q) : Context :=
  mkContext text "s3://docs" "" s None.

Definition sample_contexts : list Context :=
  [sample_context "orders table" 0.5; sample_context "users table" 0.7;
   sample_context "orders table" 0.9; sample_context "items table" 0.2].

(** The normalisation named by the specification (fold case, collapse
    each run of whitespace into one space); the code has no counterpart,
    it is stated here only to compare against [content_hash]. *)
Fixpoint spec_collapse (in_space : bool) (s : string) : string :=
  match s with
  | EmptyString => EmptyString
  | String c s' =>
      if Py.is_space c
      then if in_space then spec_collapse true s'
           else String " "%char (spec_collapse true s')
      else String c (spec_collapse false s')
  end.

Definition spec_normalize (s : string) : string :=
  spec_collapse false (Py.lower s).

(** the world after one reading of the clock *)
Definition tick (w : World) : World :=
  mkWorld (cache w) (kb_log w) (gen_log w) (S (clock_reads w)).

(** the timestamp of an entry is younger than the time to live *)
Definition fresh (t : Q) (e : CacheEntry) : Prop :=
  (t - entry_timestamp e < cache_ttl)%Q.

Definition standard_key (query_text : string) (num_results : Z) : string :=
  generate_cache_key query_text num_results [("method", "standard")].

Definition sample_item : Item :=
  mkItem (Some "orders has a customer_id column")
         (Some "s3://docs/orders.md") (Some 0.8%Q).

(** A provider that answers its first request and fails afterwards, a
    generator that is down, and a clock that reads 0 and then 4000. *)
Definition flaky_env : Env :=
  mkEnv (fun n _ _ => match n with O => inr [sample_item] | _ => inl "timeout" end)
        (fun _ _ => inl "unavailable")
        (fun n => match n with O => 0%Q | _ => 4000%Q end).

Definition sample_entry : CacheEntry :=
  mkEntry (mkResult "q" "standard" [] None None None None) 0%Q.

Definition sample_world : World :=
  mkWorld (<[standard_key "q" 5 := sample_entry]> ∅) [] [] 0.

(** a world in which the provider has already been called once *)
Definition used_world : World := mkWorld ∅ [("warm-up", 1)] [] 1.

(** "[k] / 5 rounded up", in the words of the specification *)
Definition spec_ceil_div (k n : Z) : Z := (k + n - 1) / n.

Definition relationship_key (table_name : string) (num_results : Z) : string :=
  generate_cache_key table_name num_results [("method", "relationship")].

(** a provider and a generator that always answer, a clock that stands
    still *)
Definition steady_env : Env :=
  mkEnv (fun _ _ _ => inr [sample_item])
        (fun _ _ => inr "analysis")
        (fun _ => 0%Q).

(** no entry of the cache holds a result with an [error] key *)
Definition cache_ok (c : gmap string CacheEntry) : Prop :=
  forall key e, c !! key = Some e -> error (entry_result e) = None.


(** What one call leaves behind: the invariant of the cache, the entries
    it may have written, and the logs, which only grow. *)
Record call_ok (w : World) (r : Result) (w' : World) : Prop := mkCallOk {
  ok_cache : cache_ok (cache w) -> cache_ok (cache w');
  ok_result : cache_ok (cache w) -> error r <> None -> cache w' = cache w;
  ok_clock : (clock_reads w <= clock_reads w')%nat;
  ok_gen : (length (gen_log w) <= length (gen_log w'))%nat
}.

Definition expansion_key (query_text : string) (num_results : Z) : string :=
  generate_cache_key query_text num_results [("method", "expansion")].

Definition hyde_key (query_text : string) (num_results : Z) : string :=
  generate_cache_key query_text num_results [("method", "hyde")].

Definition multi_key (query_text : string) (num_results : Z) : string :=
  generate_cache_key query_text num_results [("method", "multi")].


Inductive Call :=
| CallStandard (query_text : string) (num_results : Z)
| CallExpansion (query_text : string) (num_results : Z)
| CallHyde (query_text : string) (num_results : Z)
| CallMulti (query_text : string) (num_results : Z)
| CallRelationship (table_name : string) (num_results : Z).

Definition run_call (env : Env) (c : Call) : M Result :=
  match c with
  | CallStandard q k => standard_query env q k
  | CallExpansion q k => query_expansion env q k
  | CallHyde q k => hyde_retrieval env q k
  | CallMulti q k => multi_strategy_retrieval env q k
  | CallRelationship t k => relationship_retrieval env t k
  end.

(** the world after a sequence of calls *)
Definition run_calls (env : Env) (history : list Call) (w : World) : World :=
  fold_left (fun w c => snd (run_call env c w)) history w.




Definition forced (query_mode : string) : Prop :=
  query_mode = "database" \/ query_mode = "support"
  \/ query_mode = "documentation".

(** the three counts of smart mode *)
Definition db_score (query_text : string) : Z :=
  keyword_score db_keywords (Py.lower query_text).

Definition support_score (query_text : string) : Z :=
  keyword_score support_keywords (Py.lower query_text).

Definition doc_score (query_text : string) : Z :=
  keyword_score doc_keywords (Py.lower query_text).

(** the count that belongs to a target type *)
Definition score_of_type (query_text : string) (ty : string) : Z :=
  if String.eqb ty "database" then db_score query_text
  else if String.eqb ty "support" then support_score query_text
  else doc_score query_text.

Definition all_sources : ApplicationKBs :=
  mkKBs "KB-DATABASE" (Some "KB-SUPPORT") (Some "KB-DOCS").

(** the concatenation of a list of strings *)
Definition concat_all (parts : list string) : string :=
  fold_right String.append EmptyString parts.

Definition related_header : string :=
  nl +:+ nl +:+ "**Related Information:**" +:+ nl.

Definition long_answer (c : ascii) : string :=
  string_of_list_ascii (repeat c 250).

Definition sample_results : list KbResult :=
  [mkKbResult (long_answer "A") "" [] "support" "KB-SUPPORT" false;
   mkKbResult (long_answer "B") "" [] "database" "KB-DATABASE" true].

Definition reviewed_row : Feedback.FeedbackRow :=
  Feedback.mkFeedback 1 "KB-DATABASE" 7 "reviewed" "correction"
             "show sales orders" "SELECT 1" "SELECT * FROM db_order"
             "wrong table" 100 (Some 200) (Some "system").

Definition rating_row : Feedback.FeedbackRow :=
  Feedback.mkFeedback 2 "KB-DATABASE" 7 "pending" "rating"
             "list customers" "SELECT 2" "" "" 110 None None.

Definition pending_row : Feedback.FeedbackRow :=
  Feedback.mkFeedback 3 "KB-DATABASE" 7 "pending" "correction"
             "Show Sales Orders of customers" "SELECT 3"
             "SELECT * FROM db_order o JOIN customer c ON c.id = o.customer_id"
             "join was missing" 120 None None.

Definition quiet_db : Feedback.DB := Feedback.mkDB [reviewed_row; rating_row] [] [] 1 1.

Definition busy_db : Feedback.DB := Feedback.mkDB [reviewed_row; rating_row; pending_row] [] [] 1 1.

Definition sample_feedback_env : Feedback.Env :=
  Feedback.mkEnv 500 1700000000 (fun _ => false).

(** the row [f] after [UPDATE query_feedback SET ProcessingStatus =
    'reviewed', ProcessedAt = NOW(), ProcessedBy = 'system'] *)
Definition reviewed (env : Feedback.Env) (f : Feedback.FeedbackRow)
  : Feedback.FeedbackRow :=
  Feedback.mkFeedback (Feedback.Id f) (Feedback.KnowledgeBaseId f)
                      (Feedback.CompanyId f) "reviewed"
                      (Feedback.FeedbackType f) (Feedback.OriginalQuery f)
                      (Feedback.OriginalResponse f)
                      (Feedback.CorrectedResponse f)
                      (Feedback.FeedbackNotes f) (Feedback.CreatedAt f)
                      (Some (Feedback.db_now env)) (Some "system").

(** a feedback row once the rows with an id in [ids] have been reviewed *)
Definition mark_ids (env : Feedback.Env) (ids : list Z)
    (f : Feedback.FeedbackRow) : Feedback.FeedbackRow :=
  if existsb (Z.eqb (Feedback.Id f)) ids then reviewed env f else f.

(** the rows whose INSERT into [training_data] the database accepts *)
Definition accepted (env : Feedback.Env) (l : list Feedback.FeedbackRow)
  : list Feedback.FeedbackRow :=
  List.filter (fun f => negb (Feedback.insert_raises env (Feedback.Id f))) l.

(** the training rows made from the feedback rows [l], numbered from
    [start] *)
Fixpoint training_rows (start : Z) (l : list Feedback.FeedbackRow)
  : list Feedback.TrainingRow :=
  match l with
  | [] => []
  | f :: l' =>
      Feedback.mkTraining start (Feedback.Id f) (Feedback.CompanyId f)
        (Feedback.KnowledgeBaseId f)
        (Feedback.generalize_query_pattern (Feedback.OriginalQuery f))
        (Feedback.CorrectedResponse f) (Feedback.OriginalResponse f)
        (Feedback.FeedbackNotes f)
      :: training_rows (start + 1) l'
  end.

(** [a] was created no later than [b] *)
Definition created_le (a b : Feedback.FeedbackRow) : Prop :=
  Feedback.CreatedAt a <= Feedback.CreatedAt b.

(** the columns of a feedback row that the processor never writes *)
Definition feedback_payload (f : Feedback.FeedbackRow)
  : Z * string * Z * string * string * string * string * string * Z :=
  (Feedback.Id f, Feedback.KnowledgeBaseId f, Feedback.CompanyId f,
   Feedback.FeedbackType f, Feedback.OriginalQuery f,
   Feedback.OriginalResponse f, Feedback.CorrectedResponse f,
   Feedback.FeedbackNotes f, Feedback.CreatedAt f).

(** the character [c] does not occur in [s] *)
Definition avoids (c : ascii) (s : string) : bool :=
  forallb (fun x => negb (Ascii.eqb x c)) (list_ascii_of_string s).

(** the nouns that [generalize_query_pattern] replaces *)
Definition generalized_terms : list string :=
  List.map fst Feedback.common_replacements.

Definition optimize_key (sql_query : string) : string :=
  generate_cache_key sql_query 5 [("method", "optimize")].

(** every character of [s] is a word character *)
Definition all_word (s : string) : bool :=
  forallb Optimize.is_word (list_ascii_of_string s).

(** the requests of [optimize_sql_query] for the tables [tables] *)
Definition table_requests (tables : list string) : list (string * Z) :=
  List.concat
    (List.map (fun t => List.map (fun q => (q, 3)) (Optimize.table_queries t))
              tables).

(** The first of [requests] that raises, with its position, when they
    are sent in order after [calls] earlier requests; [None] when every
    request is answered. *)
Fixpoint first_failure (env : Retrieval.Env) (calls : nat)
    (requests : list (string * Z)) : option (nat * string) :=
  match requests with
  | [] => None
  | (text, n) :: rest =>
      match kb_retrieve env calls text n with
      | inl e => Some (0%nat, e)
      | inr _ =>
          match first_failure env (S calls) rest with
          | Some (i, e) => Some (S i, e)
          | None => None
          end
      end
  end.

(** Sent in order after [calls] earlier requests, request number [idx]
    of [requests] (from 0) raises [err] and the requests before it are
    answered. *)
Definition raises_at (env : Retrieval.Env) (calls : nat)
    (requests : list (string * Z)) (idx : nat) (err : string) : Prop :=
  (idx < length requests)%nat
  /\ (forall j, (j < idx)%nat ->
        exists items,
          kb_retrieve env (calls + j) (fst (nth j requests ("", 0)))
                      (snd (nth j requests ("", 0)))
          = inr items)
  /\ kb_retrieve env (calls + idx) (fst (nth idx requests ("", 0)))
                 (snd (nth idx requests ("", 0)))
     = inl err.

(* ===================================================================== *)
(** * Checks of the primitives against the reference implementation       *)
(* ===================================================================== *)

Example md5_empty : MD5.hexdigest "" = "d41d8cd98f00b204e9800998ecf8427e".
Proof. vm_compute. reflexivity. Qed.

Example md5_abc : MD5.hexdigest "abc" = "900150983cd24fb0d6963f7d28e17f72".
Proof. vm_compute. reflexivity. Qed.

Example md5_two_blocks :
  MD5.hexdigest (string_of_list_ascii (repeat "x"%char 56))
  = "668a72d5ba17f08e62dabcafad6db14b".
Proof. vm_compute. reflexivity. Qed.

Example md5_119_bytes :
  MD5.hexdigest (string_of_list_ascii (repeat "x"%char 119))
  = "ab347a5f68c8a443cfcddc633f12c24f".
Proof. vm_compute. reflexivity. Qed.

Example cache_key_standard :
  Retrieval.generate_cache_key "q" 5 [("method", "standard")]
  = "23c1a95412eaf6ef1827bfc71b6f9647".
Proof. vm_compute. reflexivity. Qed.

Example title_examples :
  Py.title "database" = "Database" /\ Py.title "foo bAR-baz" = "Foo Bar-Baz".
Proof. vm_compute. auto. Qed.

Example strip_examples : Py.strip "  a b  " = "a b" /\ Py.strip "   " = "".
Proof. vm_compute. auto. Qed.

Example replace_example :
  Py.replace "orders" "[O]" "sales orders and ordersorders"
  = "sales [O] and [O][O]".
Proof. vm_compute. reflexivity. Qed.

Example generalize_example :
  Feedback.generalize_query_pattern "Show Sales Orders of customers"
  = "show [SALES_ENTITY] of [CUSTOMER_ENTITY]".
Proof. vm_compute. reflexivity. Qed.

Example str_examples :
  Py.str_of_Z 0 = "0" /\ Py.str_of_Z 120 = "120" /\ Py.str_of_Z (-7) = "-7".
Proof. vm_compute. auto. Qed.

Example slice_examples :
  Py.slice_to 2 [1; 2; 3] = [1; 2] /\ Py.slice_to 5 [1; 2; 3] = [1; 2; 3]
  /\ Py.slice_to (-1) [1; 2; 3] = [1; 2] /\ Py.slice_to (-7) [1; 2; 3] = [].
Proof. vm_compute. auto. Qed.

(* ===================================================================== *)
(** * Facts about the primitives                                          *)
(* ===================================================================== *)

Lemma Qltb_true (a b : Q) : Qltb a b = true <-> (a < b)%Q.
Proof.
  unfold Qltb. rewrite Qlt_alt. destruct (a ?= b)%Q; split; congruence.
Qed.

Lemma Qltb_false (a b : Q) : Qltb a b = false <-> (b <= a)%Q.
Proof.
  unfold Qltb. rewrite Qle_alt, <- (Qcompare_antisym a b).
  destruct (a ?= b)%Q; simpl; split; congruence.
Qed.

Lemma take_length_le (n : nat) (s : string) :
  (String.length (Py.take n s) <= n)%nat.
Proof.
  revert s. induction n as [|n IH]; intros [|c s]; simpl; try lia.
  specialize (IH s). lia.
Qed.

Lemma take_length_exact (n : nat) (s : string) :
  (n <= String.length s)%nat -> String.length (Py.take n s) = n.
Proof.
  revert s. induction n as [|n IH]; intros [|c s]; simpl; intros H; try lia.
  rewrite IH; lia.
Qed.

Lemma take_prefix (n : nat) (s : string) :
  String.prefix (Py.take n s) s = true.
Proof.
  revert s. induction n as [|n IH]; intros [|c s]; simpl; try reflexivity.
  destruct (ascii_dec c c); [apply IH | congruence].
Qed.

Lemma append_cons (c : ascii) (a b : string) :
  String c a +:+ b = String c (a +:+ b).
Proof. reflexivity. Qed.

Lemma append_nil_l (b : string) : EmptyString +:+ b = b.
Proof. reflexivity. Qed.

Lemma prefix_app (a b : string) : String.prefix a (a +:+ b) = true.
Proof.
  induction a as [|c a IH].
  - rewrite append_nil_l. destruct b; reflexivity.
  - rewrite append_cons. simpl.
    destruct (ascii_dec c c); [exact IH | congruence].
Qed.

Lemma append_assoc (a b c : string) : (a +:+ b) +:+ c = a +:+ (b +:+ c).
Proof.
  induction a as [|x a IH].
  - now rewrite !append_nil_l.
  - now rewrite !append_cons, IH.
Qed.

Lemma append_length (a b : string) :
  String.length (a +:+ b) = (String.length a + String.length b)%nat.
Proof.
  induction a as [|x a IH].
  - now rewrite append_nil_l.
  - rewrite append_cons. simpl. now rewrite IH.
Qed.

(* ===================================================================== *)
(** * The insertion-ordered dictionary                                    *)
(* ===================================================================== *)

Section Dict.

Context {V : Type}.
Implicit Types (k : string) (v : V) (d : list (string * V)).

Lemma dict_get_set_eq k v d : dict_get k (dict_set k v d) = Some v.
Proof.
  induction d as [|[k' v'] d IH]; simpl.
  - now rewrite String.eqb_refl.
  - destruct (String.eqb k k') eqn:E; simpl.
    + now rewrite String.eqb_refl.
    + now rewrite E.
Qed.

Lemma dict_get_set_ne k k' v d :
  k <> k' -> dict_get k' (dict_set k v d) = dict_get k' d.
Proof.
  intros Hne. induction d as [|[k0 v0] d IH]; simpl.
  - apply String.eqb_neq in Hne. now rewrite String.eqb_sym, Hne.
  - destruct (String.eqb k k0) eqn:E; simpl.
    + apply String.eqb_eq in E. subst k0.
      assert (String.eqb k' k = false) as ->
          by (apply String.eqb_neq; congruence).
      reflexivity.
    + now rewrite IH.
Qed.

Lemma dict_get_In k v d : dict_get k d = Some v -> In (k, v) d.
Proof.
  induction d as [|[k' v'] d IH]; simpl; [discriminate|].
  destruct (String.eqb k k') eqn:E.
  - apply String.eqb_eq in E. intros [= ->]. subst. now left.
  - intros H. right. now apply IH.
Qed.

Lemma dict_get_None k d : dict_get k d = None -> ~ In k (List.map fst d).
Proof.
  induction d as [|[k' v'] d IH]; simpl; [tauto|].
  destruct (String.eqb k k') eqn:E; [discriminate|].
  apply String.eqb_neq in E. intros H [Hk | Hk]; [congruence | now apply IH].
Qed.

Lemma dict_In_get k v d :
  List.NoDup (List.map fst d) -> In (k, v) d -> dict_get k d = Some v.
Proof.
  induction d as [|[k' v'] d IH]; simpl; [tauto|].
  intros Hnd [Heq | Hin].
  - injection Heq as -> ->. now rewrite String.eqb_refl.
  - inversion Hnd as [|? ? Hnotin Hnd']; subst.
    destruct (String.eqb k k') eqn:E.
    + apply String.eqb_eq in E. subst k'. exfalso. apply Hnotin.
      change k with (fst (k, v)). now apply in_map.
    + now apply IH.
Qed.

Lemma dict_keys_set_present k v v0 d :
  dict_get k d = Some v0 -> List.map fst (dict_set k v d) = List.map fst d.
Proof.
  induction d as [|[k' v'] d IH]; simpl; [discriminate|].
  destruct (String.eqb k k') eqn:E; simpl.
  - apply String.eqb_eq in E. now subst.
  - intros H. now rewrite IH.
Qed.

Lemma dict_keys_set_absent k v d :
  dict_get k d = None ->
  List.map fst (dict_set k v d) = (List.map fst d ++ [k])%list.
Proof.
  induction d as [|[k' v'] d IH]; simpl; [reflexivity|].
  destruct (String.eqb k k') eqn:E; simpl; [discriminate|].
  intros H. now rewrite IH.
Qed.

End Dict.

(* ===================================================================== *)
(** * Deduplication keeps one best context per fingerprint                *)
(* ===================================================================== *)

Lemma dedup_inv_nil : dedup_inv [] [].
Proof. split; simpl; [constructor | discriminate | tauto]. Qed.

Lemma dedup_inv_set (seen : list Context) d c :
  dedup_inv seen d ->
  (forall kept, dict_get (content_hash c) d = Some kept ->
                (score kept <= score c)%Q) ->
  dedup_inv (seen ++ [c]) (dict_set (content_hash c) c d).
Proof.
  intros [Hnd Hsound Hbest] Hle. split.
  - destruct (dict_get (content_hash c) d) as [kept|] eqn:E.
    + now rewrite (dict_keys_set_present _ _ kept).
    + rewrite dict_keys_set_absent by assumption.
      apply List.NoDup_app; [assumption | repeat constructor; simpl; tauto |].
      intros x Hx [<- | []]. now apply dict_get_None in E.
  - intros k v. destruct (String.eqb_spec (content_hash c) k) as [<- | Hne].
    + rewrite dict_get_set_eq. intros [= <-]. split; [reflexivity|].
      apply in_or_app. right. now left.
    + rewrite dict_get_set_ne by assumption. intros H.
      destruct (Hsound _ _ H) as [-> Hin]. split; [reflexivity|].
      apply in_or_app. now left.
  - intros c' Hin. apply in_app_or in Hin as [Hin | [<- | []]].
    + destruct (Hbest _ Hin) as [v [Hget Hv]].
      destruct (String.eqb_spec (content_hash c) (content_hash c')) as [Heq | Hne].
      * exists c. rewrite <- Heq, dict_get_set_eq. split; [reflexivity|].
        rewrite <- Heq in Hget. specialize (Hle _ Hget). lra.
      * exists v. now rewrite dict_get_set_ne.
    + exists c. rewrite dict_get_set_eq. split; [reflexivity | lra].
Qed.

Lemma dedup_inv_step (seen : list Context) d c :
  dedup_inv seen d -> dedup_inv (seen ++ [c]) (dedup_step d c).
Proof.
  intros Hinv. unfold dedup_step.
  destruct (dict_get (content_hash c) d) as [kept|] eqn:E.
  - destruct (Qltb (score kept) (score c)) eqn:Hlt.
    + apply dedup_inv_set; [assumption|].
      intros kept' H. rewrite E in H. injection H as <-.
      apply Qltb_true in Hlt. lra.
    + apply Qltb_false in Hlt. destruct Hinv as [Hnd Hsound Hbest]. split.
      * assumption.
      * intros k v H. destruct (Hsound _ _ H) as [-> Hin].
        split; [reflexivity | apply in_or_app; now left].
      * intros c' Hin. apply in_app_or in Hin as [Hin | [<- | []]].
        -- now apply Hbest.
        -- now exists kept.
  - apply dedup_inv_set; [assumption|]. intros kept H.
    rewrite E in H. discriminate.
Qed.

Lemma dedup_inv_fold (l seen : list Context) d :
  dedup_inv seen d -> dedup_inv (seen ++ l) (fold_left dedup_step l d).
Proof.
  revert seen d. induction l as [|c l IH]; intros seen d Hinv; simpl.
  - now rewrite app_nil_r.
  - replace (seen ++ c :: l)%list with ((seen ++ [c]) ++ l)%list
      by (now rewrite <- app_assoc).
    apply IH. now apply dedup_inv_step.
Qed.

Lemma deduplicate_inv (all_contexts : list Context) :
  dedup_inv all_contexts (deduplicate all_contexts).
Proof. apply (dedup_inv_fold all_contexts [] []), dedup_inv_nil. Qed.

Lemma dedup_keys_are_hashes (seen : list Context) d :
  dedup_inv seen d ->
  List.map content_hash (dict_values d) = List.map fst d.
Proof.
  intros [Hnd Hsound _]. unfold dict_values. rewrite List.map_map.
  apply map_ext_in. intros [k v] Hin. simpl.
  symmetry. now apply (Hsound k v), dict_In_get.
Qed.

(* ===================================================================== *)
(** * Ranking: a stable descending sort                                   *)
(* ===================================================================== *)

Lemma insert_desc_perm (c : Context) (l : list Context) :
  Permutation (insert_desc c l) (c :: l).
Proof.
  induction l as [|d l IH]; simpl; [reflexivity|].
  destruct (Qltb (score c) (score d)); [|reflexivity].
  rewrite IH. apply perm_swap.
Qed.

Lemma sorted_desc_perm (l : list Context) : Permutation (sorted_desc l) l.
Proof.
  induction l as [|c l IH]; simpl; [reflexivity|].
  unfold sorted_desc in *. simpl. rewrite insert_desc_perm. now constructor.
Qed.

Lemma insert_desc_sorted (c : Context) (l : list Context) :
  StronglySorted score_ge l -> StronglySorted score_ge (insert_desc c l).
Proof.
  induction 1 as [|d l Hs IH Hd]; simpl.
  - repeat constructor.
  - destruct (Qltb (score c) (score d)) eqn:E.
    + apply Qltb_true in E. constructor; [assumption|].
      rewrite insert_desc_perm. constructor; [|assumption].
      unfold score_ge. lra.
    + apply Qltb_false in E. constructor.
      * now constructor.
      * constructor; [exact E|].
        eapply List.Forall_impl; [|exact Hd].
        unfold score_ge. intros x Hx. lra.
Qed.

Lemma sorted_desc_sorted (l : list Context) :
  StronglySorted score_ge (sorted_desc l).
Proof.
  induction l as [|c l IH]; [constructor|].
  unfold sorted_desc in *. simpl. now apply insert_desc_sorted.
Qed.

(** Stability: a context is placed after those already there whose score
    is equal to its own only if it came after them. *)
Lemma insert_desc_head_tie (c d : Context) (l : list Context) :
  (score c == score d)%Q -> insert_desc c (d :: l) = c :: d :: l.
Proof.
  intros E. simpl.
  assert (Qltb (score c) (score d) = false) as ->; [|reflexivity].
  apply Qltb_false. lra.
Qed.

Lemma slice_to_nonneg {A} (n : Z) (l : list A) :
  0 <= n -> Py.slice_to n l = firstn (Z.to_nat n) l.
Proof.
  intros H. unfold Py.slice_to.
  destruct (0 <=? n) eqn:E; [reflexivity | lia].
Qed.

Lemma filter_none {A} (p : A -> bool) (l : list A) :
  (forall y, In y l -> p y = false) -> List.filter p l = [].
Proof.
  induction l as [|y l IH]; simpl; intros H; [reflexivity|].
  rewrite (H y) by now left. apply IH. intros z Hz. apply H. now right.
Qed.

Lemma count_one_of_nodup {A} (f : A -> string) (x : A) (l : list A) :
  List.NoDup (List.map f l) -> In x l ->
  length (List.filter (fun y => String.eqb (f y) (f x)) l) = 1%nat.
Proof.
  induction l as [|y l IH]; simpl; [tauto|].
  intros Hnd Hin. inversion Hnd as [|? ? Hnotin Hnd']; subst.
  destruct (String.eqb_spec (f y) (f x)) as [Heq | Hne].
  - rewrite filter_none; [reflexivity|].
    intros z Hz. apply String.eqb_neq. intros Hzx. apply Hnotin.
    rewrite Heq, <- Hzx. now apply in_map.
  - destruct Hin as [-> | Hin]; [congruence | now apply IH].
Qed.

(* ===================================================================== *)
(** * C1: the aggregation step                                            *)
(* ===================================================================== *)

(** C1. For every list of retrieved contexts and every requested count
    [num_results >= 0], the aggregation step of [multi_strategy_retrieval]
    (and of [query_expansion]) keeps, for each content fingerprint that
    occurs, exactly one context; that survivor is one of the inputs and
    no input with the same fingerprint has a higher score; the survivors
    are then sorted by score, highest first, and the first [num_results]
    of them are returned. *)
Theorem aggregate_dedup_sort_truncate
    (all_contexts : list Context) (num_results : Z) :
  0 <= num_results ->
  let survivors := dict_values (deduplicate all_contexts) in
  (forall c, In c all_contexts ->
     length (List.filter
               (fun s => String.eqb (content_hash s) (content_hash c))
               survivors) = 1%nat
     /\ exists s, In s survivors
                  /\ content_hash s = content_hash c
                  /\ (score c <= score s)%Q)
  /\ (forall s, In s survivors -> In s all_contexts)
  /\ Permutation (sorted_desc survivors) survivors
  /\ StronglySorted score_ge (sorted_desc survivors)
  /\ aggregate num_results all_contexts
     = firstn (Z.to_nat num_results) (sorted_desc survivors).
Proof.
  intros Hk survivors.
  pose proof (deduplicate_inv all_contexts) as Hinv.
  pose proof (dedup_keys_are_hashes _ _ Hinv) as Hkeys.
  destruct Hinv as [Hnd Hsound Hbest].
  assert (Hex : forall c, In c all_contexts ->
            exists s, In s survivors /\ content_hash s = content_hash c
                      /\ (score c <= score s)%Q).
  { intros c Hc. destruct (Hbest c Hc) as [s [Hget Hle]].
    exists s. split; [|split; [|exact Hle]].
    - apply dict_get_In in Hget. unfold survivors, dict_values.
      change s with (snd (content_hash c, s)). now apply in_map.
    - symmetry. now apply (Hsound _ _ Hget). }
  repeat split.
  - destruct (Hex c H) as [s [Hs [Hh _]]]. rewrite <- Hh.
    apply count_one_of_nodup; [|exact Hs].
    fold survivors in Hkeys. now rewrite Hkeys.
  - now apply Hex.
  - intros s Hs. unfold survivors, dict_values in Hs.
    apply in_map_iff in Hs as [[k v] [<- Hin]]. simpl.
    apply (dict_In_get _ _ _ Hnd) in Hin. now apply (Hsound _ _ Hin).
  - apply sorted_desc_perm.
  - apply sorted_desc_sorted.
  - unfold aggregate, top_contexts. now apply slice_to_nonneg.
Qed.

(** The contexts returned by [multi_strategy_retrieval] on a cache miss
    are the aggregation of what the three sub-calls returned. *)
Lemma multi_strategy_contexts (env : Env) (query_text : string)
    (num_results : Z) (w : World) :
  let cache_key := generate_cache_key query_text num_results [("method", "multi")] in
  let per_method := Z.max 2 (num_results / 3) in
  forall w0 std w1 exp w2 hyd w3,
    cache_lookup env cache_key w = (None, w0) ->
    standard_query env query_text per_method w0 = (std, w1) ->
    query_expansion env query_text per_method w1 = (exp, w2) ->
    hyde_retrieval env query_text per_method w2 = (hyd, w3) ->
    contexts (fst (multi_strategy_retrieval env query_text num_results w))
    = aggregate num_results (contexts std ++ contexts exp ++ contexts hyd)%list.
Proof.
  intros cache_key per_method w0 std w1 exp w2 hyd w3 Hmiss Hstd Hexp Hhyd.
  unfold multi_strategy_retrieval, bind.
  fold cache_key. rewrite Hmiss. fold per_method.
  rewrite Hstd, Hexp, Hhyd. simpl.
  destruct (now env w3). reflexivity.
Qed.

Example aggregate_sample :
  aggregate 2 sample_contexts
  = [sample_context "orders table" 0.9; sample_context "users table" 0.7].
Proof. vm_compute. reflexivity. Qed.

Lemma aggregate_dedup_sort_truncate_witness :
  0 <= 2
  /\ aggregate 2 sample_contexts
     = firstn 2 (sorted_desc (dict_values (deduplicate sample_contexts))).
Proof.
  split; [lia | apply (aggregate_dedup_sort_truncate sample_contexts 2); lia].
Defined.

(* ===================================================================== *)
(** * C6: the fingerprint                                                 *)
(* ===================================================================== *)

(** C6, as stated, fails: two contents that are equal after case folding
    and whitespace collapsing have different fingerprints, and both
    contexts survive deduplication. *)
Lemma fingerprint_not_normalized :
  let a := sample_context "Orders  Table" 0.5 in
  let b := sample_context "orders table" 0.9 in
  spec_normalize (content a) = spec_normalize (content b)
  /\ content_hash a <> content_hash b
  /\ length (deduplicate [a; b]) = 2%nat.
Proof.
  vm_compute. split; [reflexivity | split; [intros H; discriminate H | reflexivity]].
Qed.

(** C6, amended. The fingerprint is the MD5 digest of the content as it
    is retrieved; nothing is folded or collapsed before hashing. Two
    contexts are merged into one entry exactly when the digests of their
    contents are equal, so always when the contents are identical, and
    both survive exactly when the digests differ. Contents that are equal
    after case folding and whitespace collapsing need not have the same
    digest. *)
Theorem fingerprint_of_equal_content (a b : Context) :
  content_hash a = MD5.hexdigest (content a)
  /\ (content a = content b ->
      content_hash a = content_hash b
      /\ length (deduplicate [a; b]) = 1%nat)
  /\ (length (deduplicate [a; b]) = 1%nat
      <-> MD5.hexdigest (content a) = MD5.hexdigest (content b))
  /\ (length (deduplicate [a; b]) = 2%nat
      <-> MD5.hexdigest (content a) <> MD5.hexdigest (content b))
  /\ ~ (forall x y : string,
          spec_normalize x = spec_normalize y ->
          MD5.hexdigest x = MD5.hexdigest y).
Proof.
  assert (Hlen : length (deduplicate [a; b])
                 = if String.eqb (content_hash b) (content_hash a)
                   then 1%nat else 2%nat).
  { unfold deduplicate. cbn [fold_left].
    unfold dedup_step at 2. cbn [dict_get dict_set].
    unfold dedup_step. cbn [dict_get].
    destruct (String.eqb (content_hash b) (content_hash a)) eqn:E.
    - destruct (Qltb (score a) (score b)); cbn [dict_set];
        [now rewrite E | reflexivity].
    - cbn [dict_set]. now rewrite E. }
  fold (content_hash a). fold (content_hash b).
  split; [reflexivity|]. split; [|split; [|split]].
  - intros Heq.
    assert (Hh : content_hash a = content_hash b)
      by (unfold content_hash; now rewrite Heq).
    split; [exact Hh|]. now rewrite Hlen, Hh, String.eqb_refl.
  - rewrite Hlen.
    destruct (String.eqb (content_hash b) (content_hash a)) eqn:E.
    + apply String.eqb_eq in E. split; [now intros _ | reflexivity].
    + apply String.eqb_neq in E. split; [discriminate | congruence].
  - rewrite Hlen.
    destruct (String.eqb (content_hash b) (content_hash a)) eqn:E.
    + apply String.eqb_eq in E. split; [discriminate | congruence].
    + apply String.eqb_neq in E. split; [intros _; congruence | reflexivity].
  - intros H.
    specialize (H "Orders  Table" "orders table" eq_refl).
    vm_compute in H. discriminate H.
Qed.

(* ===================================================================== *)
(** * The cache protocol                                                  *)
(* ===================================================================== *)

Lemma cache_lookup_absent (env : Env) key w :
  cache w !! key = None -> cache_lookup env key w = (None, w).
Proof. intros H. unfold cache_lookup. now rewrite H. Qed.

Lemma cache_lookup_hit (env : Env) key w e :
  cache w !! key = Some e ->
  fresh (time_time env (clock_reads w)) e ->
  cache_lookup env key w = (Some (entry_result e), tick w).
Proof.
  intros H Hf. unfold cache_lookup. rewrite H. unfold now.
  apply Qltb_true in Hf. now rewrite Hf.
Qed.

Lemma cache_lookup_stale (env : Env) key w e :
  cache w !! key = Some e ->
  ~ fresh (time_time env (clock_reads w)) e ->
  cache_lookup env key w = (None, tick w).
Proof.
  intros H Hf. unfold cache_lookup. rewrite H. unfold now.
  destruct (Qltb _ _) eqn:E; [|reflexivity].
  apply Qltb_true in E. contradiction.
Qed.

(** A lookup reads the clock at most once and touches nothing else. *)
Lemma cache_lookup_frame (env : Env) key w :
  let w' := snd (cache_lookup env key w) in
  cache w' = cache w /\ kb_log w' = kb_log w /\ gen_log w' = gen_log w
  /\ (clock_reads w <= clock_reads w' <= S (clock_reads w))%nat.
Proof.
  unfold cache_lookup. destruct (cache w !! key) as [e|]; simpl.
  - destruct (Qltb _ _); simpl; repeat split; lia.
  - repeat split; lia.
Qed.


Lemma cache_store_spec (env : Env) key r w :
  cache_store env key r w
  = (tt, mkWorld (<[key := mkEntry r (time_time env (clock_reads w))]> (cache w))
                 (kb_log w) (gen_log w) (S (clock_reads w))).
Proof. reflexivity. Qed.

(* ===================================================================== *)
(** * C2 and C7: [standard_query]                                         *)
(* ===================================================================== *)

(** [standard_query] on a cache miss, by the outcome of the provider. *)
Lemma standard_query_miss (env : Env) query_text num_results w w0 :
  cache_lookup env (standard_key query_text num_results) w = (None, w0) ->
  kb_log w0 = kb_log w ->
  standard_query env query_text num_results w
  = match kb_retrieve env (length (kb_log w)) query_text num_results with
    | inr items =>
        let result :=
          mkResult query_text "standard"
                   (List.map (context_of_item None) items) None None None None in
        (result,
         mkWorld (<[standard_key query_text num_results
                    := mkEntry result (time_time env (clock_reads w0))]> (cache w0))
                 (kb_log w ++ [(query_text, num_results)])%list
                 (gen_log w0) (S (clock_reads w0)))
    | inl e =>
        (mkResult query_text "standard (mock fallback)"
           [mkContext
              ("This is a mock response. The query was: " +:+ query_text
               +:+ ". There was an error connecting to the knowledge base: "
               +:+ e)
              "mock-source"
              ("This is a mock response. The query was: " +:+ query_text
               +:+ "...")
              1.0%Q None]
           None None None (Some e),
         mkWorld (cache w0) (kb_log w ++ [(query_text, num_results)])%list
                 (gen_log w0) (clock_reads w0))
    end.
Proof.
  intros Hmiss Hlog. unfold standard_query, bind.
  fold (standard_key query_text num_results). rewrite Hmiss.
  unfold retrieve. rewrite Hlog.
  destruct (kb_retrieve env _ _ _) as [e|items]; reflexivity.
Qed.

(** C2, amended. While an entry for (query text, num_results) is in the
    cache: if [now - timestamp < 3600] the stored result is returned, the
    provider is not called and the cache is unchanged; otherwise the
    provider is called once, and then, if [retrieve] succeeds, the fresh
    result is returned and stored under the key with the new time, while
    if [retrieve] raises, the entry is left as it was. *)
Theorem standard_query_cache (env : Env) (query_text : string)
    (num_results : Z) (w : World) (e : CacheEntry) :
  cache w !! standard_key query_text num_results = Some e ->
  let t := time_time env (clock_reads w) in
  let r := fst (standard_query env query_text num_results w) in
  let w' := snd (standard_query env query_text num_results w) in
  (fresh t e ->
     r = entry_result e /\ kb_log w' = kb_log w /\ cache w' = cache w)
  /\ (~ fresh t e ->
      kb_log w' = (kb_log w ++ [(query_text, num_results)])%list
      /\ match kb_retrieve env (length (kb_log w)) query_text num_results with
         | inr items =>
             r = mkResult query_text "standard"
                          (List.map (context_of_item None) items)
                          None None None None
             /\ cache w'
                = <[standard_key query_text num_results
                    := mkEntry r (time_time env (S (clock_reads w)))]> (cache w)
         | inl err => error r = Some err /\ cache w' = cache w
         end).
Proof.
  intros He t r w'. split.
  - intros Hf. subst r w'. unfold standard_query, bind.
    fold (standard_key query_text num_results).
    rewrite (cache_lookup_hit env _ w e He Hf). simpl. auto.
  - intros Hf. subst r w'.
    rewrite (standard_query_miss env query_text num_results w (tick w)
               (cache_lookup_stale env _ w e He Hf) eq_refl).
    destruct (kb_retrieve env _ _ _) as [err|items]; simpl; auto.
Qed.

Lemma standard_query_cache_witness :
  cache sample_world !! standard_key "q" 5 = Some sample_entry
  /\ fst (standard_query flaky_env "q" 5 sample_world)
     = entry_result sample_entry.
Proof.
  assert (H : cache sample_world !! standard_key "q" 5 = Some sample_entry)
    by apply lookup_insert_eq.
  split; [exact H|].
  apply (standard_query_cache flaky_env "q" 5 sample_world sample_entry H).
  unfold fresh, cache_ttl. simpl. lra.
Defined.

(** C2, as stated, fails: the entry's time to live has elapsed, the
    provider is called again, it raises, and the old entry stays in the
    cache while the fallback result is returned. *)
Lemma standard_query_expired_failure_keeps_entry :
  let w1 := snd (standard_query flaky_env "q" 5 empty_world) in
  let r2 := fst (standard_query flaky_env "q" 5 w1) in
  let w2 := snd (standard_query flaky_env "q" 5 w1) in
  exists e,
    cache w1 !! standard_key "q" 5 = Some e
    /\ ~ fresh (time_time flaky_env (clock_reads w1)) e
    /\ kb_log w2 = [("q", 5); ("q", 5)]
    /\ cache w2 !! standard_key "q" 5 = Some e
    /\ error r2 = Some "timeout"
    /\ r2 <> entry_result e.
Proof.
  eexists. split; [vm_compute; reflexivity|].
  split; [unfold fresh, cache_ttl; vm_compute; intros H; discriminate H|].
  split; [vm_compute; reflexivity|].
  split; [vm_compute; reflexivity|].
  split; [vm_compute; reflexivity|].
  vm_compute. intros H. discriminate H.
Qed.

(** C7. Whenever [standard_query] reaches the provider and [retrieve]
    raises, the call returns: its result carries the text of the exception
    under [error] and exactly one context, the explanatory fallback, whose
    score is 1.0; nothing is written to the cache. *)
Theorem standard_query_absorbs_failure (env : Env) (query_text : string)
    (num_results : Z) (w : World) (err : string) :
  fst (cache_lookup env (standard_key query_text num_results) w) = None ->
  kb_retrieve env (length (kb_log w)) query_text num_results = inl err ->
  let r := fst (standard_query env query_text num_results w) in
  let w' := snd (standard_query env query_text num_results w) in
  error r = Some err
  /\ (exists c,
        contexts r = [c]
        /\ score c = 1.0%Q
        /\ source c = "mock-source"
        /\ content c
           = "This is a mock response. The query was: " +:+ query_text
             +:+ ". There was an error connecting to the knowledge base: "
             +:+ err)
  /\ cache w' = cache w
  /\ kb_log w' = (kb_log w ++ [(query_text, num_results)])%list.
Proof.
  intros Hmiss Herr r w'. subst r w'.
  destruct (cache_lookup env (standard_key query_text num_results) w)
    as [hit w0] eqn:Hl.
  simpl in Hmiss. subst hit.
  pose proof (cache_lookup_frame env (standard_key query_text num_results) w)
    as Hfr.
  rewrite Hl in Hfr. simpl in Hfr. destruct Hfr as [Hc [Hk _]].
  rewrite (standard_query_miss env query_text num_results w w0 Hl Hk), Herr.
  simpl. repeat split; [|assumption].
  eexists. repeat split.
Qed.

Lemma standard_query_absorbs_failure_witness :
  fst (cache_lookup flaky_env (standard_key "q" 5) used_world) = None
  /\ kb_retrieve flaky_env (length (kb_log used_world)) "q" 5 = inl "timeout"
  /\ error (fst (standard_query flaky_env "q" 5 used_world)) = Some "timeout".
Proof.
  assert (H1 : fst (cache_lookup flaky_env (standard_key "q" 5) used_world) = None)
    by reflexivity.
  assert (H2 : kb_retrieve flaky_env (length (kb_log used_world)) "q" 5
               = inl "timeout") by reflexivity.
  split; [exact H1 | split; [exact H2|]].
  apply (standard_query_absorbs_failure flaky_env "q" 5 used_world "timeout" H1 H2).
Defined.

(* ===================================================================== *)
(** * C9: the requests of the relationship executor                       *)
(* ===================================================================== *)

(** The loop issues one request per query, in order, each for the same
    number of results, and stops at the first request that raises. *)
Lemma retrieve_each_spec (env : Env) (n : Z) (queries : list string) :
  forall i acc th w,
    let out := fst (retrieve_each env n i queries acc th w) in
    let w' := snd (retrieve_each env n i queries acc th w) in
    exists m,
      (m <= length queries)%nat
      /\ kb_log w'
         = (kb_log w ++ List.map (fun q => (q, n)) (firstn m queries))%list
      /\ cache w' = cache w
      /\ gen_log w' = gen_log w
      /\ clock_reads w' = clock_reads w
      /\ (forall r, out = inr r -> m = length queries)
      /\ ((forall j q, exists items, kb_retrieve env j q n = inr items) ->
          m = length queries).
Proof.
  induction queries as [|q queries IH]; intros i acc th w; simpl.
  - exists 0%nat. simpl. rewrite app_nil_r. repeat split; auto.
  - unfold bind, retrieve.
    destruct (kb_retrieve env (length (kb_log w)) q n) as [e|items] eqn:E.
    + exists 1%nat. simpl.
      repeat split; auto; try lia; try (intros r Hr; discriminate Hr).
      intros Hall. destruct (Hall (length (kb_log w)) q) as [items Hi].
      congruence.
    + match goal with
      | |- context [retrieve_each env n ?i' queries ?acc' ?th' ?w1] =>
          destruct (IH i' acc' th' w1)
            as [m [Hm [Hlog [Hc [Hg [Hr [Hout Hall]]]]]]]
      end.
      exists (S m). simpl in *.
      split; [lia|]. split; [rewrite Hlog, <- app_assoc; reflexivity|].
      repeat split; auto;
        try (intros r Hr'; f_equal; now apply (Hout r));
        try (intros H; f_equal; now apply Hall).
Qed.

(** C9, as stated, fails: for the default count 10 each of the five
    requests asks for 3 results, whereas 10 / 5 rounded up is 2. *)
Lemma relationship_requests_not_ceiling :
  kb_log (snd (relationship_retrieval steady_env "orders" 10 empty_world))
  = List.map (fun q => (q, 3)) (relationship_queries "orders")
  /\ spec_ceil_div 10 5 = 2.
Proof. split; vm_compute; reflexivity. Qed.

(** C9, amended. For every table name and count [k] the executor builds
    exactly five query strings from the fixed templates; the requests it
    issues are for these strings, in order, and each asks for
    [k // 5 + 1] results; on a cache miss with a provider that does not
    raise, all five are issued. *)
Theorem relationship_requests (env : Env) (table_name : string)
    (num_results : Z) (w : World) :
  let queries := relationship_queries table_name in
  let w' := snd (relationship_retrieval env table_name num_results w) in
  queries
  = [ "relationships of " +:+ table_name +:+ " table";
      table_name +:+ " foreign keys";
      "tables that reference " +:+ table_name;
      table_name +:+ " primary key";
      table_name +:+ " table schema relationships" ]
  /\ exists m,
       (m <= 5)%nat
       /\ kb_log w'
          = (kb_log w
             ++ List.map (fun q => (q, num_results / 5 + 1)) (firstn m queries))%list
       /\ (fst (cache_lookup env (relationship_key table_name num_results) w)
           = None ->
           (forall j q, exists items,
               kb_retrieve env j q (num_results / 5 + 1) = inr items) ->
           m = 5%nat).
Proof.
  intros queries w'. split; [reflexivity|].
  subst w'. unfold relationship_retrieval, bind.
  fold (relationship_key table_name num_results).
  pose proof (cache_lookup_frame env (relationship_key table_name num_results) w)
    as Hfr.
  destruct (cache_lookup env (relationship_key table_name num_results) w)
    as [[cached|] w0] eqn:Hl; simpl in Hfr; destruct Hfr as [_ [Hk0 _]].
  - exists 0%nat. simpl. rewrite app_nil_r. repeat split; auto; try lia.
    intros H. discriminate H.
  - fold queries.
    change (per_template num_results queries) with (num_results / 5 + 1).
    match goal with
    | |- context [retrieve_each env ?n ?i queries ?acc ?th w0] =>
        pose proof (retrieve_each_spec env n queries i acc th w0) as Hspec;
        destruct (retrieve_each env n i queries acc th w0)
          as [[e | [all_contexts th']] w1] eqn:Hre
    end; simpl in Hspec;
      destruct Hspec as [m [Hm [Hlog [_ [_ [_ [_ Hall]]]]]]];
      exists m; rewrite <- Hk0.
    + simpl. repeat split; auto.
    + unfold generate_relationship_analysis, bind, invoke.
      destruct (invoke_model env _ _); simpl; repeat split; auto.
Qed.

(* ===================================================================== *)
(** * C10: only successful results reach the cache                        *)
(* ===================================================================== *)




Lemma generate_expanded_queries_frame (env : Env) query_text w :
  let w' := snd (generate_expanded_queries env query_text w) in
  cache w' = cache w /\ kb_log w' = kb_log w
  /\ gen_log w' = (gen_log w ++ [expansion_prompt query_text])%list
  /\ clock_reads w' = clock_reads w.
Proof.
  unfold generate_expanded_queries, bind, invoke.
  destruct (invoke_model env _ _) as [e|text]; simpl; [auto|].
  destruct (existsb _ _); simpl; auto.
Qed.

Lemma generate_hypothetical_document_frame (env : Env) query_text w :
  let w' := snd (generate_hypothetical_document env query_text w) in
  cache w' = cache w /\ kb_log w' = kb_log w
  /\ gen_log w' = (gen_log w ++ [hyde_prompt query_text])%list
  /\ clock_reads w' = clock_reads w.
Proof.
  unfold generate_hypothetical_document, bind, invoke.
  destruct (invoke_model env _ _) as [e|text]; simpl; auto.
Qed.





Lemma call_ok_trans w1 r1 w2 r2 w3 :
  call_ok w1 r1 w2 -> call_ok w2 r2 w3 ->
  (cache_ok (cache w1) -> cache_ok (cache w3))
  /\ (clock_reads w1 <= clock_reads w3)%nat
  /\ (length (gen_log w1) <= length (gen_log w3))%nat.
Proof.
  intros [Hc1 _ Hk1 Hg1] [Hc2 _ Hk2 Hg2]. repeat split; auto; lia.
Qed.



(** ** Histories of calls on one instance *)






Example expansion_failure_sample :
  let w := run_calls flaky_env [CallStandard "q" 5] empty_world in
  error (fst (query_expansion flaky_env "q" 5 w)) = Some "timeout"
  /\ cache (snd (query_expansion flaky_env "q" 5 w)) !! expansion_key "q" 5
     = None.
Proof. split; vm_compute; reflexivity. Qed.


(* ===================================================================== *)
(** * C3 and C4: the router                                               *)
(* ===================================================================== *)

Lemma smart_branch (query_text : string) (app_kbs : ApplicationKBs)
    (query_mode : string) :
  ~ forced query_mode ->
  classify_query_and_get_targets query_text app_kbs query_mode
  = let query_lower := Py.lower query_text in
    let db_score := keyword_score db_keywords query_lower in
    let support_score := keyword_score support_keywords query_lower in
    let doc_score := keyword_score doc_keywords query_lower in
    if (db_score >=? support_score) && (db_score >=? doc_score) then
      [target "database" (databaseKnowledgeBaseId app_kbs)]
    else if (support_score >? doc_score)
            && configured (supportKnowledgeBaseId app_kbs) then
      [target "support" (default "" (supportKnowledgeBaseId app_kbs))]
    else if configured (documentationKnowledgeBaseId app_kbs) then
      [target "documentation"
              (default "" (documentationKnowledgeBaseId app_kbs))]
    else
      [target "database" (databaseKnowledgeBaseId app_kbs)].
Proof.
  intros Hf. unfold classify_query_and_get_targets, forced in *.
  destruct (String.eqb_spec query_mode "database") as [-> | _]; [tauto|].
  destruct (String.eqb_spec query_mode "support") as [-> | _]; [tauto|].
  destruct (String.eqb_spec query_mode "documentation") as [-> | _]; [tauto|].
  reflexivity.
Qed.

(** C3, as stated, fails: forced mode [support] for an application with
    no support source yields no target at all; there is no fall-back to
    the database source. *)
Lemma forced_support_without_source_is_empty :
  classify_query_and_get_targets "Show me information about orders"
                                 (mkKBs "KB-DATABASE" None None) "support"
  = [].
Proof. reflexivity. Qed.

(** C3, amended. For every query text and every set of descriptors:
    mode [database] yields exactly one target, of type database, whatever
    the text; mode [support] (resp. [documentation]) yields a single
    target of that type if the corresponding source is configured and the
    empty list otherwise; any other mode yields exactly one target, whose
    type is database or a type whose source is configured. *)
Theorem router_targets (query_text : string) (app_kbs : ApplicationKBs) :
  classify_query_and_get_targets query_text app_kbs "database"
  = [mkTarget "database" (databaseKnowledgeBaseId app_kbs) (Some false)]
  /\ (forall id, supportKnowledgeBaseId app_kbs = Some id -> id <> "" ->
        classify_query_and_get_targets query_text app_kbs "support"
        = [mkTarget "support" id (Some false)])
  /\ (configured (supportKnowledgeBaseId app_kbs) = false ->
        classify_query_and_get_targets query_text app_kbs "support" = [])
  /\ (forall id, documentationKnowledgeBaseId app_kbs = Some id -> id <> "" ->
        classify_query_and_get_targets query_text app_kbs "documentation"
        = [mkTarget "documentation" id (Some false)])
  /\ (configured (documentationKnowledgeBaseId app_kbs) = false ->
        classify_query_and_get_targets query_text app_kbs "documentation" = [])
  /\ (forall query_mode, ~ forced query_mode ->
        exists t,
          classify_query_and_get_targets query_text app_kbs query_mode = [t]
          /\ secondary t = Some false
          /\ ((type t = "database"
               /\ kbId t = databaseKnowledgeBaseId app_kbs)
              \/ (type t = "support"
                  /\ supportKnowledgeBaseId app_kbs = Some (kbId t)
                  /\ kbId t <> "")
              \/ (type t = "documentation"
                  /\ documentationKnowledgeBaseId app_kbs = Some (kbId t)
                  /\ kbId t <> ""))).
Proof.
  assert (Hconf : forall kb, configured kb = true ->
                    exists id, kb = Some id /\ id <> "" /\ default "" kb = id).
  { intros [[|c id]|]; simpl; try discriminate.
    intros _. eexists. repeat split. discriminate. }
  split; [reflexivity|].
  split; [intros id Hid Hne; unfold classify_query_and_get_targets;
          rewrite Hid; destruct id; [congruence | reflexivity]|].
  split; [intros Hc; unfold classify_query_and_get_targets;
          cbn [String.eqb Ascii.eqb Bool.eqb]; now rewrite Hc|].
  split; [intros id Hid Hne; unfold classify_query_and_get_targets;
          rewrite Hid; destruct id; [congruence | reflexivity]|].
  split; [intros Hc; unfold classify_query_and_get_targets;
          cbn [String.eqb Ascii.eqb Bool.eqb]; now rewrite Hc|].
  intros query_mode Hf. rewrite (smart_branch _ _ _ Hf). cbv zeta.
  destruct (_ && _).
  - eexists. split; [reflexivity|]. split; [reflexivity|]. left. auto.
  - destruct (_ >? _); simpl.
    + destruct (configured (supportKnowledgeBaseId app_kbs)) eqn:Hs.
      * destruct (Hconf _ Hs) as [id [Hid [Hne Hd]]].
        eexists. split; [reflexivity|]. split; [reflexivity|].
        right. left. simpl. rewrite Hd. auto.
      * destruct (configured (documentationKnowledgeBaseId app_kbs)) eqn:Hd.
        -- destruct (Hconf _ Hd) as [id [Hid [Hne Hd']]].
           eexists. split; [reflexivity|]. split; [reflexivity|].
           right. right. simpl. rewrite Hd'. auto.
        -- eexists. split; [reflexivity|]. split; [reflexivity|]. left. auto.
    + destruct (configured (documentationKnowledgeBaseId app_kbs)) eqn:Hd.
      * destruct (Hconf _ Hd) as [id [Hid [Hne Hd']]].
        eexists. split; [reflexivity|]. split; [reflexivity|].
        right. right. simpl. rewrite Hd'. auto.
      * eexists. split; [reflexivity|]. split; [reflexivity|]. left. auto.
Qed.

(** C4, as stated, fails: "help guide" has one support keyword, one
    documentation keyword and no database keyword; with every source
    configured the tie goes to documentation, not to support. *)
Lemma support_documentation_tie_goes_to_documentation :
  db_score "help guide" = 0
  /\ support_score "help guide" = 1
  /\ doc_score "help guide" = 1
  /\ classify_query_and_get_targets "help guide" all_sources "smart"
     = [mkTarget "documentation" "KB-DOCS" (Some false)].
Proof. repeat split; vm_compute; reflexivity. Qed.

Lemma score_of_database (query_text kb : string) (sec : option bool) :
  score_of_type query_text (type (mkTarget "database" kb sec))
  = db_score query_text.
Proof. reflexivity. Qed.

Lemma score_of_support (query_text kb : string) :
  score_of_type query_text (type (target "support" kb))
  = support_score query_text.
Proof. reflexivity. Qed.

Lemma score_of_documentation (query_text kb : string) :
  score_of_type query_text (type (target "documentation" kb))
  = doc_score query_text.
Proof. reflexivity. Qed.

(** C4, amended. In smart mode the router counts the keyword hits of the
    lower-cased query against the three fixed sets. Database is selected
    when its count is at least both others; otherwise support is selected
    when its count is strictly above documentation's and a support source
    is configured; otherwise documentation is selected when a
    documentation source is configured; otherwise database. Hence, with
    all three sources configured, the selected type has the highest count,
    a tie that involves database goes to database and a tie between
    support and documentation goes to documentation. A query with two or
    more database keywords and no support or documentation keyword is
    routed to database. *)
Theorem smart_routing (query_text : string) (app_kbs : ApplicationKBs)
    (query_mode : string) :
  ~ forced query_mode ->
  let db := db_score query_text in
  let sup := support_score query_text in
  let doc := doc_score query_text in
  let targets :=
    classify_query_and_get_targets query_text app_kbs query_mode in
  let database := [mkTarget "database" (databaseKnowledgeBaseId app_kbs)
                            (Some false)] in
  (sup <= db /\ doc <= db -> targets = database)
  /\ (~ (sup <= db /\ doc <= db) ->
      (doc < sup ->
       forall id, supportKnowledgeBaseId app_kbs = Some id -> id <> "" ->
                  targets = [mkTarget "support" id (Some false)])
      /\ (sup <= doc \/ configured (supportKnowledgeBaseId app_kbs) = false ->
          (forall id, documentationKnowledgeBaseId app_kbs = Some id ->
                      id <> "" ->
                      targets = [mkTarget "documentation" id (Some false)])
          /\ (configured (documentationKnowledgeBaseId app_kbs) = false ->
              targets = database)))
  /\ (configured (supportKnowledgeBaseId app_kbs) = true ->
      configured (documentationKnowledgeBaseId app_kbs) = true ->
      exists t, targets = [t]
                /\ score_of_type query_text (type t) = Z.max db (Z.max sup doc))
  /\ (2 <= db -> sup = 0 -> doc = 0 -> targets = database).
Proof.
  intros Hf db sup doc targets database.
  assert (Hconf : forall kb id, kb = Some id -> id <> "" ->
                    configured kb = true /\ default "" kb = id).
  { intros kb [|c id] -> Hne; [congruence | split; reflexivity]. }
  assert (Ht : targets
    = if (db >=? sup) && (db >=? doc) then database
      else if (sup >? doc) && configured (supportKnowledgeBaseId app_kbs) then
        [target "support" (default "" (supportKnowledgeBaseId app_kbs))]
      else if configured (documentationKnowledgeBaseId app_kbs) then
        [target "documentation"
                (default "" (documentationKnowledgeBaseId app_kbs))]
      else database).
  { subst targets. now rewrite (smart_branch _ _ _ Hf). }
  clearbody targets.
  assert (Hwin : sup <= db /\ doc <= db -> targets = database).
  { intros [H1 H2]. rewrite Ht.
    assert ((db >=? sup) = true) as -> by lia.
    assert ((db >=? doc) = true) as -> by lia. reflexivity. }
  split; [exact Hwin|]. split; [|split].
  - intros Hlose.
    assert (Hb : (db >=? sup) && (db >=? doc) = false).
    { apply andb_false_iff. destruct (Z.le_gt_cases sup db); [right|left]; lia. }
    rewrite Hb in Ht. split.
    + intros Hlt id Hid Hne. destruct (Hconf _ _ Hid Hne) as [Hc Hd].
      rewrite Ht, Hc, Hd. assert ((sup >? doc) = true) as -> by lia.
      reflexivity.
    + intros Hcase.
      assert (Hs : (sup >? doc) && configured (supportKnowledgeBaseId app_kbs)
                   = false).
      { apply andb_false_iff. destruct Hcase; [left; lia | now right]. }
      rewrite Hs in Ht. split.
      * intros id Hid Hne. destruct (Hconf _ _ Hid Hne) as [Hc Hd].
        now rewrite Ht, Hc, Hd.
      * intros Hc. now rewrite Ht, Hc.
  - intros Hs Hd. rewrite Ht, Hs, Hd, andb_true_r.
    destruct ((db >=? sup) && (db >=? doc)) eqn:E1.
    + apply andb_true_iff in E1. eexists. split; [reflexivity|].
      rewrite score_of_database. fold db. lia.
    + apply andb_false_iff in E1. destruct (sup >? doc) eqn:E2.
      * eexists. split; [reflexivity|].
        rewrite score_of_support. fold sup. lia.
      * eexists. split; [reflexivity|].
        rewrite score_of_documentation. fold doc. lia.
  - intros H2 Hs Hd. apply Hwin. lia.
Qed.

Lemma smart_routing_witness :
  ~ forced "smart"
  /\ classify_query_and_get_targets
       "Which column of the orders table has an index?" all_sources "smart"
     = [mkTarget "database" "KB-DATABASE" (Some false)].
Proof.
  assert (H : ~ forced "smart").
  { intros [H | [H | H]]; discriminate H. }
  split; [exact H|].
  apply (smart_routing "Which column of the orders table has an index?"
                       all_sources "smart" H).
  - vm_compute. intros H'; discriminate H'.
  - reflexivity.
  - reflexivity.
Defined.

(* ===================================================================== *)
(** * C5: merging primary and secondary results                           *)
(* ===================================================================== *)

Lemma fold_excerpts (l : list KbResult) (init : string) :
  fold_left (fun info secondary => info +:+ excerpt secondary) l init
  = init +:+ concat_all (List.map excerpt l).
Proof.
  revert init. induction l as [|s l IH]; intros init; simpl.
  - induction init as [|c init IHi]; [reflexivity|].
    rewrite append_cons. now rewrite <- IHi.
  - rewrite IH. apply append_assoc.
Qed.

Lemma secondary_info_concat (l : list KbResult) :
  secondary_info l = related_header +:+ concat_all (List.map excerpt l).
Proof. apply fold_excerpts. Qed.

(** the first element of a list that passes a test *)
Lemma filter_first {A} (f : A -> bool) (l : list A) (x : A) :
  In x l -> f x = true ->
  exists before y after,
    l = (before ++ y :: after)%list
    /\ Forall (fun z => f z = false) before
    /\ f y = true
    /\ List.filter f l = y :: List.filter f after.
Proof.
  induction l as [|a l IH]; simpl; [tauto|].
  intros Hin Hx. destruct (f a) eqn:Ha.
  - exists [], a, l. repeat split; auto.
  - destruct Hin as [-> | Hin]; [congruence|].
    destruct (IH Hin Hx) as [before [y [after [-> [Hb [Hy Hf]]]]]].
    exists (a :: before), y, after. repeat split; auto.
Qed.

Lemma merge_results_many (a b : KbResult) (l : list KbResult) :
  merge_results (a :: b :: l)
  = match List.filter (fun r => negb (is_secondary r)) (a :: b :: l) with
    | primary_result :: _ =>
        match List.filter is_secondary (a :: b :: l) with
        | [] => inr primary_result
        | _ =>
            inr (with_answer primary_result
                   (answer primary_result
                    +:+ secondary_info (List.filter is_secondary (a :: b :: l))))
        end
    | [] => inr a
    end.
Proof. reflexivity. Qed.

(** C5. Given at least one non-secondary and at least one secondary
    result, the merged answer is the answer of the first non-secondary
    result in full, followed by the "Related Information" header and, for
    each secondary result in order, one line that is labelled with the
    title-cased source type of that result and carries the first 200
    characters of its answer (exactly 200 when the answer is longer)
    followed by an ellipsis. *)
Theorem merge_primary_with_excerpts (results : list KbResult)
    (p s : KbResult) :
  In p results -> is_secondary p = false ->
  In s results -> is_secondary s = true ->
  exists before primary after merged,
    results = (before ++ primary :: after)%list
    /\ Forall (fun r => is_secondary r = true) before
    /\ is_secondary primary = false
    /\ merge_results results = inr merged
    /\ answer merged
       = answer primary +:+ related_header
         +:+ concat_all (List.map excerpt (List.filter is_secondary results))
    /\ String.prefix (answer primary) (answer merged) = true
    /\ In (excerpt s) (List.map excerpt (List.filter is_secondary results))
    /\ (forall x, is_secondary x = true ->
          excerpt x
          = nl +:+ "*From " +:+ Py.title (source_type x) +:+ ":* "
            +:+ Py.take 200 (answer x) +:+ "..."
          /\ String.prefix (Py.take 200 (answer x)) (answer x) = true
          /\ (String.length (Py.take 200 (answer x)) <= 200)%nat
          /\ (200 < String.length (answer x) ->
              String.length (Py.take 200 (answer x)) = 200)%nat).
Proof.
  intros Hp Hpf Hs Hsf.
  destruct (filter_first (fun r => negb (is_secondary r)) results p Hp)
    as [before [primary [after [Hres [Hb [Hy Hf]]]]]];
    [now rewrite Hpf|].
  assert (Hsec : In s (List.filter is_secondary results))
    by (apply filter_In; auto).
  exists before, primary, after.
  exists (with_answer primary
            (answer primary
             +:+ secondary_info (List.filter is_secondary results))).
  split; [exact Hres|]. split.
  { eapply List.Forall_impl; [|exact Hb]. simpl. intros r Hr.
    now destruct (is_secondary r). }
  split; [now destruct (is_secondary primary)|]. split.
  { destruct results as [|a [|b l]].
    - destruct Hp.
    - destruct Hp as [-> | []], Hs as [-> | []]. congruence.
    - rewrite merge_results_many, Hf.
      destruct (List.filter is_secondary (a :: b :: l)); [destruct Hsec|].
      reflexivity. }
  split; [simpl; now rewrite secondary_info_concat|].
  split; [simpl; apply prefix_app|].
  split; [now apply in_map|].
  intros x _. split; [reflexivity|]. split; [apply take_prefix|].
  split; [apply take_length_le|].
  intros Hlen. apply take_length_exact. lia.
Qed.

Example merge_sample :
  exists merged,
    merge_results sample_results = inr merged
    /\ answer merged
       = long_answer "A" +:+ nl +:+ nl +:+ "**Related Information:**" +:+ nl
         +:+ nl +:+ "*From Database:* "
         +:+ string_of_list_ascii (repeat "B"%char 200) +:+ "...".
Proof. eexists. split; vm_compute; reflexivity. Qed.

Lemma merge_primary_with_excerpts_witness :
  let p := mkKbResult (long_answer "A") "" [] "support" "KB-SUPPORT" false in
  let s := mkKbResult (long_answer "B") "" [] "database" "KB-DATABASE" true in
  In p sample_results /\ is_secondary p = false
  /\ In s sample_results /\ is_secondary s = true
  /\ exists before primary after merged,
       sample_results = (before ++ primary :: after)%list
       /\ merge_results sample_results = inr merged
       /\ String.prefix (answer primary) (answer merged) = true.
Proof.
  intros p s.
  assert (H1 : In p sample_results) by (left; reflexivity).
  assert (H2 : is_secondary p = false) by reflexivity.
  assert (H3 : In s sample_results) by (right; left; reflexivity).
  assert (H4 : is_secondary s = true) by reflexivity.
  repeat (split; [assumption|]).
  destruct (merge_primary_with_excerpts sample_results p s H1 H2 H3 H4)
    as [before [primary [after [merged [Hres [_ [_ [Hm [_ [Hpre _]]]]]]]]]].
  exists before, primary, after, merged. auto.
Defined.

(* ===================================================================== *)
(** * C8: processing with nothing pending                                 *)
(* ===================================================================== *)

Import Feedback.

Lemma select_pending_none (kb_id : string) (company_id : Z) (db : DB) :
  (forall f, In f (query_feedback db) -> is_pending kb_id company_id f = false) ->
  select_pending kb_id company_id db = [].
Proof.
  intros H. unfold select_pending. now rewrite (filter_none _ _ H).
Qed.

(** C8. When no row of [query_feedback] for the given knowledge base and
    company is a pending correction, [process_pending_feedback] returns
    status [no_pending_feedback] with zero processed and leaves the
    database as it is: no row of [training_data] or [kb_improvement_log]
    is added and no feedback row changes; running it again gives the same
    outcome. *)
Theorem no_pending_feedback_is_noop (env : Feedback.Env) (kb_id : string)
    (company_id : Z) (db : DB) :
  (forall f, In f (query_feedback db) ->
             is_pending kb_id company_id f = false) ->
  let outcome := fst (process_pending_feedback env kb_id company_id db) in
  let db' := snd (process_pending_feedback env kb_id company_id db) in
  status outcome = "no_pending_feedback"
  /\ processed outcome = 0
  /\ training_data_ids outcome = None
  /\ db' = db
  /\ training_data db' = training_data db
  /\ kb_improvement_log db' = kb_improvement_log db
  /\ query_feedback db' = query_feedback db
  /\ process_pending_feedback env kb_id company_id db'
     = process_pending_feedback env kb_id company_id db.
Proof.
  intros H. unfold process_pending_feedback.
  rewrite (select_pending_none _ _ _ H). simpl.
  rewrite (select_pending_none _ _ _ H). repeat split.
Qed.

Lemma no_pending_feedback_is_noop_witness :
  (forall f, In f (query_feedback quiet_db) ->
             is_pending "KB-DATABASE" 7 f = false)
  /\ snd (process_pending_feedback sample_feedback_env "KB-DATABASE" 7 quiet_db)
     = quiet_db.
Proof.
  assert (H : forall f, In f (query_feedback quiet_db) ->
                        is_pending "KB-DATABASE" 7 f = false).
  { intros f [<- | [<- | []]]; reflexivity. }
  split; [exact H|].
  apply (no_pending_feedback_is_noop sample_feedback_env "KB-DATABASE" 7
                                     quiet_db H).
Defined.

(** With a pending correction the same call does write: one training
    datum, one improvement log in progress, the feedback row reviewed. *)
Example pending_feedback_is_processed :
  let r := process_pending_feedback sample_feedback_env "KB-DATABASE" 7 busy_db in
  status (fst r) = "success"
  /\ processed (fst r) = 1
  /\ training_data_ids (fst r) = Some [1]
  /\ List.map QueryPattern (training_data (snd r))
     = ["show [SALES_ENTITY] of [CUSTOMER_ENTITY]"]
  /\ List.map Status (kb_improvement_log (snd r)) = ["in_progress"]
  /\ List.map IngestionJobId (kb_improvement_log (snd r))
     = [Some "job-1-1700000000"]
  /\ List.map ProcessingStatus (query_feedback (snd r))
     = ["reviewed"; "pending"; "reviewed"].
Proof. repeat split; vm_compute; reflexivity. Qed.

(* ===================================================================== *)
(** * Beyond the claims: the retrieval methods                            *)
(* ===================================================================== *)

(** X1. [generate_expanded_queries] always returns a list that contains the
    original query; every other element is a non-empty, stripped line of
    the generator's answer; when the generator raises, the list is the
    original query alone. It makes one generator call, no retrieve call
    and no cache access. *)
Theorem expanded_queries_keep_original (env : Retrieval.Env)
    (query_text : string) (w : World) :
  let queries := fst (generate_expanded_queries env query_text w) in
  let w' := snd (generate_expanded_queries env query_text w) in
  let response :=
    invoke_model env (length (gen_log w)) (expansion_prompt query_text) in
  In query_text queries
  /\ (forall x, In x queries ->
        x = query_text
        \/ (x <> ""
            /\ exists text line,
                 response = inr text
                 /\ In line (Py.split "010"%char text)
                 /\ x = Py.strip line))
  /\ (forall e, response = inl e -> queries = [query_text])
  /\ cache w' = cache w
  /\ kb_log w' = kb_log w
  /\ gen_log w' = (gen_log w ++ [expansion_prompt query_text])%list.
Proof.
  unfold generate_expanded_queries, bind, invoke.
  destruct (invoke_model env (length (gen_log w)) (expansion_prompt query_text))
    as [e|text] eqn:E; cbn zeta.
  - simpl. repeat split; auto. intros x [<- | []]. now left.
  - set (queries := List.map Py.strip
                      (List.filter (fun q => Py.truthy (Py.strip q))
                                   (Py.split "010"%char text))).
    assert (Hq : forall x, In x queries ->
               x <> "" /\ exists text0 line,
                 @inr string string text = inr text0
                 /\ In line (Py.split "010"%char text0) /\ x = Py.strip line).
    { intros x Hx. apply in_map_iff in Hx as [line [<- Hl]].
      apply filter_In in Hl as [Hl Ht]. split.
      - intros H0. rewrite H0 in Ht. discriminate Ht.
      - exists text, line. auto. }
    destruct (existsb (String.eqb query_text) queries) eqn:Ex; simpl.
    + repeat split; auto; try (intros e He; discriminate He).
      apply existsb_exists in Ex as [x [Hx Heq]].
      apply String.eqb_eq in Heq. now subst x.
    + repeat split; auto; try (intros e He; discriminate He).
      * apply in_or_app. right. now left.
      * intros x Hx. apply in_app_or in Hx as [Hx | [<- | []]];
          [right; now apply Hq | now left].
Qed.

(** X2. On a cache miss [hyde_retrieval] calls the generator once and the
    provider once. The text it retrieves with is the stripped answer of
    the generator, or the original query when the generator raises (a
    blank answer is used as it is). When the provider answers, its items
    become the contexts and the result carries that text as
    [hypothetical_document]. *)
Theorem hyde_retrieves_with_document (env : Retrieval.Env)
    (query_text : string) (num_results : Z) (w : World) :
  fst (cache_lookup env (hyde_key query_text num_results) w) = None ->
  let r := fst (hyde_retrieval env query_text num_results w) in
  let w' := snd (hyde_retrieval env query_text num_results w) in
  let document :=
    match invoke_model env (length (gen_log w)) (hyde_prompt query_text) with
    | inr text => Py.strip text
    | inl _ => query_text
    end in
  kb_log w' = (kb_log w ++ [(document, num_results)])%list
  /\ gen_log w' = (gen_log w ++ [hyde_prompt query_text])%list
  /\ (forall items,
        kb_retrieve env (length (kb_log w)) document num_results = inr items ->
        contexts r = List.map (context_of_item None) items
        /\ hypothetical_document r = Some document
        /\ error r = None).
Proof.
  intros Hmiss.
  pose proof (cache_lookup_frame env (hyde_key query_text num_results) w)
    as Hfr.
  unfold hyde_retrieval, bind.
  fold (hyde_key query_text num_results).
  destruct (cache_lookup env (hyde_key query_text num_results) w)
    as [hit w0] eqn:Hl.
  simpl in Hmiss, Hfr. subst hit. destruct Hfr as [Hc [Hk [Hg Hclk]]].
  unfold generate_hypothetical_document, bind, invoke, retrieve.
  rewrite Hg.
  destruct (invoke_model env (length (gen_log w)) (hyde_prompt query_text))
    as [e|text]; simpl; rewrite Hk;
    match goal with
    | |- context [kb_retrieve env ?j ?d ?n] =>
        destruct (kb_retrieve env j d n) as [e'|items] eqn:E
    end; simpl; rewrite ?Hg; repeat split; auto; congruence.
Qed.

Lemma hyde_retrieves_with_document_witness :
  fst (cache_lookup steady_env (hyde_key "q" 5) empty_world) = None
  /\ kb_log (snd (hyde_retrieval steady_env "q" 5 empty_world))
     = [("analysis", 5)].
Proof.
  assert (H : fst (cache_lookup steady_env (hyde_key "q" 5) empty_world) = None)
    by reflexivity.
  split; [exact H|].
  apply (hyde_retrieves_with_document steady_env "q" 5 empty_world H).
Defined.

(** ** What the aggregation returns *)

Lemma firstn_incl {A} (n : nat) (l : list A) (x : A) :
  In x (firstn n l) -> In x l.
Proof.
  revert n. induction l as [|a l IH]; intros [|n]; simpl; try tauto.
  intros [-> | H]; [now left | right; now apply (IH n)].
Qed.

Lemma slice_to_incl {A} (n : Z) (l : list A) (x : A) :
  In x (Py.slice_to n l) -> In x l.
Proof.
  unfold Py.slice_to. destruct (0 <=? n); apply firstn_incl.
Qed.

Lemma firstn_strongly_sorted {A} (R : A -> A -> Prop) (n : nat) (l : list A) :
  StronglySorted R l -> StronglySorted R (firstn n l).
Proof.
  revert n. induction l as [|a l IH]; intros n Hs.
  - destruct n; constructor.
  - destruct n as [|n]; [constructor|]. cbn [firstn].
    apply StronglySorted_inv in Hs as [Hs Ha]. constructor; [now apply IH|].
    apply List.Forall_forall. intros x Hx.
    rewrite List.Forall_forall in Ha. apply Ha.
    eapply firstn_incl. exact Hx.
Qed.

Lemma firstn_nodup_map {A B} (f : A -> B) (n : nat) (l : list A) :
  List.NoDup (List.map f l) -> List.NoDup (List.map f (firstn n l)).
Proof.
  revert n. induction l as [|a l IH]; intros n Hnd.
  - destruct n; constructor.
  - destruct n as [|n]; [constructor|]. cbn [firstn List.map] in *.
    apply List.NoDup_cons_iff in Hnd as [Hnotin Hnd].
    constructor; [|now apply IH].
    intros Hin. apply Hnotin. apply in_map_iff in Hin as [x [Hfx Hx]].
    apply in_map_iff. exists x. split; [exact Hfx|].
    eapply firstn_incl. exact Hx.
Qed.

Lemma slice_to_as_firstn {A} (n : Z) (l : list A) :
  exists m, Py.slice_to n l = firstn m l /\ (0 <= n -> m = Z.to_nat n).
Proof.
  unfold Py.slice_to. destruct (0 <=? n) eqn:E.
  - eexists. split; [reflexivity | reflexivity].
  - eexists. split; [reflexivity | lia].
Qed.

(** what any list returned by the aggregation looks like *)
Lemma aggregate_shape (num_results : Z) (all_contexts : list Context) :
  let out := aggregate num_results all_contexts in
  (forall c, In c out -> In c all_contexts)
  /\ List.NoDup (List.map content_hash out)
  /\ StronglySorted score_ge out
  /\ (0 <= num_results -> (length out <= Z.to_nat num_results)%nat).
Proof.
  pose proof (deduplicate_inv all_contexts) as Hinv.
  pose proof (dedup_keys_are_hashes _ _ Hinv) as Hkeys.
  destruct Hinv as [Hnd Hsound _].
  unfold aggregate, top_contexts.
  set (survivors := dict_values (deduplicate all_contexts)) in *.
  destruct (slice_to_as_firstn num_results (sorted_desc survivors))
    as [m [-> Hm]].
  repeat split.
  - intros c Hc. apply firstn_incl in Hc.
    apply (Permutation_in _ (sorted_desc_perm survivors)) in Hc.
    unfold survivors, dict_values in Hc.
    apply in_map_iff in Hc as [[k v] [<- Hin]]. simpl.
    apply (dict_In_get _ _ _ Hnd) in Hin. now apply (Hsound _ _ Hin).
  - apply firstn_nodup_map.
    apply (Permutation_NoDup
             (l := List.map content_hash survivors)).
    + apply Permutation_map. symmetry. apply sorted_desc_perm.
    + now rewrite Hkeys.
  - apply firstn_strongly_sorted, sorted_desc_sorted.
  - intros Hk. rewrite (Hm Hk). apply firstn_le_length.
Qed.

Lemma generate_expanded_queries_fst (env : Retrieval.Env) query_text w w0 :
  gen_log w0 = gen_log w ->
  fst (generate_expanded_queries env query_text w0)
  = fst (generate_expanded_queries env query_text w).
Proof.
  intros Hg. unfold generate_expanded_queries, bind, invoke. rewrite Hg.
  destruct (invoke_model env _ _) as [e|text]; [reflexivity|]. cbn zeta.
  destruct (existsb _ _); reflexivity.
Qed.

Lemma retrieve_each_success (env : Retrieval.Env) (n : Z)
    (queries : list string) :
  (forall j q, exists items, kb_retrieve env j q n = inr items) ->
  forall i acc th w,
  exists new th',
    fst (retrieve_each env n i queries acc th w) = inr ((acc ++ new)%list, th')
    /\ forall c, In c new -> exists q, In q queries /\ from_query c = Some q.
Proof.
  intros Hall. induction queries as [|q queries IH]; intros i acc th w.
  - exists [], th. cbn [retrieve_each]. unfold ret. cbn [fst].
    rewrite app_nil_r. split; [reflexivity | intros c []].
  - cbn [retrieve_each]. unfold bind, retrieve.
    destruct (Hall (length (kb_log w)) q) as [items Hi]. rewrite Hi.
    match goal with
    | |- context [retrieve_each env n ?i' queries ?acc' ?th' ?w1] =>
        destruct (IH i' acc' th' w1) as [new [th'' [Hfst Hnew]]]
    end.
    exists (List.map (context_of_item (Some q)) items ++ new)%list, th''.
    split.
    + rewrite Hfst. now rewrite <- app_assoc.
    + intros c Hc. apply in_app_or in Hc as [Hc | Hc].
      * apply in_map_iff in Hc as [item [<- _]].
        exists q. split; [now left | reflexivity].
      * destruct (Hnew c Hc) as [x [Hx Hf]]. exists x. split; [now right | exact Hf].
Qed.

(** X3. On a cache miss with a provider that does not raise,
    [query_expansion] sends one request per expanded query, in order, each
    for [num_results] results; the result has no [error] key, each
    returned context records in [from_query] the expanded query that
    found it, and the result is stored in the cache under the call's
    key. *)
Theorem query_expansion_requests (env : Retrieval.Env) (query_text : string)
    (num_results : Z) (w : World) :
  fst (cache_lookup env (expansion_key query_text num_results) w) = None ->
  (forall j t, exists items, kb_retrieve env j t num_results = inr items) ->
  let queries := fst (generate_expanded_queries env query_text w) in
  let r := fst (query_expansion env query_text num_results w) in
  let w' := snd (query_expansion env query_text num_results w) in
  kb_log w'
  = (kb_log w ++ List.map (fun x => (x, num_results)) queries)%list
  /\ error r = None
  /\ (forall c, In c (contexts r) ->
        exists x, In x queries /\ from_query c = Some x)
  /\ exists ts,
       cache w' !! expansion_key query_text num_results = Some (mkEntry r ts).
Proof.
  intros Hmiss Hall.
  pose proof (cache_lookup_frame env (expansion_key query_text num_results) w)
    as Hfr.
  unfold query_expansion, bind.
  fold (expansion_key query_text num_results).
  destruct (cache_lookup env (expansion_key query_text num_results) w)
    as [hit w0] eqn:Hl.
  simpl in Hmiss, Hfr. subst hit. destruct Hfr as [Hc [Hk [Hg Hclk]]].
  rewrite <- (generate_expanded_queries_fst env query_text w w0 Hg).
  pose proof (generate_expanded_queries_frame env query_text w0) as Hge.
  destruct (generate_expanded_queries env query_text w0) as [qs w1].
  simpl in Hge. destruct Hge as [Hc1 [Hk1 [Hg1 Hclk1]]]. cbn [fst].
  match goal with
  | |- context [retrieve_each env ?n ?i qs ?acc ?th w1] =>
      pose proof (retrieve_each_spec env n qs i acc th w1) as Hspec;
      destruct (retrieve_each_success env n qs Hall i acc th w1)
        as [new [th' [Hfst Hnew]]];
      destruct (retrieve_each env n i qs acc th w1) as [out w2]
  end.
  simpl in Hspec, Hfst. subst out.
  destruct Hspec as [m [_ [Hlog [_ [_ [_ [_ Hm]]]]]]].
  rewrite (Hm Hall), firstn_all in Hlog. simpl.
  split; [now rewrite Hlog, Hk1, Hk|]. split; [reflexivity|]. split.
  - intros c Hc'. apply Hnew.
    now apply (aggregate_shape num_results new) in Hc'.
  - eexists. apply lookup_insert_eq.
Qed.

Lemma query_expansion_requests_witness :
  fst (cache_lookup steady_env (expansion_key "q" 5) empty_world) = None
  /\ (forall j t, exists items, kb_retrieve steady_env j t 5 = inr items)
  /\ kb_log (snd (query_expansion steady_env "q" 5 empty_world))
     = [("analysis", 5); ("q", 5)].
Proof.
  assert (H1 : fst (cache_lookup steady_env (expansion_key "q" 5) empty_world)
               = None) by reflexivity.
  assert (H2 : forall j t, exists items,
               kb_retrieve steady_env j t 5 = inr items)
    by (intros j t; eexists; reflexivity).
  split; [exact H1 | split; [exact H2|]].
  apply (query_expansion_requests steady_env "q" 5 empty_world H1 H2).
Defined.




(** the result [standard_query] falls back to *)
Lemma standard_query_down (env : Retrieval.Env) query_text n w err :
  cache w = ∅ ->
  kb_retrieve env (length (kb_log w)) query_text n = inl err ->
  exists r,
    standard_query env query_text n w
    = (r, mkWorld (cache w) (kb_log w ++ [(query_text, n)])%list
                  (gen_log w) (clock_reads w))
    /\ error r = Some err
    /\ exists c, contexts r = [c] /\ score c = 1.0%Q
                 /\ source c = "mock-source"
                 /\ content c
                    = "This is a mock response. The query was: "
                      +:+ query_text
                      +:+ ". There was an error connecting to the knowledge base: "
                      +:+ err.
Proof.
  intros Hc Herr.
  assert (Hl : cache_lookup env (standard_key query_text n) w = (None, w)).
  { apply cache_lookup_absent. rewrite Hc. apply lookup_empty. }
  rewrite (standard_query_miss env query_text n w w Hl eq_refl), Herr.
  eexists. split; [reflexivity|]. split; [reflexivity|].
  eexists. repeat split.
Qed.

Lemma retrieve_each_down (env : Retrieval.Env) n i q queries acc th w err :
  kb_retrieve env (length (kb_log w)) q n = inl err ->
  retrieve_each env n i (q :: queries) acc th w
  = (inl err, mkWorld (cache w) (kb_log w ++ [(q, n)])%list
                      (gen_log w) (clock_reads w)).
Proof.
  intros Herr. cbn [retrieve_each]. unfold bind, retrieve.
  now rewrite Herr.
Qed.

Lemma expanded_queries_have_original (env : Retrieval.Env) query_text w :
  In query_text (fst (generate_expanded_queries env query_text w)).
Proof.
  unfold generate_expanded_queries, bind, invoke.
  destruct (invoke_model env _ _) as [e|text]; cbn zeta; [now left|].
  destruct (existsb _ _) eqn:Ex; simpl.
  - apply existsb_exists in Ex as [x [Hx Heq]].
    apply String.eqb_eq in Heq. now subst x.
  - apply in_or_app. right. now left.
Qed.

Lemma query_expansion_down (env : Retrieval.Env) query_text n w err :
  cache w = ∅ ->
  (forall j t, kb_retrieve env j t n = inl err) ->
  exists t w',
    query_expansion env query_text n w
    = (mkResult query_text "query_expansion" [] None None None (Some err), w')
    /\ cache w' = ∅
    /\ kb_log w' = (kb_log w ++ [(t, n)])%list
    /\ length (gen_log w') = S (length (gen_log w)).
Proof.
  intros Hc Hdown. unfold query_expansion, bind.
  rewrite (cache_lookup_absent env _ w) by (rewrite Hc; apply lookup_empty).
  pose proof (generate_expanded_queries_frame env query_text w) as Hge.
  pose proof (expanded_queries_have_original env query_text w) as Hin.
  destruct (generate_expanded_queries env query_text w) as [qs w1].
  simpl in Hge, Hin. destruct Hge as [Hc1 [Hk1 [Hg1 Hclk1]]].
  destruct qs as [|q0 qs]; [destruct Hin|].
  rewrite (retrieve_each_down env n 0 q0 qs _ _ w1 err (Hdown _ _)).
  exists q0. eexists. split; [reflexivity|]. simpl.
  split; [now rewrite Hc1|]. split; [now rewrite Hk1|].
  rewrite Hg1, length_app. simpl. lia.
Qed.

Lemma hyde_retrieval_down (env : Retrieval.Env) query_text n w err :
  cache w = ∅ ->
  (forall j t, kb_retrieve env j t n = inl err) ->
  exists t w',
    hyde_retrieval env query_text n w
    = (mkResult query_text "hyde" [] None None None (Some err), w')
    /\ cache w' = ∅
    /\ kb_log w' = (kb_log w ++ [(t, n)])%list
    /\ length (gen_log w') = S (length (gen_log w)).
Proof.
  intros Hc Hdown. unfold hyde_retrieval, bind.
  rewrite (cache_lookup_absent env _ w) by (rewrite Hc; apply lookup_empty).
  pose proof (generate_hypothetical_document_frame env query_text w) as Hgh.
  destruct (generate_hypothetical_document env query_text w) as [doc w1].
  simpl in Hgh. destruct Hgh as [Hc1 [Hk1 [Hg1 Hclk1]]].
  unfold retrieve. rewrite (Hdown _ doc).
  exists doc. eexists. split; [reflexivity|]. simpl.
  split; [now rewrite Hc1|]. split; [now rewrite Hk1|].
  rewrite Hg1, length_app. simpl. lia.
Qed.

Lemma multi_strategy_down_run (env : Retrieval.Env)
    (query_text : string) (num_results : Z) (w : World) (err : string) :
  cache w = ∅ ->
  (forall j t n, kb_retrieve env j t n = inl err) ->
  1 <= num_results ->
  let n := Z.max 2 (num_results / 3) in
  exists r w' c t2 t3 ts,
    multi_strategy_retrieval env query_text num_results w = (r, w')
    /\ error r = None
    /\ contexts r = [c]
    /\ score c = 1.0%Q
    /\ source c = "mock-source"
    /\ content c
       = "This is a mock response. The query was: " +:+ query_text
         +:+ ". There was an error connecting to the knowledge base: " +:+ err
    /\ kb_log w' = (kb_log w ++ [(query_text, n); (t2, n); (t3, n)])%list
    /\ length (gen_log w') = (length (gen_log w) + 2)%nat
    /\ cache w' !! multi_key query_text num_results = Some (mkEntry r ts).
Proof.
  intros Hc Hdown Hk. cbv zeta.
  set (n := Z.max 2 (num_results / 3)).
  destruct (standard_query_down env query_text n w err Hc (Hdown _ _ _))
    as [std [Hstd [_ [c [Hctx [Hscore [Hsrc Hcontent]]]]]]].
  set (w1 := mkWorld (cache w) (kb_log w ++ [(query_text, n)])%list
                     (gen_log w) (clock_reads w)) in *.
  destruct (query_expansion_down env query_text n w1 err Hc
              (fun j t => Hdown j t n))
    as [t2 [w2 [Hexp [Hc2 [Hk2 Hg2]]]]].
  destruct (hyde_retrieval_down env query_text n w2 err Hc2
              (fun j t => Hdown j t n))
    as [t3 [w3 [Hhyd [Hc3 [Hk3 Hg3]]]]].
  assert (Hagg : top_contexts num_results (deduplicate [c]) = [c]).
  { unfold top_contexts, deduplicate. cbn [fold_left].
    unfold dedup_step. cbn [dict_get dict_set dict_values List.map snd].
    rewrite slice_to_nonneg by lia. cbn [sorted_desc fold_right insert_desc].
    apply firstn_all2. simpl. lia. }
  unfold multi_strategy_retrieval, bind.
  fold (multi_key query_text num_results).
  rewrite (cache_lookup_absent env _ w)
    by (rewrite Hc; apply lookup_empty).
  fold n. rewrite Hstd, Hexp, Hhyd.
  cbn [contexts]. rewrite Hctx, !app_nil_r. cbn [List.app]. rewrite Hagg.
  rewrite cache_store_spec. unfold ret.
  eexists. eexists. exists c, t2, t3. eexists.
  split; [reflexivity|]. split; [reflexivity|]. split; [reflexivity|].
  split; [exact Hscore|]. split; [exact Hsrc|]. split; [exact Hcontent|].
  cbn [kb_log gen_log cache]. split.
  - rewrite Hk3, Hk2. unfold w1. cbn [kb_log]. now rewrite <- !app_assoc.
  - split; [|apply lookup_insert_eq].
    rewrite Hg3, Hg2. unfold w1. cbn [gen_log]. lia.
Qed.

(** X6. When the provider raises on every request and the cache is
    empty, [multi_strategy_retrieval] with [num_results >= 1] still
    returns a result without an [error] key: its only context is the
    explanatory fallback of [standard_query] (score 1.0, source
    [mock-source]). It has sent three requests, each for
    [max(2, num_results // 3)] results, and it stores this result in the
    cache. *)
Theorem multi_strategy_provider_down (env : Retrieval.Env)
    (query_text : string) (num_results : Z) (w : World) (err : string) :
  cache w = ∅ ->
  (forall j t n, kb_retrieve env j t n = inl err) ->
  1 <= num_results ->
  let r := fst (multi_strategy_retrieval env query_text num_results w) in
  let w' := snd (multi_strategy_retrieval env query_text num_results w) in
  let n := Z.max 2 (num_results / 3) in
  error r = None
  /\ (exists c, contexts r = [c] /\ score c = 1.0%Q
                /\ source c = "mock-source")
  /\ (exists t2 t3,
        kb_log w' = (kb_log w ++ [(query_text, n); (t2, n); (t3, n)])%list)
  /\ exists ts,
       cache w' !! multi_key query_text num_results = Some (mkEntry r ts).
Proof.
  intros Hc Hdown Hk.
  destruct (multi_strategy_down_run env query_text num_results w err
              Hc Hdown Hk)
    as [r [w' [c [t2 [t3 [ts [Hrun [He [Hctx [Hs [Hsrc [_ [Hlog [_ Hcache]]]]]]]]]]]]]].
  cbv zeta. rewrite Hrun. cbn [fst snd].
  split; [exact He|]. split; [exists c; auto|].
  split; [exists t2, t3; exact Hlog|]. exists ts. exact Hcache.
Qed.

(** a provider that always raises, a generator that is down *)
Lemma multi_strategy_provider_down_witness :
  let env := Retrieval.mkEnv (fun _ _ _ => inl "timeout")
                             (fun _ _ => inl "unavailable")
                             (fun _ => 0%Q) in
  cache empty_world = ∅
  /\ (forall j t n, kb_retrieve env j t n = inl "timeout")
  /\ 1 <= 8
  /\ error (fst (multi_strategy_retrieval env "q" 8 empty_world)) = None.
Proof.
  intros env.
  assert (H1 : cache empty_world = ∅) by reflexivity.
  assert (H2 : forall j t n, kb_retrieve env j t n = inl "timeout")
    by (intros; reflexivity).
  assert (H3 : 1 <= 8) by lia.
  split; [exact H1 | split; [exact H2 | split; [exact H3|]]].
  apply (multi_strategy_provider_down env "q" 8 empty_world "timeout" H1 H2 H3).
Defined.

(** X7. [relationship_retrieval] absorbs a failure of the generator: on
    a cache miss with a provider that answers, the result has no [error]
    key, its [relationship_analysis] is the text "Error generating
    relationship analysis: " followed by the exception, and this result is
    stored in the cache like a successful one. *)
Theorem relationship_generator_failure (env : Retrieval.Env)
    (table_name : string) (num_results : Z) (w : World) (err : string) :
  fst (cache_lookup env (relationship_key table_name num_results) w) = None ->
  (forall j q, exists items,
      kb_retrieve env j q (num_results / 5 + 1) = inr items) ->
  (forall j p, invoke_model env j p = inl err) ->
  let r := fst (relationship_retrieval env table_name num_results w) in
  let w' := snd (relationship_retrieval env table_name num_results w) in
  error r = None
  /\ relationship_analysis r
     = Some ("Error generating relationship analysis: " +:+ err)
  /\ length (gen_log w') = S (length (gen_log w))
  /\ exists ts,
       cache w' !! relationship_key table_name num_results
       = Some (mkEntry r ts).
Proof.
  intros Hmiss Hall Hgen.
  pose proof (cache_lookup_frame env (relationship_key table_name num_results) w)
    as Hfr.
  unfold relationship_retrieval, bind.
  fold (relationship_key table_name num_results).
  destruct (cache_lookup env (relationship_key table_name num_results) w)
    as [hit w0] eqn:Hl.
  simpl in Hmiss, Hfr. subst hit. destruct Hfr as [Hc [Hk [Hg Hclk]]].
  change (per_template num_results (relationship_queries table_name))
    with (num_results / 5 + 1).
  match goal with
  | |- context [retrieve_each env ?n ?i ?qs ?acc ?th w0] =>
      pose proof (retrieve_each_spec env n qs i acc th w0) as Hspec;
      destruct (retrieve_each_success env n qs Hall i acc th w0)
        as [new [th' [Hfst _]]];
      destruct (retrieve_each env n i qs acc th w0) as [out w1]
  end.
  simpl in Hspec, Hfst. subst out.
  destruct Hspec as [m [_ [_ [_ [Hg1 _]]]]].
  cbn iota beta.
  unfold generate_relationship_analysis, bind, invoke. rewrite Hgen.
  simpl. rewrite length_app, Hg1, Hg. simpl.
  repeat split; [lia|]. eexists. apply lookup_insert_eq.
Qed.

Lemma relationship_generator_failure_witness :
  let env := Retrieval.mkEnv (fun _ _ _ => inr [sample_item])
                             (fun _ _ => inl "throttled")
                             (fun _ => 0%Q) in
  fst (cache_lookup env (relationship_key "orders" 10) empty_world) = None
  /\ (forall j q, exists items, kb_retrieve env j q (10 / 5 + 1) = inr items)
  /\ (forall j p, invoke_model env j p = inl "throttled")
  /\ relationship_analysis
       (fst (relationship_retrieval env "orders" 10 empty_world))
     = Some ("Error generating relationship analysis: " +:+ "throttled").
Proof.
  intros env.
  assert (H1 : fst (cache_lookup env (relationship_key "orders" 10) empty_world)
               = None) by reflexivity.
  assert (H2 : forall j q, exists items,
               kb_retrieve env j q (10 / 5 + 1) = inr items)
    by (intros; eexists; reflexivity).
  assert (H3 : forall j p, invoke_model env j p = inl "throttled")
    by (intros; reflexivity).
  split; [exact H1 | split; [exact H2 | split; [exact H3|]]].
  apply (relationship_generator_failure env "orders" 10 empty_world
                                        "throttled" H1 H2 H3).
Defined.

Lemma first_failure_spec (env : Retrieval.Env) (requests : list (string * Z)) :
  forall calls idx err,
    first_failure env calls requests = Some (idx, err)
    <-> raises_at env calls requests idx err.
Proof.
  induction requests as [|[text n] rest IH]; intros calls idx err.
  - cbn [first_failure]. split; [discriminate|].
    intros [Hlt _]. cbn [length] in Hlt. lia.
  - cbn [first_failure]. unfold raises_at. cbn [length].
    destruct (kb_retrieve env calls text n) as [e|items] eqn:E.
    + split.
      * intros [= <- <-]. split; [lia|]. split; [intros j Hj; lia|].
        cbn [nth fst snd]. now rewrite Nat.add_0_r.
      * intros [_ [Hbefore Hraise]]. destruct idx as [|i].
        -- cbn [nth fst snd] in Hraise. rewrite Nat.add_0_r in Hraise.
           congruence.
        -- destruct (Hbefore 0%nat ltac:(lia)) as [items Hi].
           cbn [nth fst snd] in Hi. rewrite Nat.add_0_r in Hi. congruence.
    + split.
      * destruct (first_failure env (S calls) rest) as [[i e]|] eqn:F;
          [|discriminate].
        intros [= <- <-]. apply IH in F. destruct F as [Hlt [Hbefore Hraise]].
        split; [lia|]. split.
        -- intros [|j] Hj.
           ++ exists items. cbn [nth fst snd]. now rewrite Nat.add_0_r.
           ++ destruct (Hbefore j ltac:(lia)) as [its Hits]. exists its.
              cbn [nth]. now rewrite Nat.add_succ_r.
        -- cbn [nth]. now rewrite Nat.add_succ_r.
      * intros [Hlt [Hbefore Hraise]]. destruct idx as [|i].
        -- cbn [nth fst snd] in Hraise. rewrite Nat.add_0_r in Hraise.
           congruence.
        -- assert (F : first_failure env (S calls) rest = Some (i, err)).
           { apply IH. split; [lia|]. split.
             - intros j Hj. destruct (Hbefore (S j) ltac:(lia)) as [its Hits].
               exists its. cbn [nth] in Hits.
               now rewrite Nat.add_succ_r in Hits.
             - cbn [nth] in Hraise. now rewrite Nat.add_succ_r in Hraise. }
           now rewrite F.
Qed.

Lemma first_failure_app (env : Retrieval.Env) (a b : list (string * Z)) :
  forall calls,
    first_failure env calls (a ++ b)
    = match first_failure env calls a with
      | Some x => Some x
      | None =>
          match first_failure env (calls + length a) b with
          | Some (i, e) => Some ((length a + i)%nat, e)
          | None => None
          end
      end.
Proof.
  induction a as [|[text n] a IH]; intros calls.
  - cbn [app first_failure length]. rewrite Nat.add_0_r.
    now destruct (first_failure env calls b) as [[i e]|].
  - cbn [app first_failure length].
    destruct (kb_retrieve env calls text n); [reflexivity|].
    rewrite IH. destruct (first_failure env (S calls) a) as [[i e]|];
      [reflexivity|].
    rewrite Nat.add_succ_r.
    change (S calls + length a)%nat with (S (calls + length a)).
    now destruct (first_failure env (S (calls + length a)) b) as [[i e]|].
Qed.

Lemma retrieve_each_outcome (env : Retrieval.Env) (n : Z)
    (queries : list string) :
  forall i acc th w,
    let out := fst (retrieve_each env n i queries acc th w) in
    let w' := snd (retrieve_each env n i queries acc th w) in
    let requests := List.map (fun q => (q, n)) queries in
    match first_failure env (length (kb_log w)) requests with
    | Some (idx, err) =>
        out = inl err
        /\ kb_log w' = (kb_log w ++ firstn (S idx) requests)%list
    | None =>
        (exists r, out = inr r) /\ kb_log w' = (kb_log w ++ requests)%list
    end.
Proof.
  induction queries as [|q queries IH]; intros i acc th w.
  - cbn [retrieve_each ret fst snd List.map first_failure].
    split; [eauto | now rewrite app_nil_r].
  - cbn [retrieve_each List.map first_failure]. unfold bind, retrieve.
    destruct (kb_retrieve env (length (kb_log w)) q n) as [e|items] eqn:E.
    + cbn [ret fst snd kb_log firstn]. split; reflexivity.
    + match goal with
      | |- context [retrieve_each env n ?i' queries ?acc' ?th' ?w1] =>
          specialize (IH i' acc' th' w1)
      end.
      cbv zeta in IH. cbn [kb_log] in IH.
      rewrite length_app in IH. cbn [length] in IH.
      rewrite Nat.add_1_r in IH.
      destruct (first_failure env (S (length (kb_log w)))
                  (List.map (fun q0 => (q0, n)) queries)) as [[idx err]|].
      * destruct IH as [Hout Hlog]. split; [exact Hout|].
        rewrite Hlog, <- app_assoc. reflexivity.
      * destruct IH as [Hout Hlog]. split; [exact Hout|].
        rewrite Hlog, <- app_assoc. reflexivity.
Qed.

(** X8. On a cache miss, when one of the five requests of
    [relationship_retrieval] raises after the requests before it were
    answered, the remaining templates are not requested, the generator
    is not called, the result is error-shaped (the exception of that
    request under [error], no contexts, no analysis, no thinking) and
    the cache is left as it was. An [error] key arises in no other
    way. *)
Theorem relationship_provider_failure (env : Retrieval.Env)
    (table_name : string) (num_results : Z) (w : World) :
  fst (cache_lookup env (relationship_key table_name num_results) w) = None ->
  let r := fst (relationship_retrieval env table_name num_results w) in
  let w' := snd (relationship_retrieval env table_name num_results w) in
  let requests :=
    List.map (fun q => (q, num_results / 5 + 1))
             (relationship_queries table_name) in
  (forall idx err,
     raises_at env (length (kb_log w)) requests idx err ->
     error r = Some err
     /\ contexts r = []
     /\ relationship_analysis r = None
     /\ thinking_process r = None
     /\ gen_log w' = gen_log w
     /\ cache w' = cache w
     /\ kb_log w' = (kb_log w ++ firstn (S idx) requests)%list)
  /\ (forall err,
        error r = Some err ->
        exists idx, raises_at env (length (kb_log w)) requests idx err).
Proof.
  intros Hmiss. cbv zeta.
  pose proof (cache_lookup_frame env (relationship_key table_name num_results) w)
    as Hfr.
  unfold relationship_retrieval, bind.
  fold (relationship_key table_name num_results).
  destruct (cache_lookup env (relationship_key table_name num_results) w)
    as [hit w0] eqn:Hl.
  cbn [fst snd] in Hmiss, Hfr. subst hit. destruct Hfr as [Hc [Hk [Hg Hclk]]].
  change (per_template num_results (relationship_queries table_name))
    with (num_results / 5 + 1).
  match goal with
  | |- context [retrieve_each env ?n ?i ?qs ?acc ?th w0] =>
      pose proof (retrieve_each_outcome env n qs i acc th w0) as Hout;
      pose proof (retrieve_each_spec env n qs i acc th w0) as Hspec;
      destruct (retrieve_each env n i qs acc th w0) as [out w1]
  end.
  cbv zeta in Hout, Hspec. cbn [fst snd] in Hout, Hspec.
  destruct Hspec as [m [_ [_ [Hc1 [Hg1 _]]]]].
  rewrite Hk in Hout.
  set (requests := List.map (fun q => (q, num_results / 5 + 1))
                            (relationship_queries table_name)) in *.
  destruct (first_failure env (length (kb_log w)) requests)
    as [[i e]|] eqn:F.
  - destruct Hout as [-> Hlog].
    cbn [ret fst snd error contexts relationship_analysis thinking_process].
    split.
    + intros idx err Hraise. apply first_failure_spec in Hraise.
      rewrite F in Hraise. injection Hraise as <- <-.
      split; [reflexivity|]. split; [reflexivity|]. split; [reflexivity|].
      split; [reflexivity|]. split; [congruence|]. split; [congruence|].
      exact Hlog.
    + intros err [= <-]. exists i. now apply first_failure_spec.
  - destruct Hout as [[[all th1] ->] _]. split.
    + intros idx err Hraise. apply first_failure_spec in Hraise. congruence.
    + unfold generate_relationship_analysis, bind, invoke.
      destruct (invoke_model env _ _);
        cbn [ret cache_store bind now fst error]; discriminate.
Qed.

Lemma relationship_provider_failure_witness :
  let env :=
    Retrieval.mkEnv
      (fun n _ _ => if (n <? 2)%nat then inr [sample_item] else inl "timeout")
      (fun _ _ => inr "analysis") (fun _ => 0%Q) in
  fst (cache_lookup env (relationship_key "orders" 10) empty_world) = None
  /\ raises_at env (length (kb_log empty_world))
               (List.map (fun q => (q, 10 / 5 + 1))
                         (relationship_queries "orders"))
               2 "timeout"
  /\ error (fst (relationship_retrieval env "orders" 10 empty_world))
     = Some "timeout"
  /\ kb_log (snd (relationship_retrieval env "orders" 10 empty_world))
     = [("relationships of orders table", 3); ("orders foreign keys", 3);
        ("tables that reference orders", 3)].
Proof.
  intros env.
  assert (H1 : fst (cache_lookup env (relationship_key "orders" 10) empty_world)
               = None) by reflexivity.
  assert (H2 : raises_at env (length (kb_log empty_world))
                 (List.map (fun q => (q, 10 / 5 + 1))
                           (relationship_queries "orders"))
                 2 "timeout").
  { split; [cbn; lia|]. split; [|reflexivity].
    intros [|[|j]] Hj; [eexists; reflexivity | eexists; reflexivity | lia]. }
  split; [exact H1 | split; [exact H2|]].
  destruct (relationship_provider_failure env "orders" 10 empty_world H1)
    as [Hforward _].
  destruct (Hforward 2%nat "timeout" H2) as [He [_ [_ [_ [_ [_ Hlog]]]]]].
  split; [exact He | exact Hlog].
Defined.

(* ===================================================================== *)
(** * Beyond the claims: answer synthesis                                 *)
(* ===================================================================== *)

Lemma append_nonempty_l (a b : string) : a <> "" -> a +:+ b <> "".
Proof.
  destruct a as [|c a]; [congruence|]. intros _.
  rewrite append_cons. discriminate.
Qed.

Lemma truthy_nonempty (s : string) : Py.truthy s = true -> s <> "".
Proof. destruct s; [discriminate | discriminate]. Qed.

(** X9. [generate_answer_from_contexts] never returns the empty string.
    Without context texts it returns the fixed "couldn't find" message for
    the query and calls nothing; otherwise it calls the generator exactly
    once, and when that call raises the answer is the "Based on the
    database documentation" text carrying the first 2000 characters of the
    first context. *)
Theorem generated_answer_never_empty (env : Retrieval.Env)
    (query_text : string) (context_texts : list string) (w : World) :
  let a :=
    fst (Answering.generate_answer_from_contexts env query_text context_texts w) in
  let w' :=
    snd (Answering.generate_answer_from_contexts env query_text context_texts w) in
  let prompt :=
    Answering.answer_prompt query_text
      (Answering.combine_contexts query_text context_texts) in
  a <> ""
  /\ (context_texts = [] ->
      a = Answering.not_found_message query_text /\ w' = w)
  /\ (forall first rest, context_texts = first :: rest ->
        gen_log w' = (gen_log w ++ [prompt])%list
        /\ kb_log w' = kb_log w
        /\ cache w' = cache w
        /\ (forall e, invoke_model env (length (gen_log w)) prompt = inl e ->
              a = "Based on the database documentation, here's what I found for your query '"
                  +:+ query_text +:+ "':" +:+ Retrieval.nl +:+ Retrieval.nl
                  +:+ Py.take 2000 first +:+ "..."
              /\ (String.length (Py.take 2000 first) <= 2000)%nat)).
Proof.
  unfold Answering.generate_answer_from_contexts.
  destruct context_texts as [|first rest].
  - cbv zeta. unfold ret. cbn [fst snd]. split.
    + unfold Answering.not_found_message. apply append_nonempty_l. discriminate.
    + split; [auto|]. intros ? ? H. discriminate H.
  - cbv zeta. unfold bind, invoke.
    destruct (invoke_model env (length (gen_log w)) _) as [e|result] eqn:E.
    + unfold ret. cbn [fst snd gen_log kb_log cache]. split.
      * apply append_nonempty_l. discriminate.
      * split; [intros H; discriminate H|].
        intros f r [= <- <-].
        split; [reflexivity|]. split; [reflexivity|]. split; [reflexivity|].
        intros e' _. split; [reflexivity | apply take_length_le].
    + destruct (Py.truthy (Py.strip result)) eqn:T;
        unfold ret; cbn [fst snd gen_log kb_log cache]; split.
      * now apply truthy_nonempty.
      * split; [intros H; discriminate H|].
        intros f r [= <- <-].
        split; [reflexivity|]. split; [reflexivity|]. split; [reflexivity|].
        intros e' He. discriminate He.
      * apply append_nonempty_l. discriminate.
      * split; [intros H; discriminate H|].
        intros f r [= <- <-].
        split; [reflexivity|]. split; [reflexivity|]. split; [reflexivity|].
        intros e' He. discriminate He.
Qed.

(** X10. Only the first ten context texts reach the generator: once ten
    texts are given, any further texts change neither the prompt nor the
    answer nor the calls made. *)
Theorem answer_uses_first_ten_contexts (env : Retrieval.Env)
    (query_text : string) (context_texts extra : list string) (w : World) :
  (10 <= length context_texts)%nat ->
  Answering.generate_answer_from_contexts env query_text
                                          (context_texts ++ extra)%list w
  = Answering.generate_answer_from_contexts env query_text context_texts w.
Proof.
  intros Hlen.
  assert (Hc : Answering.combine_contexts query_text (context_texts ++ extra)%list
               = Answering.combine_contexts query_text context_texts).
  { unfold Answering.combine_contexts. rewrite firstn_app.
    replace (10 - length context_texts)%nat with 0%nat by lia.
    now rewrite firstn_0, app_nil_r. }
  destruct context_texts as [|first rest]; [simpl in Hlen; lia|].
  unfold Answering.generate_answer_from_contexts.
  rewrite <- app_comm_cons. cbv zeta. rewrite app_comm_cons, Hc.
  reflexivity.
Qed.

Lemma answer_uses_first_ten_contexts_witness :
  let texts := repeat "orders(id, customer_id)" 10 in
  (10 <= length texts)%nat
  /\ Answering.generate_answer_from_contexts steady_env "q"
       (texts ++ ["users(id)"])%list empty_world
     = Answering.generate_answer_from_contexts steady_env "q" texts empty_world.
Proof.
  intros texts.
  assert (H : (10 <= length texts)%nat) by (simpl; lia).
  split; [exact H|].
  apply (answer_uses_first_ten_contexts steady_env "q" texts ["users(id)"]
                                        empty_world H).
Defined.

Lemma generated_answer_nonempty (env : Retrieval.Env) query_text texts w :
  fst (Answering.generate_answer_from_contexts env query_text texts w) <> "".
Proof.
  unfold Answering.generate_answer_from_contexts.
  destruct texts as [|first rest].
  - unfold ret. cbn [fst]. unfold Answering.not_found_message.
    apply append_nonempty_l. discriminate.
  - cbv zeta. unfold bind, invoke.
    destruct (invoke_model env (length (gen_log w)) _) as [e|result].
    + unfold ret. cbn [fst]. apply append_nonempty_l. discriminate.
    + destruct (Py.truthy (Py.strip result)) eqn:T; unfold ret; cbn [fst].
      * now apply truthy_nonempty.
      * apply append_nonempty_l. discriminate.
Qed.

Lemma multi_strategy_miss_bound (env : Retrieval.Env) query_text num_results w :
  fst (cache_lookup env (multi_key query_text num_results) w) = None ->
  0 <= num_results ->
  (length (contexts (fst (multi_strategy_retrieval env query_text
                                                    num_results w)))
   <= Z.to_nat num_results)%nat.
Proof.
  intros Hmiss Hk.
  destruct (cache_lookup env (multi_key query_text num_results) w)
    as [hit w0] eqn:Hl.
  simpl in Hmiss. subst hit.
  destruct (standard_query env query_text (Z.max 2 (num_results / 3)) w0)
    as [std w1] eqn:Hs.
  destruct (query_expansion env query_text (Z.max 2 (num_results / 3)) w1)
    as [exp w2] eqn:He.
  destruct (hyde_retrieval env query_text (Z.max 2 (num_results / 3)) w2)
    as [hyd w3] eqn:Hh.
  rewrite (multi_strategy_contexts env query_text num_results w
             w0 std w1 exp w2 hyd w3 Hl Hs He Hh).
  now apply aggregate_shape.
Qed.

(** X11. [advanced_rag_query] always returns a non-empty answer. Its
    [thinking] is empty when extended thinking is off; when no context
    has content the answer is the fixed "couldn't find" message; and when
    the multi-strategy result is not served from the cache it returns at
    most 8 context texts. *)
Theorem advanced_rag_query_answer (env : Retrieval.Env) (query_text : string)
    (use_extended_thinking : bool) (w : World) :
  let rag :=
    fst (Answering.advanced_rag_query env query_text use_extended_thinking w) in
  Answering.answer rag <> ""
  /\ (use_extended_thinking = false -> Answering.thinking rag = "")
  /\ (Answering.retrieved_contexts rag = [] ->
      Answering.answer rag = Answering.not_found_message query_text)
  /\ (fst (cache_lookup env (multi_key query_text 8) w) = None ->
      (length (Answering.retrieved_contexts rag) <= 8)%nat).
Proof.
  pose proof (multi_strategy_miss_bound env query_text 8 w) as Hbound.
  unfold Answering.advanced_rag_query, bind.
  destruct (multi_strategy_retrieval env query_text 8 w) as [result w1].
  cbn [fst] in Hbound. cbv zeta.
  set (texts := List.map (fun ctx => Py.strip (content ctx))
                  (List.filter (fun ctx => Py.truthy (content ctx))
                               (contexts result))).
  pose proof (generated_answer_nonempty env query_text texts w1) as Hne.
  destruct (Answering.generate_answer_from_contexts env query_text texts w1)
    as [a w2] eqn:Ha.
  unfold ret. cbn [fst Answering.answer Answering.thinking
                   Answering.retrieved_contexts] in *.
  split; [exact Hne|]. split; [now intros ->|]. split.
  - intros Hnil. rewrite Hnil in Ha.
    unfold Answering.generate_answer_from_contexts, ret in Ha.
    now injection Ha as <- _.
  - intros Hmiss. specialize (Hbound Hmiss ltac:(lia)).
    unfold texts. rewrite length_map.
    etransitivity; [apply filter_length_le|]. exact Hbound.
Qed.

(** X12. With an empty cache, a provider that raises on every request
    and a generator that raises, [advanced_rag_query] still answers: the
    answer is the "Based on the database documentation" text built from
    the explanatory fallback of [standard_query], that fallback is the
    only context text returned, and two generator calls of the retrieval
    and one of the answer synthesis have been made. *)
Theorem advanced_rag_query_all_down (env : Retrieval.Env)
    (query_text : string) (use_extended_thinking : bool) (w : World)
    (err gen_err : string) :
  cache w = ∅ ->
  (forall j t n, kb_retrieve env j t n = inl err) ->
  (forall j p, invoke_model env j p = inl gen_err) ->
  let rag :=
    fst (Answering.advanced_rag_query env query_text use_extended_thinking w) in
  let w' :=
    snd (Answering.advanced_rag_query env query_text use_extended_thinking w) in
  let explanation :=
    Py.strip ("This is a mock response. The query was: " +:+ query_text
              +:+ ". There was an error connecting to the knowledge base: "
              +:+ err) in
  Answering.retrieved_contexts rag = [explanation]
  /\ Answering.answer rag
     = "Based on the database documentation, here's what I found for your query '"
       +:+ query_text +:+ "':" +:+ Retrieval.nl +:+ Retrieval.nl
       +:+ Py.take 2000 explanation +:+ "..."
  /\ length (kb_log w') = (length (kb_log w) + 3)%nat
  /\ length (gen_log w') = (length (gen_log w) + 3)%nat.
Proof.
  intros Hc Hdown Hgen.
  destruct (multi_strategy_down_run env query_text 8 w err Hc Hdown ltac:(lia))
    as [r [w1 [c [t2 [t3 [ts [Hrun [He [Hctx [Hs [Hsrc [Hcontent
       [Hlog [Hglog Hcache]]]]]]]]]]]]]].
  cbv zeta. unfold Answering.advanced_rag_query, bind. rewrite Hrun.
  rewrite Hctx. cbn [List.filter]. rewrite Hcontent.
  assert (Ht : Py.truthy
                 ("This is a mock response. The query was: " +:+ query_text
                  +:+ ". There was an error connecting to the knowledge base: "
                  +:+ err) = true).
  { rewrite append_cons. reflexivity. }
  rewrite Ht. cbn [List.map]. rewrite ?Hcontent.
  unfold Answering.generate_answer_from_contexts, bind, invoke.
  rewrite Hgen. unfold ret.
  cbn [fst snd Answering.retrieved_contexts Answering.answer kb_log gen_log].
  split; [reflexivity|]. split; [reflexivity|].
  split; [rewrite Hlog, length_app; simpl; lia|].
  rewrite length_app, Hglog. simpl. lia.
Qed.

Lemma advanced_rag_query_all_down_witness :
  let env := Retrieval.mkEnv (fun _ _ _ => inl "timeout")
                             (fun _ _ => inl "unavailable")
                             (fun _ => 0%Q) in
  cache empty_world = ∅
  /\ (forall j t n, kb_retrieve env j t n = inl "timeout")
  /\ (forall j p, invoke_model env j p = inl "unavailable")
  /\ length (kb_log (snd (Answering.advanced_rag_query env "q" true empty_world)))
     = (length (kb_log empty_world) + 3)%nat.
Proof.
  intros env.
  assert (H1 : cache empty_world = ∅) by reflexivity.
  assert (H2 : forall j t n, kb_retrieve env j t n = inl "timeout")
    by (intros; reflexivity).
  assert (H3 : forall j p, invoke_model env j p = inl "unavailable")
    by (intros; reflexivity).
  split; [exact H1 | split; [exact H2 | split; [exact H3|]]].
  apply (advanced_rag_query_all_down env "q" true empty_world
                                     "timeout" "unavailable" H1 H2 H3).
Defined.

(* ===================================================================== *)
(** * Beyond the claims: the correction loop                              *)
(* ===================================================================== *)

Lemma insert_by_created_perm (f : FeedbackRow) (l : list FeedbackRow) :
  Permutation (insert_by_created f l) (f :: l).
Proof.
  induction l as [|g l IH]; simpl; [reflexivity|].
  destruct (CreatedAt g <=? CreatedAt f); [|reflexivity].
  rewrite IH. apply perm_swap.
Qed.

Lemma fold_insert_perm (l acc : list FeedbackRow) :
  Permutation (fold_left (fun acc f => insert_by_created f acc) l acc)
              (l ++ acc)%list.
Proof.
  revert acc. induction l as [|a l IH]; intros acc; simpl; [reflexivity|].
  rewrite IH, insert_by_created_perm. symmetry. apply Permutation_middle.
Qed.

Lemma select_pending_perm (kb_id : string) (company_id : Z) (db : DB) :
  Permutation (select_pending kb_id company_id db)
              (List.filter (is_pending kb_id company_id) (query_feedback db)).
Proof.
  unfold select_pending. rewrite fold_insert_perm. now rewrite app_nil_r.
Qed.

Lemma insert_by_created_sorted (f : FeedbackRow) (l : list FeedbackRow) :
  StronglySorted created_le l ->
  StronglySorted created_le (insert_by_created f l).
Proof.
  induction 1 as [|g l Hs IH Hg]; simpl.
  - repeat constructor.
  - destruct (CreatedAt g <=? CreatedAt f) eqn:E.
    + constructor; [assumption|].
      rewrite insert_by_created_perm. constructor; [|assumption].
      unfold created_le. lia.
    + constructor; [now constructor|].
      constructor; [unfold created_le; lia|].
      eapply List.Forall_impl; [|exact Hg].
      unfold created_le. intros x Hx. lia.
Qed.

Lemma fold_insert_sorted (l acc : list FeedbackRow) :
  StronglySorted created_le acc ->
  StronglySorted created_le
    (fold_left (fun acc f => insert_by_created f acc) l acc).
Proof.
  revert acc. induction l as [|a l IH]; intros acc Hs; simpl; [exact Hs|].
  apply IH. now apply insert_by_created_sorted.
Qed.

Lemma is_pending_spec (kb_id : string) (company_id : Z) (f : FeedbackRow) :
  is_pending kb_id company_id f = true
  <-> KnowledgeBaseId f = kb_id /\ CompanyId f = company_id
      /\ ProcessingStatus f = "pending" /\ FeedbackType f = "correction".
Proof.
  unfold is_pending. rewrite !andb_true_iff, !String.eqb_eq, Z.eqb_eq. tauto.
Qed.

(** X13. The rows that [process_pending_feedback] works on are exactly
    the rows of [query_feedback] for the given knowledge base and company
    whose status is [pending] and whose type is [correction], each as
    often as it is in the table, and they are taken oldest first (by
    [CreatedAt]). *)
Theorem pending_feedback_oldest_first (kb_id : string) (company_id : Z)
    (db : DB) :
  let pending := select_pending kb_id company_id db in
  Permutation pending
              (List.filter (is_pending kb_id company_id) (query_feedback db))
  /\ StronglySorted created_le pending
  /\ (forall f, In f pending <->
        In f (query_feedback db)
        /\ KnowledgeBaseId f = kb_id /\ CompanyId f = company_id
        /\ ProcessingStatus f = "pending" /\ FeedbackType f = "correction").
Proof.
  cbv zeta. split; [apply select_pending_perm|]. split.
  - unfold select_pending. apply fold_insert_sorted. constructor.
  - intros f. rewrite <- is_pending_spec, <- filter_In. split; intros H.
    + eapply Permutation_in; [apply select_pending_perm | exact H].
    + eapply Permutation_in; [symmetry; apply select_pending_perm | exact H].
Qed.

(** ** One run, row by row *)

Lemma mark_reviewed_spec (env : Feedback.Env) (id : Z) (db : DB) :
  mark_reviewed env id db
  = mkDB (List.map (mark_ids env [id]) (query_feedback db))
         (training_data db) (kb_improvement_log db)
         (next_training_id db) (next_log_id db).
Proof.
  unfold mark_reviewed. f_equal. apply map_ext. intros f.
  unfold mark_ids, reviewed. cbn [existsb]. now rewrite orb_false_r.
Qed.

Lemma mark_ids_cons (env : Feedback.Env) (id : Z) (ids : list Z)
    (f : FeedbackRow) :
  mark_ids env ids (mark_ids env [id] f) = mark_ids env (id :: ids) f.
Proof.
  unfold mark_ids. cbn [existsb]. rewrite orb_false_r.
  destruct (Id f =? id) eqn:E; cbn [orb]; [|reflexivity].
  cbn [reviewed Id]. destruct (existsb (Z.eqb (Id f)) ids); reflexivity.
Qed.

Lemma process_one_spec (env : Feedback.Env) (ids : list Z) (db : DB)
    (f : FeedbackRow) :
  0 < next_training_id db ->
  process_one env (ids, db) f
  = if insert_raises env (Id f) then (ids, db)
    else ((ids ++ [next_training_id db])%list,
          mkDB (List.map (mark_ids env [Id f]) (query_feedback db))
               (training_data db ++ training_rows (next_training_id db) [f])%list
               (kb_improvement_log db)
               (next_training_id db + 1)
               (next_log_id db)).
Proof.
  intros Hpos. unfold process_one, create_training_data.
  destruct (insert_raises env (Id f)); [reflexivity|].
  assert ((next_training_id db =? 0) = false) as -> by lia.
  now rewrite mark_reviewed_spec.
Qed.

Lemma process_fold_spec (env : Feedback.Env) (l : list FeedbackRow) :
  forall ids db,
    0 < next_training_id db ->
    fold_left (process_one env) l (ids, db)
    = ((ids ++ List.map td_Id
                  (training_rows (next_training_id db) (accepted env l)))%list,
       mkDB (List.map (mark_ids env (List.map Id (accepted env l)))
                      (query_feedback db))
            (training_data db
             ++ training_rows (next_training_id db) (accepted env l))%list
            (kb_improvement_log db)
            (next_training_id db + Z.of_nat (length (accepted env l)))
            (next_log_id db)).
Proof.
  induction l as [|f l IH]; intros ids db Hpos.
  - cbn [fold_left accepted List.filter training_rows List.map length].
    rewrite !app_nil_r, Z.add_0_r.
    rewrite (map_ext _ (fun f => f)) by reflexivity. rewrite map_id.
    now destruct db.
  - cbn [fold_left]. rewrite (process_one_spec env ids db f Hpos).
    unfold accepted. cbn [List.filter].
    destruct (insert_raises env (Id f)) eqn:R; cbn [negb].
    + apply IH, Hpos.
    + fold (accepted env l). rewrite IH by (cbn [next_training_id]; lia).
      cbn [next_training_id query_feedback training_data kb_improvement_log
           next_log_id training_rows List.map td_Id length].
      rewrite <- !app_assoc. cbn [List.app].
      rewrite List.map_map.
      rewrite (map_ext _ (mark_ids env (Id f :: List.map Id (accepted env l))))
        by (intros g; apply mark_ids_cons).
      rewrite Nat2Z.inj_succ.
      replace (next_training_id db + 1 + Z.of_nat (length (accepted env l)))
        with (next_training_id db + Z.succ (Z.of_nat (length (accepted env l))))
        by lia.
      reflexivity.
Qed.

Lemma training_rows_length (start : Z) (l : list FeedbackRow) :
  length (training_rows start l) = length l.
Proof.
  revert start. induction l as [|f l IH]; intros start; simpl;
    [reflexivity | now rewrite IH].
Qed.

Lemma job_is_truthy (env : Feedback.Env) (id : Z) :
  Py.truthy (ingestion_job_id env id) = true.
Proof. unfold ingestion_job_id. now rewrite append_cons. Qed.

(** the improvement log written by a run that made the training rows
    [ids] *)
Lemma corrected_docs_nonempty (ids : list Z) (db : DB) (t : TrainingRow) :
  In t (training_data db) -> In (td_Id t) ids ->
  corrected_docs ids db <> [].
Proof.
  intros Ht Hid H.
  assert (Hin : In t (corrected_docs ids db)).
  { unfold corrected_docs. apply filter_In. split; [exact Ht|].
    apply existsb_exists. exists (td_Id t). split; [exact Hid | apply Z.eqb_refl]. }
  rewrite H in Hin. destruct Hin.
Qed.

(** What a run with something pending does, in one equation. *)
Lemma process_pending_run (env : Feedback.Env) (kb_id : string)
    (company_id : Z) (db : DB) :
  0 < next_training_id db ->
  select_pending kb_id company_id db <> [] ->
  let ok := accepted env (select_pending kb_id company_id db) in
  let rows := training_rows (next_training_id db) ok in
  let new_log :=
    mkLog (next_log_id db) kb_id company_id "content_update"
          ("Processed " +:+ Py.str_of_Z (Z.of_nat (length ok))
           +:+ " user corrections")
          (json_of_ids (List.map td_Id rows)) "ingestion_job" "planned" None in
  process_pending_feedback env kb_id company_id db
  = (mkOutcome "success" (Z.of_nat (length ok)) (Some (List.map td_Id rows)),
     match ok with
     | [] =>
         mkDB (List.map (mark_ids env (List.map Id ok)) (query_feedback db))
              (training_data db ++ rows)%list (kb_improvement_log db)
              (next_training_id db + Z.of_nat (length ok)) (next_log_id db)
     | _ =>
         set_in_progress (ingestion_job_id env (next_log_id db))
           (next_log_id db)
           (mkDB (List.map (mark_ids env (List.map Id ok)) (query_feedback db))
                 (training_data db ++ rows)%list
                 (kb_improvement_log db ++ [new_log])%list
                 (next_training_id db + Z.of_nat (length ok))
                 (next_log_id db + 1))
     end).
Proof.
  intros Hpos Hne. cbv zeta. unfold process_pending_feedback.
  destruct (select_pending kb_id company_id db) as [|p ps] eqn:Hsel;
    [congruence|].
  rewrite (process_fold_spec env (p :: ps) [] db Hpos). cbn [List.app].
  destruct (accepted env (p :: ps)) as [|a ok] eqn:Hok.
  - reflexivity.
  - cbn [training_rows List.map td_Id length].
    rewrite length_map, training_rows_length.
    cbn [next_log_id query_feedback training_data kb_improvement_log
         next_training_id].
    match goal with
    | |- context [corrected_docs ?ids ?d] =>
        destruct (corrected_docs ids d) eqn:Hdocs;
        [ exfalso;
          refine (corrected_docs_nonempty ids d
                    (mkTraining (next_training_id db) (Id a) (CompanyId a)
                       (KnowledgeBaseId a)
                       (generalize_query_pattern (OriginalQuery a))
                       (CorrectedResponse a) (OriginalResponse a)
                       (FeedbackNotes a)) _ _ Hdocs);
          [ cbn [training_data]; apply in_or_app; right; now left
          | now left ]
        | ]
    end.
    rewrite job_is_truthy. reflexivity.
Qed.

Lemma accepted_all (env : Feedback.Env) (l : list FeedbackRow) :
  (forall id, insert_raises env id = false) -> accepted env l = l.
Proof.
  intros H. unfold accepted. induction l as [|f l IH]; [reflexivity|].
  cbn [List.filter]. rewrite H. cbn [negb]. now rewrite IH.
Qed.

Lemma process_nothing_pending (env : Feedback.Env) kb_id company_id db :
  select_pending kb_id company_id db = [] ->
  process_pending_feedback env kb_id company_id db
  = (mkOutcome "no_pending_feedback" 0 None, db).
Proof. intros H. unfold process_pending_feedback. now rewrite H. Qed.

Lemma query_feedback_after_run (env : Feedback.Env) kb_id company_id db :
  0 < next_training_id db ->
  query_feedback (snd (process_pending_feedback env kb_id company_id db))
  = List.map
      (mark_ids env
         (List.map Id (accepted env (select_pending kb_id company_id db))))
      (query_feedback db).
Proof.
  intros Hpos.
  destruct (select_pending kb_id company_id db) as [|p ps] eqn:Hsel.
  - rewrite (process_nothing_pending env _ _ _ Hsel). cbn [snd accepted List.filter List.map].
    rewrite (map_ext _ (fun f => f)) by reflexivity. now rewrite map_id.
  - rewrite <- Hsel.
    rewrite (process_pending_run env kb_id company_id db Hpos)
      by (rewrite Hsel; discriminate).
    cbn [snd]. destruct (accepted env (select_pending kb_id company_id db));
      reflexivity.
Qed.

(** X14. After a run in which the database accepts every insert (ids
    being positive), no pending correction is left for that knowledge
    base and company: the next run selects nothing, returns
    [no_pending_feedback] and changes nothing. *)
Theorem processing_drains_pending (env : Feedback.Env) (kb_id : string)
    (company_id : Z) (db : DB) :
  0 < next_training_id db ->
  (forall id, insert_raises env id = false) ->
  let db' := snd (process_pending_feedback env kb_id company_id db) in
  select_pending kb_id company_id db' = []
  /\ process_pending_feedback env kb_id company_id db'
     = (mkOutcome "no_pending_feedback" 0 None, db').
Proof.
  intros Hpos Hok. cbv zeta.
  assert (Hnone : select_pending kb_id company_id
                    (snd (process_pending_feedback env kb_id company_id db))
                  = []).
  { apply select_pending_none.
    rewrite (query_feedback_after_run env kb_id company_id db Hpos).
    rewrite (accepted_all env _ Hok).
    intros g Hg. apply in_map_iff in Hg as [f [<- Hf]].
    unfold mark_ids.
    destruct (existsb (Z.eqb (Id f))
                (List.map Id (select_pending kb_id company_id db))) eqn:E.
    - unfold is_pending, reviewed. cbn [ProcessingStatus].
      now rewrite !andb_false_r || (rewrite andb_false_r; reflexivity).
    - destruct (is_pending kb_id company_id f) eqn:P; [|reflexivity].
      exfalso.
      assert (Hin : In f (select_pending kb_id company_id db)).
      { eapply Permutation_in; [symmetry; apply select_pending_perm|].
        apply filter_In. auto. }
      assert (Hex : existsb (Z.eqb (Id f))
                      (List.map Id (select_pending kb_id company_id db))
                    = true).
      { apply existsb_exists. exists (Id f).
        split; [now apply in_map | apply Z.eqb_refl]. }
      congruence. }
  split; [exact Hnone | now apply process_nothing_pending].
Qed.

Lemma processing_drains_pending_witness :
  0 < next_training_id busy_db
  /\ (forall id, insert_raises sample_feedback_env id = false)
  /\ select_pending "KB-DATABASE" 7
       (snd (process_pending_feedback sample_feedback_env "KB-DATABASE" 7
                                      busy_db))
     = [].
Proof.
  assert (H1 : 0 < next_training_id busy_db) by (simpl; lia).
  assert (H2 : forall id, insert_raises sample_feedback_env id = false)
    by reflexivity.
  split; [exact H1 | split; [exact H2|]].
  apply (processing_drains_pending sample_feedback_env "KB-DATABASE" 7
                                   busy_db H1 H2).
Defined.

Lemma nodup_map_inj {A B} (f : A -> B) (l : list A) (a b : A) :
  List.NoDup (List.map f l) -> In a l -> In b l -> f a = f b -> a = b.
Proof.
  induction l as [|x l IH]; simpl; [tauto|].
  intros Hnd Ha Hb Hf. inversion Hnd as [|? ? Hnotin Hnd']; subst.
  destruct Ha as [-> | Ha], Hb as [-> | Hb]; auto.
  - exfalso. apply Hnotin. rewrite Hf. now apply in_map.
  - exfalso. apply Hnotin. rewrite <- Hf. now apply in_map.
Qed.

(** X15. A run never deletes, adds or reorders rows of [query_feedback]
    (ids being positive and unique): exactly the pending corrections of
    the given knowledge base and company whose insert the database
    accepts become [reviewed], stamped with the database time and
    [system]; every other row, and every other column, stays as it
    was. *)
Theorem feedback_rows_are_kept (env : Feedback.Env) (kb_id : string)
    (company_id : Z) (db : DB) :
  0 < next_training_id db ->
  List.NoDup (List.map Id (query_feedback db)) ->
  let db' := snd (process_pending_feedback env kb_id company_id db) in
  query_feedback db'
  = List.map
      (fun f =>
         if is_pending kb_id company_id f && negb (insert_raises env (Id f))
         then mkFeedback (Id f) (KnowledgeBaseId f) (CompanyId f) "reviewed"
                         (FeedbackType f) (OriginalQuery f)
                         (OriginalResponse f) (CorrectedResponse f)
                         (FeedbackNotes f) (CreatedAt f)
                         (Some (db_now env)) (Some "system")
         else f)
      (query_feedback db)
  /\ List.map feedback_payload (query_feedback db')
     = List.map feedback_payload (query_feedback db).
Proof.
  intros Hpos Hnd. cbv zeta.
  rewrite (query_feedback_after_run env kb_id company_id db Hpos).
  split.
  - apply map_ext_in. intros f Hf. unfold mark_ids.
    fold (reviewed env f).
    assert (Hiff : existsb (Z.eqb (Id f))
                     (List.map Id
                        (accepted env (select_pending kb_id company_id db)))
                   = is_pending kb_id company_id f
                     && negb (insert_raises env (Id f))).
    { apply Bool.eq_iff_eq_true.
      rewrite existsb_exists, andb_true_iff, negb_true_iff. split.
      - intros [x [Hx Heq]]. apply Z.eqb_eq in Heq. subst x.
        apply in_map_iff in Hx as [g [Hid Hg]].
        unfold accepted in Hg. apply filter_In in Hg as [Hg Hacc].
        apply negb_true_iff in Hacc.
        apply (Permutation_in _ (select_pending_perm kb_id company_id db))
          in Hg.
        apply filter_In in Hg as [Hg Hp].
        assert (g = f) by (apply (nodup_map_inj Id _ g f Hnd Hg Hf Hid)).
        subst g. auto.
      - intros [Hp Hacc]. exists (Id f). split; [|apply Z.eqb_refl].
        apply in_map. unfold accepted. apply filter_In. split.
        + eapply Permutation_in; [symmetry; apply select_pending_perm|].
          apply filter_In. auto.
        + now apply negb_true_iff. }
    now rewrite Hiff.
  - rewrite List.map_map. apply map_ext. intros f. unfold mark_ids.
    destruct (existsb _ _); reflexivity.
Qed.

Lemma feedback_rows_are_kept_witness :
  0 < next_training_id busy_db
  /\ List.NoDup (List.map Id (query_feedback busy_db))
  /\ List.map feedback_payload
       (query_feedback
          (snd (process_pending_feedback sample_feedback_env "KB-DATABASE" 7
                                         busy_db)))
     = List.map feedback_payload (query_feedback busy_db).
Proof.
  assert (H1 : 0 < next_training_id busy_db) by (simpl; lia).
  assert (H2 : List.NoDup (List.map Id (query_feedback busy_db))).
  { simpl. repeat constructor; simpl; intuition lia. }
  split; [exact H1 | split; [exact H2|]].
  apply (feedback_rows_are_kept sample_feedback_env "KB-DATABASE" 7
                                busy_db H1 H2).
Defined.

Lemma training_rows_ids (l : list FeedbackRow) :
  forall start,
    List.map td_Id (training_rows start l)
    = List.map (fun i => start + Z.of_nat i) (seq 0 (length l)).
Proof.
  induction l as [|f l IH]; intros start; [reflexivity|].
  cbn [training_rows List.map td_Id length seq]. rewrite Z.add_0_r. f_equal.
  rewrite IH, <- seq_shift, List.map_map. apply map_ext. intros i. lia.
Qed.

Lemma training_rows_feedback (l : list FeedbackRow) :
  forall start,
    List.map td_FeedbackId (training_rows start l) = List.map Id l.
Proof.
  induction l as [|f l IH]; intros start; [reflexivity|].
  cbn [training_rows List.map td_FeedbackId]. now rewrite IH.
Qed.

(** X16. A run only appends to [training_data] (ids being positive):
    the old rows stay, and one row is added for each pending correction
    whose insert the database accepts, oldest first, numbered
    consecutively from the table's next id and carrying the correction's
    id, generalized query, corrected and original response and notes.
    The count [processed] and the list [training_data_ids] of the answer
    are the number and the ids of exactly these rows. *)
Theorem training_data_is_appended (env : Feedback.Env) (kb_id : string)
    (company_id : Z) (db : DB) :
  0 < next_training_id db ->
  let pending := select_pending kb_id company_id db in
  let ok := List.filter (fun f => negb (insert_raises env (Id f))) pending in
  let out := fst (process_pending_feedback env kb_id company_id db) in
  let db' := snd (process_pending_feedback env kb_id company_id db) in
  training_data db'
  = (training_data db
     ++ List.map
          (fun nf =>
             mkTraining (next_training_id db + Z.of_nat (fst nf))
                        (Id (snd nf)) (CompanyId (snd nf))
                        (KnowledgeBaseId (snd nf))
                        (generalize_query_pattern (OriginalQuery (snd nf)))
                        (CorrectedResponse (snd nf))
                        (OriginalResponse (snd nf)) (FeedbackNotes (snd nf)))
          (combine (seq 0 (length ok)) ok))%list
  /\ processed out = Z.of_nat (length ok)
  /\ (pending <> [] ->
      training_data_ids out
      = Some (List.map (fun i => next_training_id db + Z.of_nat i)
                       (seq 0 (length ok))))
  /\ next_training_id db' = next_training_id db + Z.of_nat (length ok).
Proof.
  intros Hpos. cbv zeta. fold (accepted env (select_pending kb_id company_id db)).
  assert (Hrows : forall l start k,
             training_rows (start + Z.of_nat k) l
             = List.map
                 (fun nf =>
                    mkTraining (start + Z.of_nat (fst nf))
                      (Id (snd nf)) (CompanyId (snd nf))
                      (KnowledgeBaseId (snd nf))
                      (generalize_query_pattern (OriginalQuery (snd nf)))
                      (CorrectedResponse (snd nf))
                      (OriginalResponse (snd nf)) (FeedbackNotes (snd nf)))
                 (combine (seq k (length l)) l)).
  { induction l as [|f l IH]; intros start k; [reflexivity|].
    cbn [training_rows length seq combine List.map fst snd]. f_equal.
    replace (start + Z.of_nat k + 1) with (start + Z.of_nat (S k)) by lia.
    apply IH. }
  specialize (fun l => Hrows l (next_training_id db) 0%nat).
  cbn [Z.of_nat] in Hrows. rewrite Z.add_0_r in Hrows.
  destruct (select_pending kb_id company_id db) as [|p ps] eqn:Hsel.
  - rewrite (process_nothing_pending env _ _ _ Hsel).
    cbn [fst snd accepted List.filter length seq combine List.map processed
         Z.of_nat].
    rewrite app_nil_r, Z.add_0_r. repeat split. congruence.
  - rewrite <- Hsel.
    rewrite (process_pending_run env kb_id company_id db Hpos)
      by (rewrite Hsel; discriminate).
    cbn [fst snd processed training_data_ids].
    rewrite training_rows_ids, <- Hrows.
    destruct (accepted env (select_pending kb_id company_id db));
      cbn [set_in_progress training_data next_training_id]; repeat split.
Qed.

Lemma training_data_is_appended_witness :
  0 < next_training_id busy_db
  /\ processed (fst (process_pending_feedback sample_feedback_env
                                              "KB-DATABASE" 7 busy_db))
     = Z.of_nat
         (length
            (List.filter
               (fun f => negb (insert_raises sample_feedback_env (Id f)))
               (select_pending "KB-DATABASE" 7 busy_db))).
Proof.
  assert (H1 : 0 < next_training_id busy_db) by (simpl; lia).
  split; [exact H1|].
  apply (training_data_is_appended sample_feedback_env "KB-DATABASE" 7
                                   busy_db H1).
Defined.

Lemma set_in_progress_fresh (job : string) (id : Z) (new : LogRow)
    (q : list FeedbackRow) (t : list TrainingRow) (logs : list LogRow)
    (nt nl : Z) :
  (forall l, In l logs -> log_Id l <> id) ->
  log_Id new = id ->
  kb_improvement_log
    (set_in_progress job id (mkDB q t (logs ++ [new])%list nt nl))
  = (logs
     ++ [mkLog (log_Id new) (log_KnowledgeBaseId new) (log_CompanyId new)
               (ImprovementType new) (Description new) (TrainingDataIds new)
               (ImplementationMethod new) "in_progress" (Some job)])%list.
Proof.
  intros Hfresh Hnew. unfold set_in_progress.
  cbn [kb_improvement_log]. rewrite map_app. cbn [List.map].
  rewrite Hnew, Z.eqb_refl. f_equal.
  rewrite <- (map_id logs) at 2. apply map_ext_in. intros l Hl.
  apply Hfresh in Hl. now apply Z.eqb_neq in Hl as ->.
Qed.

(** X17. A run writes to [kb_improvement_log] only when it has stored at
    least one correction (ids being positive and the log's next id not
    yet in use): then it appends exactly one row, of type
    [content_update] and method [ingestion_job], whose description gives
    the number of corrections and whose [TrainingDataIds] is the JSON
    list of the new training ids, and that row is left [in_progress]
    with the job id [job-<log id>-<timestamp>]. Otherwise the log is
    unchanged. *)
Theorem improvement_log_of_a_run (env : Feedback.Env) (kb_id : string)
    (company_id : Z) (db : DB) :
  0 < next_training_id db ->
  (forall l, In l (kb_improvement_log db) -> log_Id l <> next_log_id db) ->
  let ok := List.filter (fun f => negb (insert_raises env (Id f)))
                        (select_pending kb_id company_id db) in
  let db' := snd (process_pending_feedback env kb_id company_id db) in
  (ok = [] ->
   kb_improvement_log db' = kb_improvement_log db
   /\ next_log_id db' = next_log_id db)
  /\ (ok <> [] ->
      kb_improvement_log db'
      = (kb_improvement_log db
         ++ [mkLog (next_log_id db) kb_id company_id "content_update"
               ("Processed " +:+ Py.str_of_Z (Z.of_nat (length ok))
                +:+ " user corrections")
               (json_of_ids
                  (List.map (fun i => next_training_id db + Z.of_nat i)
                            (seq 0 (length ok))))
               "ingestion_job" "in_progress"
               (Some ("job-" +:+ Py.str_of_Z (next_log_id db) +:+ "-"
                      +:+ Py.str_of_Z (py_now env)))])%list
      /\ next_log_id db' = next_log_id db + 1).
Proof.
  intros Hpos Hfresh. cbv zeta.
  fold (accepted env (select_pending kb_id company_id db)).
  destruct (select_pending kb_id company_id db) as [|p ps] eqn:Hsel.
  - rewrite (process_nothing_pending env _ _ _ Hsel).
    cbn [accepted List.filter snd]. split; [auto | congruence].
  - rewrite <- Hsel.
    rewrite (process_pending_run env kb_id company_id db Hpos)
      by (rewrite Hsel; discriminate).
    cbn [snd]. rewrite training_rows_ids.
    destruct (accepted env (select_pending kb_id company_id db)) as [|a l]
      eqn:Hacc.
    + split; [intros _; split; reflexivity | congruence].
    + split; [discriminate|]. intros _. split; [|reflexivity].
      rewrite set_in_progress_fresh by (auto || reflexivity).
      reflexivity.
Qed.

Lemma improvement_log_of_a_run_witness :
  0 < next_training_id busy_db
  /\ (forall l, In l (kb_improvement_log busy_db) ->
                log_Id l <> next_log_id busy_db)
  /\ next_log_id (snd (process_pending_feedback sample_feedback_env
                                                "KB-DATABASE" 7 busy_db))
     = next_log_id busy_db + 1.
Proof.
  assert (H1 : 0 < next_training_id busy_db) by (simpl; lia).
  assert (H2 : forall l, In l (kb_improvement_log busy_db) ->
                         log_Id l <> next_log_id busy_db).
  { simpl. intuition (subst; simpl in *; lia). }
  split; [exact H1 | split; [exact H2|]].
  apply (improvement_log_of_a_run sample_feedback_env "KB-DATABASE" 7
                                  busy_db H1 H2).
  vm_compute. discriminate.
Defined.

(* ===================================================================== *)
(** * Beyond the claims: query patterns                                   *)
(* ===================================================================== *)

Lemma avoids_cons (c x : ascii) (s : string) :
  avoids c (String x s) = true -> x <> c /\ avoids c s = true.
Proof.
  unfold avoids. cbn [list_ascii_of_string forallb].
  rewrite andb_true_iff, negb_true_iff. intros [H1 H2]. split; [|exact H2].
  now apply Ascii.eqb_neq.
Qed.

Lemma prefix_cons_ne (a b : ascii) (u s : string) :
  a <> b -> String.prefix (String a u) (String b s) = false.
Proof. intros H. cbn [String.prefix]. now destruct (ascii_dec a b). Qed.

Lemma prefix_cons_eq (a : ascii) (u s : string) :
  String.prefix (String a u) (String a s) = String.prefix u s.
Proof. cbn [String.prefix]. now destruct (ascii_dec a a). Qed.

Lemma prefix_nil_l (s : string) : String.prefix "" s = true.
Proof. now destruct s. Qed.

Lemma contains_cons (t : string) (c : ascii) (s : string) :
  Py.contains t (String c s)
  = String.prefix t (String c s) || Py.contains t s.
Proof. reflexivity. Qed.

(** no occurrence of [t] starts inside a text that avoids its first
    character *)
Lemma contains_skip (t0 : ascii) (t' new x : string) :
  avoids t0 new = true ->
  Py.contains (String t0 t') (new +:+ x) = Py.contains (String t0 t') x.
Proof.
  induction new as [|n new IH]; intros Hav.
  - now rewrite append_nil_l.
  - apply avoids_cons in Hav as [Hne Hav].
    rewrite append_cons, contains_cons, prefix_cons_ne by congruence.
    now apply IH.
Qed.

Lemma replace_go_prefix (old : string) (n0 : ascii) (new' : string)
    (s : string) :
  forall u, avoids n0 u = true ->
    String.prefix u (Py.replace_go old (String n0 new') 0 s) = true ->
    String.prefix u s = true.
Proof.
  induction s as [|c s IH]; intros u Hav; [now cbn [Py.replace_go]|].
  cbn [Py.replace_go]. destruct u as [|d u]; [reflexivity|].
  apply avoids_cons in Hav as [Hne Hav].
  destruct (String.prefix old (String c s)).
  - rewrite append_cons, prefix_cons_ne by exact Hne.
    discriminate.
  - cbn [String.prefix]. destruct (ascii_dec d c); [|discriminate].
    now apply IH.
Qed.

Lemma replace_go_prefix_cons (old : string) (n0 : ascii) (new' : string)
    (c : ascii) (s u : string) :
  avoids n0 u = true ->
  String.prefix u (String c (Py.replace_go old (String n0 new') 0 s)) = true ->
  String.prefix u (String c s) = true.
Proof.
  intros Hav. destruct u as [|d u]; [reflexivity|].
  apply avoids_cons in Hav as [_ Hav].
  cbn [String.prefix]. destruct (ascii_dec d c); [|discriminate].
  now apply replace_go_prefix.
Qed.

(** a replacement makes no new occurrence of [t] *)
Lemma replace_go_no_new (old : string) (n0 : ascii) (new' : string)
    (t0 : ascii) (t' : string) :
  avoids t0 (String n0 new') = true ->
  avoids n0 (String t0 t') = true ->
  forall s k,
    Py.contains (String t0 t') s = false ->
    Py.contains (String t0 t') (Py.replace_go old (String n0 new') k s) = false.
Proof.
  intros Hnew Ht. induction s as [|c s IH]; intros k Hs; [exact Hs|].
  rewrite contains_cons in Hs. apply orb_false_iff in Hs as [Hp Hc].
  cbn [Py.replace_go]. destruct k as [|k]; [|now apply IH].
  destruct (String.prefix old (String c s)).
  - rewrite contains_skip by exact Hnew. now apply IH.
  - rewrite contains_cons, (IH 0%nat Hc), orb_false_r.
    destruct (String.prefix (String t0 t')
                (String c (Py.replace_go old (String n0 new') 0 s))) eqn:E;
      [|reflexivity].
    apply replace_go_prefix_cons in E; [congruence | exact Ht].
Qed.

(** a replacement leaves no occurrence of the replaced text *)
Lemma replace_go_removes (o0 : ascii) (old' : string) (n0 : ascii)
    (new' : string) :
  avoids o0 (String n0 new') = true ->
  avoids n0 (String o0 old') = true ->
  forall s k,
    Py.contains (String o0 old')
      (Py.replace_go (String o0 old') (String n0 new') k s) = false.
Proof.
  intros Hnew Hold. induction s as [|c s IH]; intros k; [reflexivity|].
  cbn [Py.replace_go]. destruct k as [|k]; [|apply IH].
  destruct (String.prefix (String o0 old') (String c s)) eqn:P.
  - rewrite contains_skip by exact Hnew. apply IH.
  - rewrite contains_cons, IH, orb_false_r.
    destruct (String.prefix (String o0 old')
                (String c (Py.replace_go (String o0 old')
                                         (String n0 new') 0 s))) eqn:E;
      [|reflexivity].
    apply replace_go_prefix_cons in E; [congruence | exact Hold].
Qed.

Lemma replace_go_absent (old new : string) (s : string) :
  Py.contains old s = false -> Py.replace_go old new 0 s = s.
Proof.
  induction s as [|c s IH]; intros H; [reflexivity|].
  rewrite contains_cons in H. apply orb_false_iff in H as [Hp Hc].
  cbn [Py.replace_go]. rewrite Hp. now rewrite IH.
Qed.

Lemma lower_char_idem (c : ascii) :
  Py.lower_char (Py.lower_char c) = Py.lower_char c.
Proof.
  destruct c as [[] [] [] [] [] [] [] []]; reflexivity.
Qed.

Lemma lower_idem (s : string) : Py.lower (Py.lower s) = Py.lower s.
Proof.
  induction s as [|c s IH]; [reflexivity|].
  cbn [Py.lower]. now rewrite lower_char_idem, IH.
Qed.

Lemma generalize_unfold (q : string) :
  generalize_query_pattern q
  = Py.replace_go "payments" "[PAYMENT_ENTITY]" 0
      (Py.replace_go "orders" "[ORDER_ENTITY]" 0
         (Py.replace_go "products" "[PRODUCT_ENTITY]" 0
            (Py.replace_go "customers" "[CUSTOMER_ENTITY]" 0
               (Py.replace_go "sales orders" "[SALES_ENTITY]" 0
                  (Py.lower q))))).
Proof. reflexivity. Qed.

(** X18. The pattern that [generalize_query_pattern] returns mentions
    none of the five nouns it replaces (sales orders, customers,
    products, orders, payments), whatever the query, and it does not
    depend on the letter case of the query. *)
Theorem generalized_pattern_has_no_term (q t : string) :
  (In t generalized_terms ->
   Py.contains t (generalize_query_pattern q) = false)
  /\ generalize_query_pattern (Py.lower q) = generalize_query_pattern q.
Proof.
  split.
  - rewrite generalize_unfold. set (s0 := Py.lower q).
    unfold generalized_terms.
    cbn [List.map fst common_replacements In].
    intros [<- | [<- | [<- | [<- | [<- | []]]]]].
    + do 4 (apply replace_go_no_new; [reflexivity | reflexivity |]).
      apply replace_go_removes; reflexivity.
    + apply replace_go_no_new; [reflexivity | reflexivity |].
      apply replace_go_no_new; [reflexivity | reflexivity |].
      apply replace_go_no_new; [reflexivity | reflexivity |].
      apply replace_go_removes; reflexivity.
    + apply replace_go_no_new; [reflexivity | reflexivity |].
      apply replace_go_no_new; [reflexivity | reflexivity |].
      apply replace_go_removes; reflexivity.
    + apply replace_go_no_new; [reflexivity | reflexivity |].
      apply replace_go_removes; reflexivity.
    + apply replace_go_removes; reflexivity.
  - unfold generalize_query_pattern. now rewrite lower_idem.
Qed.

(** X19. A query that mentions none of the five nouns (in any letter
    case) is only lower-cased by [generalize_query_pattern]. *)
Theorem generalize_without_terms (q : string) :
  (forall t, In t generalized_terms -> Py.contains t (Py.lower q) = false) ->
  generalize_query_pattern q = Py.lower q.
Proof.
  intros H. rewrite generalize_unfold.
  assert (H1 := H "sales orders"). assert (H2 := H "customers").
  assert (H3 := H "products"). assert (H4 := H "orders").
  assert (H5 := H "payments").
  unfold generalized_terms in H1, H2, H3, H4, H5.
  cbn [List.map fst common_replacements In] in H1, H2, H3, H4, H5.
  rewrite (replace_go_absent "sales orders") by auto 10.
  rewrite (replace_go_absent "customers") by auto 10.
  rewrite (replace_go_absent "products") by auto 10.
  rewrite (replace_go_absent "orders") by auto 10.
  rewrite (replace_go_absent "payments") by auto 10.
  reflexivity.
Qed.

Lemma generalize_without_terms_witness :
  (forall t, In t generalized_terms ->
             Py.contains t (Py.lower "Show Invoices") = false)
  /\ generalize_query_pattern "Show Invoices" = Py.lower "Show Invoices".
Proof.
  assert (H : forall t, In t generalized_terms ->
                        Py.contains t (Py.lower "Show Invoices") = false).
  { unfold generalized_terms. cbn [List.map fst common_replacements In].
    intros t [<- | [<- | [<- | [<- | [<- | []]]]]]; reflexivity. }
  split; [exact H|].
  apply (generalize_without_terms "Show Invoices" H).
Defined.

(* ===================================================================== *)
(** * Beyond the claims: the multi-source endpoint                        *)
(* ===================================================================== *)

Lemma collect_results_nil
    (query_kb : QueryTarget -> option (string * string * list string))
    (targets : list QueryTarget) :
  collect_results query_kb targets = []
  <-> forall t, In t targets -> query_kb t = None.
Proof.
  induction targets as [|t rest IH]; cbn [collect_results].
  - split; [intros _ t [] | reflexivity].
  - destruct (query_kb t) as [[[a th] ctxs]|] eqn:E.
    + split; [discriminate|]. intros H.
      specialize (H t (or_introl eq_refl)). congruence.
    + rewrite IH. split.
      * intros H x [<- | Hx]; auto.
      * intros H x Hx. apply H. now right.
Qed.

Lemma merge_results_nonempty (r : KbResult) (rest : list KbResult) :
  exists m, merge_results (r :: rest) = inr m.
Proof.
  unfold merge_results. destruct rest as [|r2 rest]; [now exists r|].
  destruct (List.filter (fun x => negb (is_secondary x)) (r :: r2 :: rest))
    as [|p ps]; [now exists r|].
  destruct (List.filter is_secondary (r :: r2 :: rest)); eauto.
Qed.

(** X20. [multi_kb_query], once the targets are known, answers exactly
    when at least one target could be queried: targets whose client
    cannot be made or whose query raises are skipped. Every failure
    leaves as status 500, also the empty target list that is raised as
    400; when no target answers the detail is the text of "No knowledge
    bases could be queried". *)
Theorem multi_kb_answers_iff_some_target
    (exc_text : HTTPException -> string)
    (query_kb : QueryTarget -> option (string * string * list string))
    (include_thinking include_contexts : bool)
    (targets : list QueryTarget) :
  let out := query_targets exc_text query_kb include_thinking
                           include_contexts targets in
  ((exists t, In t targets /\ query_kb t <> None)
   <-> exists response, out = inr response)
  /\ (forall e, out = inl e -> status_code e = 500)
  /\ (targets = [] ->
      out = inl (mkHTTP 500
                   (exc_text
                      (mkHTTP 400
                         "No knowledge base targets available for this query"))))
  /\ (targets <> [] -> (forall t, In t targets -> query_kb t = None) ->
      out = inl (mkHTTP 500
                   (exc_text
                      (mkHTTP 500 "No knowledge bases could be queried")))).
Proof.
  cbv zeta. unfold query_targets.
  destruct targets as [|t0 rest].
  - split; [|split; [|split]].
    + split; [intros [t [[] _]] | intros [r H]; discriminate].
    + intros e [= <-]. reflexivity.
    + reflexivity.
    + congruence.
  - destruct (collect_results query_kb (t0 :: rest)) as [|r rs] eqn:C.
    + pose proof (proj1 (collect_results_nil query_kb (t0 :: rest)) C) as Hn.
      cbn [merge_results].
      split; [|split; [|split]].
      * split; [|intros [x H]; discriminate].
        intros [t [Ht Hq]]. now apply Hn in Ht.
      * intros e [= <-]. reflexivity.
      * discriminate.
      * reflexivity.
    + destruct (merge_results_nonempty r rs) as [m ->].
      split; [|split; [|split]].
      * split; [eauto|]. intros _.
        destruct (List.existsb
                    (fun t => match query_kb t with Some _ => true
                                               | None => false end)
                    (t0 :: rest)) eqn:E.
        -- apply existsb_exists in E as [t [Ht Hq]]. exists t.
           split; [exact Ht|]. destruct (query_kb t); congruence.
        -- exfalso.
           assert (Hn : forall t, In t (t0 :: rest) -> query_kb t = None).
           { intros t Ht. destruct (query_kb t) eqn:Q; [|reflexivity].
             assert (List.existsb
                       (fun t => match query_kb t with Some _ => true
                                                  | None => false end)
                       (t0 :: rest) = true).
             { apply existsb_exists. exists t. now rewrite Q. }
             congruence. }
           apply collect_results_nil in Hn. congruence.
      * discriminate.
      * discriminate.
      * intros _ Hn. apply collect_results_nil in Hn. congruence.
Qed.

(** X21. When the results are all primary, or all secondary, the merge
    of [multi_kb_query] returns the first result as it is: no "Related
    Information" is added, also not when every result is marked
    secondary. *)
Theorem merge_of_one_kind (first : KbResult) (rest : list KbResult) :
  Forall (fun r => is_secondary r = false) (first :: rest)
  \/ Forall (fun r => is_secondary r = true) (first :: rest) ->
  merge_results (first :: rest) = inr first.
Proof.
  intros H. unfold merge_results. destruct rest as [|r2 rest]; [reflexivity|].
  set (results := first :: r2 :: rest) in *.
  destruct H as [H | H].
  - assert (Hs : List.filter is_secondary results = []).
    { apply List.Forall_forall with (x := first) in H as Hf;
        [|now left].
      clear Hf. induction H as [|x l Hx _ IH]; [reflexivity|].
      cbn [List.filter]. now rewrite Hx. }
    assert (Hp : List.filter (fun r => negb (is_secondary r)) results
                 = results).
    { clear Hs. induction H as [|x l Hx _ IH]; [reflexivity|].
      cbn [List.filter]. rewrite Hx. cbn [negb]. now rewrite IH. }
    rewrite Hp, Hs. reflexivity.
  - assert (Hp : List.filter (fun r => negb (is_secondary r)) results = []).
    { induction H as [|x l Hx _ IH]; [reflexivity|].
      cbn [List.filter]. now rewrite Hx. }
    rewrite Hp. reflexivity.
Qed.

Lemma merge_of_one_kind_witness :
  (Forall (fun r => is_secondary r = false)
          [mkKbResult "a" "" [] "database" "KB-1" true;
           mkKbResult "b" "" [] "support" "KB-2" true]
   \/ Forall (fun r => is_secondary r = true)
             [mkKbResult "a" "" [] "database" "KB-1" true;
              mkKbResult "b" "" [] "support" "KB-2" true])
  /\ merge_results [mkKbResult "a" "" [] "database" "KB-1" true;
                    mkKbResult "b" "" [] "support" "KB-2" true]
     = inr (mkKbResult "a" "" [] "database" "KB-1" true).
Proof.
  assert (H : Forall (fun r => is_secondary r = false)
                [mkKbResult "a" "" [] "database" "KB-1" true;
                 mkKbResult "b" "" [] "support" "KB-2" true]
              \/ Forall (fun r => is_secondary r = true)
                   [mkKbResult "a" "" [] "database" "KB-1" true;
                    mkKbResult "b" "" [] "support" "KB-2" true]).
  { right. repeat constructor. }
  split; [exact H|].
  apply (merge_of_one_kind _ _ H).
Defined.

Lemma prefix_refl (a : string) : String.prefix a a = true.
Proof.
  induction a as [|c a IH]; [reflexivity|]. now rewrite prefix_cons_eq.
Qed.

Lemma merge_results_source (results : list KbResult) (m : KbResult) :
  merge_results results = inr m ->
  exists r, In r results
            /\ thinking m = thinking r
            /\ retrieved_contexts m = retrieved_contexts r
            /\ String.prefix (answer r) (answer m) = true.
Proof.
  unfold merge_results. destruct results as [|r1 rest]; [discriminate|].
  destruct rest as [|r2 rest].
  - intros [= <-]. exists r1.
    repeat split; [now left | apply prefix_refl].
  - set (results := r1 :: r2 :: rest).
    destruct (List.filter (fun r => negb (is_secondary r)) results)
      as [|p ps] eqn:P.
    + intros [= <-]. exists r1.
      repeat split; [now left | apply prefix_refl].
    + assert (Hp : In p results).
      { assert (H : In p (List.filter (fun r => negb (is_secondary r))
                                      results))
          by (rewrite P; now left).
        now apply filter_In in H. }
      destruct (List.filter is_secondary results); intros [= <-]; exists p.
      * repeat split; [exact Hp | apply prefix_refl].
      * repeat split; [exact Hp | apply prefix_app].
Qed.

Lemma collect_results_in
    (query_kb : QueryTarget -> option (string * string * list string))
    (targets : list QueryTarget) (r : KbResult) :
  In r (collect_results query_kb targets) ->
  exists t, In t targets
            /\ query_kb t = Some (answer r, thinking r, retrieved_contexts r).
Proof.
  induction targets as [|t rest IH]; cbn [collect_results]; [intros []|].
  destruct (query_kb t) as [[[a th] ctxs]|] eqn:E.
  - intros [<- | H].
    + exists t. split; [now left | exact E].
    + destruct (IH H) as [x [Hx Hq]]. exists x. split; [now right | exact Hq].
  - intros H. destruct (IH H) as [x [Hx Hq]].
    exists x. split; [now right | exact Hq].
Qed.

(** X22. A response of [multi_kb_query] is built from the answer of one
    target: its answer starts with that target's answer, and its
    thinking and contexts are that target's own, present only when they
    were requested and are not empty. *)
Theorem multi_kb_response_of_one_target
    (exc_text : HTTPException -> string)
    (query_kb : QueryTarget -> option (string * string * list string))
    (include_thinking include_contexts : bool)
    (targets : list QueryTarget) (response : APIResponse) :
  query_targets exc_text query_kb include_thinking include_contexts targets
  = inr response ->
  exists t a th ctxs,
    In t targets
    /\ query_kb t = Some (a, th, ctxs)
    /\ String.prefix a (api_answer response) = true
    /\ api_thinking response
       = (if include_thinking && Py.truthy th then Some th else None)
    /\ api_contexts response
       = (if include_contexts && match ctxs with [] => false | _ => true end
          then Some ctxs else None).
Proof.
  unfold query_targets. destruct targets as [|t0 rest]; [discriminate|].
  destruct (merge_results (collect_results query_kb (t0 :: rest)))
    as [e|m] eqn:M; [discriminate|].
  intros [= <-].
  destruct (merge_results_source _ _ M) as [r [Hr [Hth [Hctx Hpre]]]].
  destruct (collect_results_in _ _ _ Hr) as [t [Ht Hq]].
  exists t, (answer r), (thinking r), (retrieved_contexts r).
  unfold format_response. cbn [api_answer api_thinking api_contexts].
  rewrite Hth, Hctx. auto.
Qed.

Lemma multi_kb_response_of_one_target_witness :
  query_targets detail
    (fun t => if String.eqb (kbId t) "KB-1"
              then Some ("answer", "", ["context"]) else None)
    true true [target "support" "KB-0"; target "database" "KB-1"]
  = inr (mkAPI "answer" None (Some ["context"]))
  /\ exists t a th ctxs,
       In t [target "support" "KB-0"; target "database" "KB-1"]
       /\ (if String.eqb (kbId t) "KB-1"
           then Some ("answer", "", ["context"]) else None)
          = Some (a, th, ctxs)
       /\ String.prefix a (api_answer (mkAPI "answer" None (Some ["context"])))
          = true
       /\ api_thinking (mkAPI "answer" None (Some ["context"]))
          = (if true && Py.truthy th then Some th else None)
       /\ api_contexts (mkAPI "answer" None (Some ["context"]))
          = (if true && match ctxs with [] => false | _ => true end
             then Some ctxs else None).
Proof.
  assert (H : query_targets detail
                (fun t => if String.eqb (kbId t) "KB-1"
                          then Some ("answer", "", ["context"]) else None)
                true true [target "support" "KB-0"; target "database" "KB-1"]
              = inr (mkAPI "answer" None (Some ["context"])))
    by reflexivity.
  split; [exact H|].
  apply (multi_kb_response_of_one_target _ _ _ _ _ _ H).
Defined.

(* ===================================================================== *)
(** * Beyond the claims: SQL optimization                                 *)
(* ===================================================================== *)

Example find_tables_join :
  Optimize.find_tables
    "SELECT * FROM db_order o join  customer c ON c.id = o.customer_id"
  = ["db_order"; "customer"].
Proof. reflexivity. Qed.

Example find_tables_needs_space_and_name :
  Optimize.find_tables "select x from(select 1) a, fromage FROM  , y JOIN"
  = [].
Proof. reflexivity. Qed.

Example find_tables_edge_cases :
  Optimize.find_tables "from from from x" = ["from"; "x"]
  /\ Optimize.find_tables "fromfrom t" = ["t"]
  /\ Optimize.find_tables "from  join x" = ["join"]
  /\ Optimize.find_tables "FROM t1 joinjoin a" = ["t1"; "a"].
Proof. repeat split. Qed.

Lemma span_fst_all (p : ascii -> bool) (s : string) :
  forallb p (list_ascii_of_string (fst (Optimize.span p s))) = true.
Proof.
  induction s as [|c s IH]; [reflexivity|].
  cbn [Optimize.span]. destruct (p c) eqn:E; [|reflexivity].
  destruct (Optimize.span p s) as [a b].
  cbn [fst list_ascii_of_string forallb] in *. now rewrite E, IH.
Qed.

Lemma span_app (p : ascii -> bool) (s : string) :
  s = fst (Optimize.span p s) +:+ snd (Optimize.span p s).
Proof.
  induction s as [|c s IH]; [reflexivity|].
  cbn [Optimize.span]. destruct (p c); [|reflexivity].
  destruct (Optimize.span p s) as [a b]. cbn [fst snd] in *.
  now rewrite append_cons, <- IH.
Qed.

Lemma take_drop (n : nat) (s : string) :
  s = Py.take n s +:+ Optimize.drop n s.
Proof.
  revert s. induction n as [|n IH]; intros [|c s]; try reflexivity.
  cbn [Py.take Optimize.drop]. now rewrite append_cons, <- IH.
Qed.

Lemma contains_of_prefix (t s : string) :
  String.prefix t s = true -> Py.contains t s = true.
Proof.
  intros H. destruct s as [|c s]; [exact H|].
  now rewrite contains_cons, H.
Qed.

Lemma contains_app_r (t x y : string) :
  Py.contains t y = true -> Py.contains t (x +:+ y) = true.
Proof.
  intros H. induction x as [|c x IH]; [now rewrite append_nil_l|].
  now rewrite append_cons, contains_cons, IH, orb_true_r.
Qed.

Lemma lower_take_prefix (n : nat) (s : string) :
  String.prefix (Py.lower (Py.take n s)) (Py.lower s) = true.
Proof.
  revert s. induction n as [|n IH]; intros [|c s]; try reflexivity.
  cbn [Py.take Py.lower]. now rewrite prefix_cons_eq.
Qed.

Lemma match_table_some (s name : string) (len : nat) :
  Optimize.match_table s = Some (name, len) ->
  name <> ""
  /\ all_word name = true
  /\ Py.contains name s = true
  /\ (String.prefix "from" (Py.lower s) = true
      \/ String.prefix "join" (Py.lower s) = true).
Proof.
  unfold Optimize.match_table.
  destruct (String.eqb (Py.lower (Py.take 4 s)) "from"
            || String.eqb (Py.lower (Py.take 4 s)) "join") eqn:K;
    [|discriminate].
  pose proof (span_app Py.is_space (Optimize.drop 4 s)) as Hs1.
  destruct (Optimize.span Py.is_space (Optimize.drop 4 s))
    as [spaces rest].
  pose proof (span_app Optimize.is_word rest) as Hs2.
  pose proof (span_fst_all Optimize.is_word rest) as Hw.
  destruct (Optimize.span Optimize.is_word rest) as [nm rest2].
  cbn [fst snd] in Hs1, Hs2, Hw.
  destruct (Py.truthy spaces && Py.truthy nm) eqn:T; [|discriminate].
  intros [= <- <-]. apply andb_true_iff in T as [_ Tn].
  split; [now destruct nm|]. split; [exact Hw|]. split.
  - rewrite (take_drop 4 s), Hs1, Hs2.
    do 2 apply contains_app_r. apply contains_of_prefix, prefix_app.
  - apply orb_true_iff in K as [K | K]; apply String.eqb_eq in K;
      [left | right]; rewrite <- K; apply lower_take_prefix.
Qed.

Lemma findall_go_in (s : string) :
  forall skip name,
    In name (Optimize.findall_go skip s) ->
    name <> ""
    /\ all_word name = true
    /\ Py.contains name s = true
    /\ (Py.contains "from" (Py.lower s) = true
        \/ Py.contains "join" (Py.lower s) = true).
Proof.
  induction s as [|c s IH]; intros skip name; [intros []|].
  assert (Hlift : forall k,
             In name (Optimize.findall_go k s) ->
             name <> ""
             /\ all_word name = true
             /\ Py.contains name (String c s) = true
             /\ (Py.contains "from" (Py.lower (String c s)) = true
                 \/ Py.contains "join" (Py.lower (String c s)) = true)).
  { intros k Hk. destruct (IH k name Hk) as [H1 [H2 [H3 H4]]].
    split; [exact H1|]. split; [exact H2|]. split.
    - now rewrite contains_cons, H3, orb_true_r.
    - cbn [Py.lower]. rewrite !contains_cons.
      destruct H4 as [-> | ->]; rewrite orb_true_r; auto. }
  cbn [Optimize.findall_go]. destruct skip as [|k]; [|apply Hlift].
  destruct (Optimize.match_table (String c s)) as [[nm len]|] eqn:E;
    [|apply Hlift].
  intros [<- | Hin]; [|now apply (Hlift _ Hin)].
  destruct (match_table_some _ _ _ E) as [H1 [H2 [H3 H4]]].
  split; [exact H1|]. split; [exact H2|]. split; [exact H3|].
  destruct H4 as [H4 | H4]; [left | right]; now apply contains_of_prefix.
Qed.

(** X23. Every table name that [optimize_sql_query] takes from the SQL
    text is a non-empty run of word characters (letters, digits,
    underscore) that occurs in the text, and a name is only found when
    the text contains [from] or [join] in some letter case. *)
Theorem find_tables_names (sql_query name : string) :
  In name (Optimize.find_tables sql_query) ->
  name <> ""
  /\ all_word name = true
  /\ Py.contains name sql_query = true
  /\ (Py.contains "from" (Py.lower sql_query) = true
      \/ Py.contains "join" (Py.lower sql_query) = true).
Proof. apply findall_go_in. Qed.

Lemma find_tables_names_witness :
  In "customer"
     (Optimize.find_tables "SELECT * FROM db_order o JOIN customer c")
  /\ Py.contains "customer" "SELECT * FROM db_order o JOIN customer c" = true.
Proof.
  assert (H : In "customer"
                 (Optimize.find_tables
                    "SELECT * FROM db_order o JOIN customer c"))
    by (right; left; reflexivity).
  split; [exact H|].
  apply (find_tables_names _ _ H).
Defined.

Lemma retrieve_queries_spec (env : Retrieval.Env) (queries : list string) :
  forall acc w,
    let out := fst (Optimize.retrieve_queries env queries acc w) in
    let w' := snd (Optimize.retrieve_queries env queries acc w) in
    cache w' = cache w
    /\ gen_log w' = gen_log w
    /\ clock_reads w' = clock_reads w
    /\ exists sent rest,
         List.map (fun q => (q, 3)) queries = (sent ++ rest)%list
         /\ kb_log w' = (kb_log w ++ sent)%list
         /\ (forall r, out = inr r -> rest = [])
         /\ (forall e, out = inl e ->
             exists pre q n,
               sent = (pre ++ [(q, n)])%list
               /\ kb_retrieve env (length (kb_log w) + length pre) q n
                  = inl e)
         /\ ((forall j t n, exists items, kb_retrieve env j t n = inr items) ->
             exists r, out = inr r).
Proof.
  induction queries as [|q queries IH]; intros acc w.
  - cbn [Optimize.retrieve_queries ret fst snd List.map].
    repeat split. exists [], [].
    split; [reflexivity|]. split; [now rewrite app_nil_r|].
    split; [reflexivity|]. split; [discriminate|]. eauto.
  - cbn [Optimize.retrieve_queries]. unfold bind, retrieve.
    destruct (kb_retrieve env (length (kb_log w)) q 3) as [e|items] eqn:E.
    + cbn [ret fst snd cache gen_log clock_reads kb_log List.map].
      repeat split.
      exists [(q, 3)], (List.map (fun q => (q, 3)) queries).
      split; [reflexivity|]. split; [reflexivity|].
      split; [discriminate|]. split.
      * intros e' [= <-]. exists [], q, 3. split; [reflexivity|].
        cbn [length]. now rewrite Nat.add_0_r.
      * intros Hall. destruct (Hall (length (kb_log w)) q 3) as [items Hi].
        congruence.
    + match goal with
      | |- context [Optimize.retrieve_queries env queries ?acc' ?w1] =>
          destruct (IH acc' w1)
            as [Hc [Hg [Hk [sent [rest [Hq [Hlog [Hr [He Hall]]]]]]]]]
      end.
      cbn [cache gen_log clock_reads kb_log] in Hc, Hg, Hk, Hlog, He.
      split; [exact Hc|]. split; [exact Hg|]. split; [exact Hk|].
      exists ((q, 3) :: sent), rest. cbn [List.map].
      rewrite Hq, Hlog, <- app_assoc.
      split; [reflexivity|]. split; [reflexivity|].
      split; [exact Hr|]. split; [|exact Hall].
      intros e He'. destruct (He e He') as [pre [q' [n [-> Hraise]]]].
      exists ((q, 3) :: pre), q', n. split; [reflexivity|].
      rewrite length_app in Hraise. cbn [length] in Hraise |- *.
      now replace (length (kb_log w) + S (length pre))%nat
        with (length (kb_log w) + 1 + length pre)%nat by lia.
Qed.

Lemma retrieve_tables_spec (env : Retrieval.Env) (tables : list string) :
  forall acc th w,
    let out := fst (Optimize.retrieve_tables env tables acc th w) in
    let w' := snd (Optimize.retrieve_tables env tables acc th w) in
    cache w' = cache w
    /\ gen_log w' = gen_log w
    /\ clock_reads w' = clock_reads w
    /\ exists sent rest,
         table_requests tables = (sent ++ rest)%list
         /\ kb_log w' = (kb_log w ++ sent)%list
         /\ (forall r, out = inr r -> rest = [])
         /\ (forall e, out = inl e ->
             exists pre q n,
               sent = (pre ++ [(q, n)])%list
               /\ kb_retrieve env (length (kb_log w) + length pre) q n
                  = inl e)
         /\ ((forall j t n, exists items, kb_retrieve env j t n = inr items) ->
             exists r, out = inr r).
Proof.
  induction tables as [|t tables IH]; intros acc th w.
  - cbn [Optimize.retrieve_tables ret fst snd].
    repeat split. exists [], [].
    split; [reflexivity|]. split; [now rewrite app_nil_r|].
    split; [reflexivity|]. split; [discriminate|]. eauto.
  - cbn [Optimize.retrieve_tables]. unfold bind.
    destruct (retrieve_queries_spec env (Optimize.table_queries t) acc w)
      as [Hc [Hg [Hk [sent [rest [Hq [Hlog [Hr [He Hall]]]]]]]]].
    destruct (Optimize.retrieve_queries env (Optimize.table_queries t) acc w)
      as [[e|all] w1].
    + cbn [fst snd ret] in *.
      split; [exact Hc|]. split; [exact Hg|]. split; [exact Hk|].
      exists sent, (rest ++ table_requests tables)%list.
      unfold table_requests. cbn [List.map List.concat].
      rewrite Hq, <- app_assoc.
      split; [reflexivity|]. split; [exact Hlog|].
      split; [discriminate|]. split.
      * intros e' [= <-]. now apply (He e).
      * intros Hyp. destruct (Hall Hyp) as [r Hr']. discriminate.
    + cbn [fst snd] in Hc, Hg, Hk, Hlog, Hr.
      specialize (Hr all eq_refl). subst rest. rewrite app_nil_r in Hq.
      match goal with
      | |- context [Optimize.retrieve_tables env tables all ?th' w1] =>
          destruct (IH all th' w1)
            as [Hc2 [Hg2 [Hk2 [sent2 [rest2 [Hq2 [Hlog2 [Hr2 [He2 Hall2]]]]]]]]]
      end.
      split; [congruence|]. split; [congruence|]. split; [congruence|].
      exists (sent ++ sent2)%list, rest2.
      unfold table_requests in *. cbn [List.map List.concat].
      rewrite Hq, Hq2, Hlog2, Hlog, <- !app_assoc.
      split; [reflexivity|]. split; [reflexivity|].
      split; [exact Hr2|]. split; [|exact Hall2].
      intros e He'. destruct (He2 e He') as [pre [q' [n [-> Hraise]]]].
      exists (sent ++ pre)%list, q', n.
      split; [now rewrite app_assoc|].
      rewrite Hlog in Hraise. rewrite !length_app in *.
      now rewrite Nat.add_assoc.
Qed.

(** X24. On a cache miss with a provider that answers,
    [optimize_sql_query] sends three requests of 3 results for each
    table found in the SQL text, in order, and then one request of 5
    results whose text carries at most the first 100 characters of the
    SQL; it calls the generator once. The result has no [error] key, its
    contexts hold no two contexts with the same content, are sorted by
    score, highest first, and are at most 10; its analysis is the
    stripped answer of the generator, or the text "Error generating SQL
    optimization recommendations: " with the exception when the
    generator raises; and the result is stored in the cache. *)
Theorem optimize_requests (env : Retrieval.Env) (sql_query : string)
    (w : World) :
  fst (cache_lookup env (optimize_key sql_query) w) = None ->
  (forall j t n, exists items, kb_retrieve env j t n = inr items) ->
  let r := fst (Optimize.optimize_sql_query env sql_query w) in
  let w' := snd (Optimize.optimize_sql_query env sql_query w) in
  let prompt :=
    Optimize.optimization_prompt sql_query
      (Py.join (Retrieval.nl +:+ Retrieval.nl +:+ "---" +:+ Retrieval.nl
                +:+ Retrieval.nl)
               (List.filter Py.truthy (List.map content (contexts r)))) in
  kb_log w'
  = (kb_log w ++ table_requests (Optimize.find_tables sql_query)
     ++ [("SQL query optimization for: " +:+ Py.take 100 sql_query +:+ "...",
          5)])%list
  /\ gen_log w' = (gen_log w ++ [prompt])%list
  /\ error r = None
  /\ retrieval_method r = "sql_optimization"
  /\ List.NoDup (List.map content_hash (contexts r))
  /\ StronglySorted score_ge (contexts r)
  /\ (length (contexts r) <= 10)%nat
  /\ relationship_analysis r
     = Some match invoke_model env (length (gen_log w)) prompt with
            | inr text => Py.strip text
            | inl e =>
                "Error generating SQL optimization recommendations: " +:+ e
            end
  /\ exists ts, cache w' !! optimize_key sql_query = Some (mkEntry r ts).
Proof.
  intros Hmiss Hall. cbv zeta.
  pose proof (cache_lookup_frame env (optimize_key sql_query) w) as Hfr.
  unfold Optimize.optimize_sql_query, bind.
  fold (optimize_key sql_query).
  destruct (cache_lookup env (optimize_key sql_query) w) as [hit w0] eqn:Hl.
  cbn [fst snd] in Hmiss, Hfr. subst hit.
  destruct Hfr as [Hc [Hk [Hg Hclk]]].
  match goal with
  | |- context [Optimize.retrieve_tables env ?ts ?acc ?th w0] =>
      destruct (retrieve_tables_spec env ts acc th w0)
        as [Hc1 [Hg1 [_ [sent [rest [Hq [Hlog [Hr [_ Hok]]]]]]]]];
      destruct (Optimize.retrieve_tables env ts acc th w0) as [out w1]
  end.
  cbn [fst snd] in Hc1, Hg1, Hlog, Hr, Hok.
  destruct (Hok Hall) as [[all th1] ->].
  specialize (Hr _ eq_refl). subst rest. rewrite app_nil_r in Hq.
  subst sent.
  unfold retrieve.
  destruct (Hall (length (kb_log w1)) (Optimize.optimization_query sql_query) 5)
    as [items ->].
  match goal with
  | |- context [top_contexts 10 (deduplicate ?l)] =>
      pose proof (aggregate_shape 10 l) as Hshape;
      change (top_contexts 10 (deduplicate l)) with (aggregate 10 l);
      set (sorted_contexts := aggregate 10 l) in *
  end.
  cbv zeta in Hshape. destruct Hshape as [_ [Hnd [Hsorted Hlen]]].
  specialize (Hlen ltac:(lia)). change (Z.to_nat 10) with 10%nat in Hlen.
  unfold Optimize.generate_sql_optimization, bind, invoke.
  cbn [gen_log kb_log cache clock_reads].
  destruct (invoke_model env (length (gen_log w1)) _) as [e|text] eqn:Hgen;
    cbn [ret cache_store bind now fst snd contexts error retrieval_method
         relationship_analysis kb_log gen_log cache clock_reads];
    rewrite Hlog, Hk, Hg1, Hg, <- ?app_assoc;
    (split; [reflexivity|]); (split; [reflexivity|]);
    (split; [reflexivity|]); (split; [reflexivity|]);
    (split; [exact Hnd|]); (split; [exact Hsorted|]);
    (split; [exact Hlen|]);
    (split; [rewrite Hg1, Hg in Hgen; unfold Optimize.optimization_query in Hgen;
             now rewrite Hgen|]);
    eexists; apply lookup_insert_eq.
Qed.

Lemma optimize_requests_witness :
  let env := Retrieval.mkEnv (fun _ _ _ => inr [sample_item])
                             (fun _ _ => inl "throttled")
                             (fun _ => 0%Q) in
  fst (cache_lookup env (optimize_key "SELECT * FROM db_order") empty_world)
  = None
  /\ (forall j t n, exists items, kb_retrieve env j t n = inr items)
  /\ error (fst (Optimize.optimize_sql_query env "SELECT * FROM db_order"
                                             empty_world))
     = None.
Proof.
  intros env.
  assert (H1 : fst (cache_lookup env (optimize_key "SELECT * FROM db_order")
                                 empty_world) = None) by reflexivity.
  assert (H2 : forall j t n, exists items, kb_retrieve env j t n = inr items)
    by (intros; eexists; reflexivity).
  split; [exact H1 | split; [exact H2|]].
  apply (optimize_requests env "SELECT * FROM db_order" empty_world H1 H2).
Defined.

Lemma retrieve_queries_outcome (env : Retrieval.Env) (queries : list string) :
  forall acc w,
    let out := fst (Optimize.retrieve_queries env queries acc w) in
    let w' := snd (Optimize.retrieve_queries env queries acc w) in
    let requests := List.map (fun q => (q, 3)) queries in
    match first_failure env (length (kb_log w)) requests with
    | Some (idx, err) =>
        out = inl err
        /\ kb_log w' = (kb_log w ++ firstn (S idx) requests)%list
    | None =>
        (exists r, out = inr r) /\ kb_log w' = (kb_log w ++ requests)%list
    end.
Proof.
  induction queries as [|q queries IH]; intros acc w.
  - cbn [Optimize.retrieve_queries ret fst snd List.map first_failure].
    split; [eauto | now rewrite app_nil_r].
  - cbn [Optimize.retrieve_queries List.map first_failure].
    unfold bind, retrieve.
    destruct (kb_retrieve env (length (kb_log w)) q 3) as [e|items] eqn:E.
    + cbn [ret fst snd kb_log firstn]. split; reflexivity.
    + match goal with
      | |- context [Optimize.retrieve_queries env queries ?acc' ?w1] =>
          specialize (IH acc' w1)
      end.
      cbv zeta in IH. cbn [kb_log] in IH.
      rewrite length_app in IH. cbn [length] in IH.
      rewrite Nat.add_1_r in IH.
      destruct (first_failure env (S (length (kb_log w)))
                  (List.map (fun q0 => (q0, 3)) queries)) as [[idx err]|].
      * destruct IH as [Hout Hlog]. split; [exact Hout|].
        rewrite Hlog, <- app_assoc. reflexivity.
      * destruct IH as [Hout Hlog]. split; [exact Hout|].
        rewrite Hlog, <- app_assoc. reflexivity.
Qed.

Lemma first_failure_length (env : Retrieval.Env)
    (requests : list (string * Z)) (calls idx : nat) (err : string) :
  first_failure env calls requests = Some (idx, err) ->
  (idx < length requests)%nat.
Proof. intros H. apply first_failure_spec in H. apply H. Qed.

Lemma firstn_app_short {A} (n : nat) (a b : list A) :
  (n <= length a)%nat -> firstn n (a ++ b) = firstn n a.
Proof.
  intros H. rewrite firstn_app.
  replace (n - length a)%nat with 0%nat by lia.
  cbn [firstn]. now rewrite app_nil_r.
Qed.

Lemma retrieve_tables_outcome (env : Retrieval.Env) (tables : list string) :
  forall acc th w,
    let out := fst (Optimize.retrieve_tables env tables acc th w) in
    let w' := snd (Optimize.retrieve_tables env tables acc th w) in
    let requests := table_requests tables in
    match first_failure env (length (kb_log w)) requests with
    | Some (idx, err) =>
        out = inl err
        /\ kb_log w' = (kb_log w ++ firstn (S idx) requests)%list
    | None =>
        (exists r, out = inr r) /\ kb_log w' = (kb_log w ++ requests)%list
    end.
Proof.
  induction tables as [|t tables IH]; intros acc th w.
  - cbn [Optimize.retrieve_tables ret fst snd first_failure].
    unfold table_requests. cbn [List.map List.concat first_failure].
    split; [eauto | now rewrite app_nil_r].
  - cbn [Optimize.retrieve_tables]. unfold bind. cbv zeta.
    change (table_requests (t :: tables))
      with (List.map (fun q => (q, 3)) (Optimize.table_queries t)
            ++ table_requests tables)%list.
    rewrite first_failure_app.
    pose proof (retrieve_queries_outcome env (Optimize.table_queries t) acc w)
      as Hq.
    cbv zeta in Hq.
    destruct (Optimize.retrieve_queries env (Optimize.table_queries t) acc w)
      as [out1 w1].
    cbn [fst snd] in Hq.
    destruct (first_failure env (length (kb_log w))
                (List.map (fun q => (q, 3)) (Optimize.table_queries t)))
      as [[i e]|] eqn:F.
    + destruct Hq as [-> Hlog]. cbn [ret fst snd].
      split; [reflexivity|].
      rewrite firstn_app_short; [exact Hlog|].
      apply first_failure_length in F. lia.
    + destruct Hq as [[all ->] Hlog].
      match goal with
      | |- context [Optimize.retrieve_tables env tables all ?th' w1] =>
          specialize (IH all th' w1)
      end.
      cbv zeta in IH. rewrite Hlog, length_app in IH.
      destruct (first_failure env
                  (length (kb_log w)
                   + length (List.map (fun q => (q, 3))
                                      (Optimize.table_queries t)))
                  (table_requests tables)) as [[i e]|].
      * destruct IH as [Hout Hlog2]. split; [exact Hout|].
        rewrite Hlog2, <- app_assoc. reflexivity.
      * destruct IH as [Hout Hlog2]. split; [exact Hout|].
        rewrite Hlog2, <- app_assoc. reflexivity.
Qed.

(** X25. On a cache miss, when one of the requests of
    [optimize_sql_query] (three per table found, then the pattern
    request) raises after the requests before it were answered, no
    further request is sent and the generator is not called; the result
    is error-shaped (the exception of that request under [error], no
    contexts, no analysis, no thinking) and the cache is left as it
    was. An [error] key arises in no other way. *)
Theorem optimize_provider_failure (env : Retrieval.Env) (sql_query : string)
    (w : World) :
  fst (cache_lookup env (optimize_key sql_query) w) = None ->
  let r := fst (Optimize.optimize_sql_query env sql_query w) in
  let w' := snd (Optimize.optimize_sql_query env sql_query w) in
  let requests :=
    (table_requests (Optimize.find_tables sql_query)
     ++ [(Optimize.optimization_query sql_query, 5)])%list in
  (forall idx err,
     raises_at env (length (kb_log w)) requests idx err ->
     error r = Some err
     /\ contexts r = []
     /\ relationship_analysis r = None
     /\ thinking_process r = None
     /\ gen_log w' = gen_log w
     /\ cache w' = cache w
     /\ kb_log w' = (kb_log w ++ firstn (S idx) requests)%list)
  /\ (forall err,
        error r = Some err ->
        exists idx, raises_at env (length (kb_log w)) requests idx err).
Proof.
  intros Hmiss. cbv zeta.
  pose proof (cache_lookup_frame env (optimize_key sql_query) w) as Hfr.
  unfold Optimize.optimize_sql_query, bind.
  fold (optimize_key sql_query).
  destruct (cache_lookup env (optimize_key sql_query) w) as [hit w0] eqn:Hl.
  cbn [fst snd] in Hmiss, Hfr. subst hit.
  destruct Hfr as [Hc [Hk [Hg Hclk]]].
  set (tr := table_requests (Optimize.find_tables sql_query)).
  set (last := (Optimize.optimization_query sql_query, 5)).
  assert (Hff : forall idx err,
             raises_at env (length (kb_log w)) (tr ++ [last]) idx err
             <-> first_failure env (length (kb_log w)) (tr ++ [last])
                 = Some (idx, err))
    by (intros idx err; symmetry; apply first_failure_spec).
  rewrite first_failure_app in Hff. subst last. cbn [first_failure] in Hff.
  match goal with
  | |- context [Optimize.retrieve_tables env ?ts ?acc ?th w0] =>
      pose proof (retrieve_tables_outcome env ts acc th w0) as Hout;
      destruct (retrieve_tables_spec env ts acc th w0)
        as [Hc1 [Hg1 _]];
      destruct (Optimize.retrieve_tables env ts acc th w0) as [out w1]
  end.
  cbv zeta in Hout. cbn [fst snd] in Hout, Hc1, Hg1.
  fold tr in Hout. rewrite Hk in Hout.
  destruct (first_failure env (length (kb_log w)) tr) as [[i e]|] eqn:F.
  - destruct Hout as [-> Hlog].
    cbn [ret fst snd error contexts relationship_analysis thinking_process].
    split.
    + intros idx err Hraise. apply Hff in Hraise.
      injection Hraise as <- <-.
      split; [reflexivity|]. split; [reflexivity|]. split; [reflexivity|].
      split; [reflexivity|]. split; [congruence|]. split; [congruence|].
      rewrite firstn_app_short; [exact Hlog|].
      apply first_failure_length in F. lia.
    + intros err [= <-]. exists i. now apply Hff.
  - destruct Hout as [[[all th1] ->] Hlog]. unfold retrieve.
    rewrite Hlog, length_app.
    destruct (kb_retrieve env (length (kb_log w) + length tr)
                          (Optimize.optimization_query sql_query) 5)
      as [e | items] eqn:E.
    + cbn [ret fst snd error contexts relationship_analysis thinking_process
           cache gen_log kb_log].
      split.
      * intros idx err Hraise. apply Hff in Hraise.
        injection Hraise as <- <-.
        split; [reflexivity|]. split; [reflexivity|]. split; [reflexivity|].
        split; [reflexivity|]. split; [congruence|]. split; [congruence|].
        rewrite firstn_all2 by (rewrite length_app; cbn [length]; lia).
        now rewrite <- app_assoc.
      * intros err [= <-]. exists (length tr + 0)%nat. now apply Hff.
    + split.
      * intros idx err Hraise. apply Hff in Hraise. discriminate.
      * unfold Optimize.generate_sql_optimization, bind, invoke.
        cbn [gen_log kb_log cache clock_reads].
        destruct (invoke_model env (length (gen_log w1)) _);
          cbn [ret cache_store bind now fst error]; discriminate.
Qed.

Lemma optimize_provider_failure_witness :
  let env := Retrieval.mkEnv (fun j _ _ => if (j <? 4)%nat
                                           then inr [sample_item]
                                           else inl "timeout")
                             (fun _ _ => inr "SELECT 1")
                             (fun _ => 0%Q) in
  fst (cache_lookup env
         (optimize_key "select * from a join b on a.id = b.id") empty_world)
  = None
  /\ raises_at env (length (kb_log empty_world))
       (table_requests
          (Optimize.find_tables "select * from a join b on a.id = b.id")
        ++ [(Optimize.optimization_query
               "select * from a join b on a.id = b.id", 5)])%list
       4 "timeout"
  /\ error (fst (Optimize.optimize_sql_query env
                  "select * from a join b on a.id = b.id" empty_world))
     = Some "timeout"
  /\ gen_log (snd (Optimize.optimize_sql_query env
                     "select * from a join b on a.id = b.id" empty_world))
     = gen_log empty_world.
Proof.
  intros env.
  assert (H1 : fst (cache_lookup env
                      (optimize_key "select * from a join b on a.id = b.id")
                      empty_world) = None) by reflexivity.
  assert (H2 : raises_at env (length (kb_log empty_world))
                 (table_requests
                    (Optimize.find_tables
                       "select * from a join b on a.id = b.id")
                  ++ [(Optimize.optimization_query
                         "select * from a join b on a.id = b.id", 5)])%list
                 4 "timeout").
  { split; [vm_compute; lia|]. split; [|reflexivity].
    intros [|[|[|[|j]]]] Hj; try (eexists; reflexivity). lia. }
  split; [exact H1 | split; [exact H2|]].
  destruct (optimize_provider_failure env
              "select * from a join b on a.id = b.id" empty_world H1)
    as [Hforward _].
  destruct (Hforward 4%nat "timeout" H2) as [He [_ [_ [_ [Hgen _]]]]].
  split; [exact He | exact Hgen].
Defined.

(* ===================================================================== *)
(** * Beyond the claims: the command line tool and the endpoints          *)
(* ===================================================================== *)

Lemma select_pending_length (kb_id : string) (company_id : Z) (db : DB) :
  Z.of_nat (length (select_pending kb_id company_id db))
  = Train.count_pending kb_id company_id db.
Proof.
  unfold Train.count_pending.
  now rewrite (Permutation_length (select_pending_perm kb_id company_id db)).
Qed.

(** X26. A dry run of [train_from_feedback] changes nothing and prints
    the number of pending corrections. A real run on the same database
    (ids being positive) processes at most that many, and exactly that
    many when the database accepts every insert; its status is
    [no_pending_feedback], with the database untouched, when the number
    is 0 and [success] otherwise. Both end with exit code 0. *)
Theorem dry_run_predicts_run (env : Feedback.Env) (kb_id : string)
    (company_id : Z) (db : DB) :
  0 < next_training_id db ->
  let count := Train.count_pending kb_id company_id db in
  Train.main env (Some db) true kb_id company_id true
  = (0,
     ["Would process " +:+ Py.str_of_Z count
      +:+ " pending feedback items for KB " +:+ kb_id],
     Some db)
  /\ exists n st db',
       Train.main env (Some db) true kb_id company_id false
       = (0,
          ["Processed " +:+ Py.str_of_Z n +:+ " feedback items";
           "Status: " +:+ st],
          Some db')
       /\ 0 <= n <= count
       /\ ((forall id, insert_raises env id = false) -> n = count)
       /\ (count = 0 -> st = "no_pending_feedback" /\ db' = db)
       /\ (0 < count -> st = "success").
Proof.
  intros Hpos. cbv zeta. split; [reflexivity|].
  rewrite <- select_pending_length. unfold Train.main. cbn [negb].
  destruct (select_pending kb_id company_id db) as [|p ps] eqn:Hsel.
  - rewrite (process_nothing_pending env _ _ _ Hsel).
    exists 0, "no_pending_feedback", db.
    cbn [processed status length Z.of_nat].
    repeat split; auto; lia.
  - rewrite <- Hsel.
    rewrite (process_pending_run env kb_id company_id db Hpos)
      by (rewrite Hsel; discriminate).
    eexists _, _, _. cbn [processed status].
    split; [reflexivity|].
    pose proof (filter_length_le
                  (fun f => negb (insert_raises env (Id f)))
                  (select_pending kb_id company_id db)) as Hle.
    fold (accepted env (select_pending kb_id company_id db)) in Hle.
    split; [lia|]. split.
    + intros Hok. now rewrite (accepted_all env _ Hok).
    + rewrite Hsel. cbn [length]. split; [lia | reflexivity].
Qed.

Lemma dry_run_predicts_run_witness :
  0 < next_training_id busy_db
  /\ Train.main sample_feedback_env (Some busy_db) true "KB-DATABASE" 7 true
     = (0,
        ["Would process "
         +:+ Py.str_of_Z (Train.count_pending "KB-DATABASE" 7 busy_db)
         +:+ " pending feedback items for KB " +:+ "KB-DATABASE"],
        Some busy_db).
Proof.
  assert (H1 : 0 < next_training_id busy_db) by (simpl; lia).
  split; [exact H1|].
  apply (dry_run_predicts_run sample_feedback_env "KB-DATABASE" 7 busy_db H1).
Defined.

Lemma relationship_error_shape (env : Retrieval.Env) (table_name : string)
    (num_results : Z) (w : World) (err : string) :
  fst (cache_lookup env (relationship_key table_name num_results) w) = None ->
  error (fst (relationship_retrieval env table_name num_results w))
  = Some err ->
  relationship_analysis
    (fst (relationship_retrieval env table_name num_results w)) = None
  /\ thinking_process
       (fst (relationship_retrieval env table_name num_results w)) = None.
Proof.
  intros Hmiss. unfold relationship_retrieval, bind.
  fold (relationship_key table_name num_results).
  destruct (cache_lookup env (relationship_key table_name num_results) w)
    as [hit w0].
  cbn [fst] in Hmiss. subst hit.
  match goal with
  | |- context [retrieve_each env ?n ?i ?qs ?acc ?th w0] =>
      destruct (retrieve_each env n i qs acc th w0) as [[e | [all th1]] w1]
  end.
  - cbn [ret fst relationship_analysis thinking_process]. auto.
  - unfold generate_relationship_analysis, bind, invoke.
    destruct (invoke_model env _ _);
      cbn [ret cache_store bind now fst error]; discriminate.
Qed.

(** X27. With an [AdvancedRetrieval] as client, the endpoint
    [analyze_table_relationships] never returns a retrieved context:
    when contexts are requested the list is empty, whatever was
    retrieved. Its answer is the relationship analysis of
    [relationship_retrieval] for 10 results; when that call fails on a
    cache miss the failure is not reported, the response has an empty
    answer and no thinking. The client is kept for the next request. *)
Theorem relationship_endpoint_returns_no_contexts (env : Retrieval.Env)
    (bedrock_available : bool) (table_name : string)
    (include_contexts include_thinking : bool) (w : World) :
  let r := fst (relationship_retrieval env table_name 10 w) in
  let out :=
    Endpoints.analyze_table_relationships env bedrock_available table_name
      include_contexts include_thinking (Some (Endpoints.Real w)) in
  api_contexts (fst out) = (if include_contexts then Some [] else None)
  /\ api_answer (fst out) = default "" (relationship_analysis r)
  /\ snd out
     = Some (Endpoints.Real (snd (relationship_retrieval env table_name 10 w)))
  /\ (fst (cache_lookup env (relationship_key table_name 10) w) = None ->
      forall err, error r = Some err ->
        api_answer (fst out) = "" /\ api_thinking (fst out) = None).
Proof.
  cbv zeta.
  pose proof (relationship_error_shape env table_name 10 w) as Hshape.
  unfold Endpoints.analyze_table_relationships, Endpoints.ensure_client,
    Endpoints.query_database_relationships,
    Answering.query_database_relationships.
  destruct (relationship_retrieval env table_name 10 w) as [r w'].
  cbn [fst snd api_contexts api_answer api_thinking
       Endpoints.relationship_analysis Endpoints.thinking_process
       Endpoints.retrieved_contexts default] in *.
  split; [now destruct include_contexts|]. split; [reflexivity|].
  split; [reflexivity|].
  intros Hmiss err Herr. destruct (Hshape err Hmiss Herr) as [-> ->].
  split; reflexivity.
Qed.

Lemma rag_answer_nonempty (env : Retrieval.Env) (client : Endpoints.Client)
    (query_text : string) (use_extended_thinking : bool) :
  Answering.answer
    (fst (Endpoints.advanced_rag_query env client query_text
                                       use_extended_thinking))
  <> "".
Proof.
  destruct client as [w | kb]; cbn [Endpoints.advanced_rag_query].
  - unfold Answering.advanced_rag_query, bind.
    destruct (multi_strategy_retrieval env query_text 8 w) as [result w1].
    cbv zeta.
    match goal with
    | |- context [Answering.generate_answer_from_contexts env ?q ?texts w1] =>
        pose proof (generated_answer_nonempty env q texts w1) as Hne;
        destruct (Answering.generate_answer_from_contexts env q texts w1)
          as [a w2]
    end.
    unfold ret. cbn [fst Answering.answer] in *. exact Hne.
  - cbn [fst Answering.answer]. apply append_nonempty_l. discriminate.
Qed.

(** X28. The single knowledge base endpoints always respond: for a
    request without query targets [query_knowledge_base] returns a
    response, never an error, and so does the [optimize_sql_query]
    endpoint; the answer of either is never empty, with an
    [AdvancedRetrieval] as with a mock client, and the client is kept
    for the next request. The optimize endpoint asks "How can I optimize
    this SQL query? " followed by the SQL, with extended thinking on. *)
Theorem single_kb_endpoints_always_answer
    (exc_text : HTTPException -> string)
    (get_application_kbs : string -> option ApplicationKBs)
    (query_kb : QueryTarget -> option (string * string * list string))
    (env : Retrieval.Env) (bedrock_available : bool)
    (request : Endpoints.QueryRequest) (sql_query : string)
    (include_contexts include_thinking : bool) (server : Endpoints.Server) :
  let client := Endpoints.ensure_client bedrock_available server in
  (Endpoints.explicit_targets request = None ->
   exists response client',
     Endpoints.query_knowledge_base exc_text get_application_kbs query_kb
                                    env bedrock_available request server
     = (inr response, Some client')
     /\ api_answer response <> "")
  /\ (let out := Endpoints.optimize_sql_query env bedrock_available sql_query
                   include_contexts include_thinking server in
      api_answer (fst out) <> ""
      /\ out
         = (Endpoints.rag_response include_thinking include_contexts
              (fst (Endpoints.advanced_rag_query env client
                      ("How can I optimize this SQL query? " +:+ sql_query)
                      true)),
            Some (snd (Endpoints.advanced_rag_query env client
                         ("How can I optimize this SQL query? " +:+ sql_query)
                         true)))).
Proof.
  cbv zeta. split.
  - intros Hnone. unfold Endpoints.query_knowledge_base. rewrite Hnone.
    unfold Endpoints.single_kb_query.
    pose proof (rag_answer_nonempty env
                  (Endpoints.ensure_client bedrock_available server)
                  (Endpoints.query_text request)
                  (Endpoints.extended_thinking request)) as Hne.
    destruct (Endpoints.advanced_rag_query env
                (Endpoints.ensure_client bedrock_available server)
                (Endpoints.query_text request)
                (Endpoints.extended_thinking request)) as [result client'].
    eexists _, _. split; [reflexivity|]. exact Hne.
  - unfold Endpoints.optimize_sql_query.
    pose proof (rag_answer_nonempty env
                  (Endpoints.ensure_client bedrock_available server)
                  ("How can I optimize this SQL query? " +:+ sql_query)
                  true) as Hne.
    destruct (Endpoints.advanced_rag_query env
                (Endpoints.ensure_client bedrock_available server)
                ("How can I optimize this SQL query? " +:+ sql_query) true)
      as [result client'].
    split; [exact Hne | reflexivity].
Qed.

Lemma query_targets_status (exc_text : HTTPException -> string)
    (query_kb : QueryTarget -> option (string * string * list string))
    (include_thinking include_contexts : bool) (targets : list QueryTarget)
    (e : HTTPException) :
  query_targets exc_text query_kb include_thinking include_contexts targets
  = inl e ->
  status_code e = 500.
Proof.
  unfold query_targets. destruct targets as [|t ts].
  - intros [= <-]. reflexivity.
  - destruct (merge_results _); [|discriminate]. intros [= <-]. reflexivity.
Qed.

(** X29. [multi_kb_query] never fails with a status other than 500: an
    unknown application, raised as 400, leaves as 500 like every other
    failure. A failed request leaves the global client as it was. For a
    request with query targets, [query_knowledge_base] gives the response
    of [multi_kb_query], and wraps its error once more; for a request
    with neither targets nor an application the two endpoints do the
    same. *)
Theorem multi_kb_query_failures
    (exc_text : HTTPException -> string)
    (get_application_kbs : string -> option ApplicationKBs)
    (query_kb : QueryTarget -> option (string * string * list string))
    (env : Retrieval.Env) (bedrock_available : bool)
    (request : Endpoints.QueryRequest) (server : Endpoints.Server) :
  let multi :=
    Endpoints.multi_kb_query exc_text get_application_kbs query_kb env
                             bedrock_available request server in
  let single :=
    Endpoints.query_knowledge_base exc_text get_application_kbs query_kb env
                                   bedrock_available request server in
  (forall e, fst multi = inl e -> status_code e = 500 /\ snd multi = server)
  /\ (forall user,
        Endpoints.explicit_targets request = None ->
        Endpoints.userContext request = Some user ->
        Endpoints.application user <> "" ->
        get_application_kbs (Endpoints.application user) = None ->
        multi
        = (inl (mkHTTP 500
                  (exc_text
                     (mkHTTP 400
                        ("Application '" +:+ Endpoints.application user
                         +:+ "' not found or has no knowledge bases configured")))),
           server))
  /\ (Endpoints.explicit_targets request <> None ->
      (forall response, fst multi = inr response -> single = multi)
      /\ (forall e, fst multi = inl e ->
            single = (inl (mkHTTP 500 (exc_text e)), server)))
  /\ (Endpoints.explicit_targets request = None ->
      (forall user, Endpoints.userContext request = Some user ->
                    Endpoints.application user = "") ->
      multi = single).
Proof.
  cbv zeta. split; [|split; [|split]].
  - intros e. unfold Endpoints.multi_kb_query.
    destruct (Endpoints.explicit_targets request) as [targets|].
    + cbn [fst snd]. intros H. split; [|reflexivity].
      eapply query_targets_status; exact H.
    + assert (Hsingle : forall e',
                 fst (Endpoints.single_kb_query env bedrock_available
                        request server) = inl e' -> False).
      { intros e'. unfold Endpoints.single_kb_query.
        destruct (Endpoints.advanced_rag_query _ _ _ _). discriminate. }
      destruct (Endpoints.userContext request) as [user|];
        [|intros H; now apply Hsingle in H].
      destruct (Py.truthy (Endpoints.application user));
        [|intros H; now apply Hsingle in H].
      destruct (get_application_kbs (Endpoints.application user)).
      * cbn [fst snd]. intros H. split; [|reflexivity].
        eapply query_targets_status; exact H.
      * cbn [fst snd]. intros [= <-]. split; reflexivity.
  - intros user Hnone Huser Happ Hkbs. unfold Endpoints.multi_kb_query.
    rewrite Hnone, Huser, Hkbs.
    destruct (Endpoints.application user); [congruence | reflexivity].
  - intros Hsome. unfold Endpoints.query_knowledge_base.
    destruct (Endpoints.explicit_targets request) as [targets|] eqn:Ht;
      [|congruence].
    destruct (Endpoints.multi_kb_query exc_text get_application_kbs query_kb
                env bedrock_available request server) as [[e|resp] srv] eqn:M.
    + cbn [fst]. split; [discriminate|]. intros e' [= <-].
      unfold Endpoints.multi_kb_query in M. rewrite Ht in M.
      now injection M as _ <-.
    + cbn [fst]. split; [reflexivity | discriminate].
  - intros Hnone Hnoapp.
    unfold Endpoints.multi_kb_query, Endpoints.query_knowledge_base.
    rewrite Hnone.
    destruct (Endpoints.userContext request) as [user|]; [|reflexivity].
    rewrite (Hnoapp user eq_refl). reflexivity.
Qed.
